(** * meshgenerator2: colour atlas and tiled pixel meshes

    A shallow embedding of [meshgenerator2.py].  The script has two
    phases: [generate_color_atlas] packs the distinct visible colours of
    an RGBA image into a 1024x1024 texture and returns a colour -> UV
    dictionary; [create_tiled_meshes] cuts the image into rectangular
    tiles that respect a triangle budget and writes one Wavefront OBJ
    file per tile that is not fully transparent.

    Python integers are [Z], [numpy.uint8] channels are [N], Python
    floats are the kernel's binary64 [float], dictionaries and the
    directory written to are [gmap]s, and exceptions are the [Raise]
    branch of [result]. *)

From stdpp Require Import base numbers list list_numbers strings pretty gmap.
From Stdlib Require Import Ascii Floats Uint63.

Local Open Scope Z_scope.

(** ** Exceptions *)

Inductive py_error : Type :=
  | ZeroDivisionError
  | IndexError
  | ValueError
  | OverflowError.

Inductive result (A : Type) : Type :=
  | Ok (a : A)
  | Raise (e : py_error).

Arguments Ok {A} a.
Arguments Raise {A} e.

#[global] Instance result_ret : MRet result := fun A a => Ok a.
#[global] Instance result_bind : MBind result := fun A B f m =>
  match m with
  | Ok a => f a
  | Raise e => Raise e
  end.

(** [for x in l: s = body(s, x)], stopping at the first exception. *)
Fixpoint for_each {A S : Type} (l : list A) (body : S -> A -> result S)
    (s : S) : result S :=
  match l with
  | [] => Ok s
  | a :: l' => s' ← body s a; for_each l' body s'
  end.

(** ** Integers *)

(** [range(a, b)] *)
Definition py_range (a b : Z) : list Z := seqZ a (b - a).

(** [a // b] on ints; [Z.div] floors like Python does. *)
Definition py_floordiv (a b : Z) : result Z :=
  if b =? 0 then Raise ZeroDivisionError else Ok (a / b).

(** [math.isqrt(n)] *)
Definition py_isqrt (n : Z) : result Z :=
  if n <? 0 then Raise ValueError else Ok (Z.sqrt n).

(** ** Floats *)

(** [float(z)] for an int [z] with [|z| < 2^63].  [of_uint63] rounds to
    nearest; below [2^53] the conversion is exact.  (Python rounds the
    same way up to [2^1024] and raises [OverflowError] above.) *)
Definition float_of_int (z : Z) : float :=
  if z <? 0 then PrimFloat.opp (PrimFloat.of_uint63 (Uint63.of_Z (- z)))
  else PrimFloat.of_uint63 (Uint63.of_Z z).

(** [a / b] on two ints: below [2^53] both conversions are exact and the
    float quotient is the correctly rounded quotient Python returns. *)
Definition int_truediv (a b : Z) : result float :=
  if b =? 0 then Raise ZeroDivisionError
  else Ok (PrimFloat.div (float_of_int a) (float_of_int b)).

(** [math.sqrt(n)] on an int *)
Definition py_sqrt (n : Z) : result float :=
  if n <? 0 then Raise ValueError else Ok (PrimFloat.sqrt (float_of_int n)).

(** [k * x] with [k] an int and [x] a float *)
Definition int_mul_float (k : Z) (x : float) : float :=
  PrimFloat.mul (float_of_int k) x.

(** Mantissa and shifted exponent of [|f|], for finite [f]:
    [|f| = m * 2^(e - 2154)] with [m = 0] or [2^52 <= m < 2^53]
    ([2154 = FloatOps.shift + 53]). *)
Definition float_magnitude (f : float) : int * int :=
  let (fr, e) := PrimFloat.frshiftexp (PrimFloat.abs f) in
  (PrimFloat.normfr_mantissa fr, e).

(** The integer part of [|f|], as a 63-bit integer when [|f| < 2^53]. *)
Definition trunc63 (f : float) : int :=
  let '(m, e) := float_magnitude f in Uint63.lsr m (Uint63.sub 2154 e).

(** The integer part of [|f|]. *)
Definition trunc_abs (f : float) : Z :=
  let '(m, e) := float_magnitude f in
  if Uint63.leb e 2154 then Uint63.to_Z (trunc63 f)
  else Z.shiftl (Uint63.to_Z m) (Uint63.to_Z e - 2154).

(** Whether [f] is an integer. *)
Definition is_integral (f : float) : bool :=
  let '(m, e) := float_magnitude f in
  if Uint63.leb e 2154
  then Uint63.eqb (Uint63.lsl (trunc63 f) (Uint63.sub 2154 e)) m
  else true.

(** [int(f)]: truncation towards zero. *)
Definition py_int (f : float) : result Z :=
  if PrimFloat.is_nan f then Raise ValueError
  else if PrimFloat.is_infinity f then Raise OverflowError
  else Ok (if PrimFloat.ltb f 0 then - trunc_abs f else trunc_abs f).

(** [math.ceil(f)] *)
Definition py_ceil (f : float) : result Z :=
  if PrimFloat.is_nan f then Raise ValueError
  else if PrimFloat.is_infinity f then Raise OverflowError
  else Ok (if PrimFloat.ltb f 0 then - trunc_abs f
           else if is_integral f then trunc_abs f else trunc_abs f + 1).

(** [math.ceil(a / b)] on two ints *)
Definition ceil_truediv (a b : Z) : result Z :=
  q ← int_truediv a b; py_ceil q.

(** ** Pixels and arrays *)

(** A colour key is the tuple of the four [uint8] channels of a pixel. *)
Abbreviation color := (N * N * N * N)%type.

Definition RGBA (r g b a : N) : color := (r, g, b, a).

(** [color[3]] *)
Definition alpha (c : color) : N := c.2.

(** [color[:3]] followed by a new alpha: [( *c[:3], a)] *)
Definition with_alpha (c : color) (a : N) : color := (c.1, a).

(** [numpy] array of shape [(shape_h, shape_w, 4)]; [pixel y x] is the
    colour stored at row [y], column [x]. Only the values at
    [0 <= y < shape_h], [0 <= x < shape_w] are part of the array. *)
Record ndarray : Type := mk_ndarray {
  shape_h : Z;
  shape_w : Z;
  pixel : Z -> Z -> color
}.

(** An integer index on an axis of extent [size]: negative indices count
    from the end, anything else out of range raises [IndexError]. *)
Definition index_axis (size i : Z) : result Z :=
  if (0 <=? i) && (i <? size) then Ok i
  else if (- size <=? i) && (i <? 0) then Ok (i + size)
  else Raise IndexError.

(** [tuple(a[y, x])] *)
Definition getitem (a : ndarray) (y x : Z) : result color :=
  y' ← index_axis (shape_h a) y;
  x' ← index_axis (shape_w a) x;
  mret (pixel a y' x').

(** A slice bound on an axis of extent [size]: negative bounds count from
    the end and the result is clipped to [0, size]. *)
Definition slice_bound (size i : Z) : Z :=
  Z.max 0 (Z.min size (if i <? 0 then i + size else i)).

(** The indices selected by [lo:hi]. *)
Definition slice_range (size lo hi : Z) : list Z :=
  py_range (slice_bound size lo) (slice_bound size hi).

(** [is_tile_fully_transparent]: [np.all(a[y_start:y_end, x_start:x_end, 3] == 0)] *)
Definition is_tile_fully_transparent (orig_pixels : ndarray)
    (x_start x_end y_start y_end : Z) : bool :=
  forallb (fun y =>
    forallb (fun x => (alpha (pixel orig_pixels y x) =? 0)%N)
      (slice_range (shape_w orig_pixels) x_start x_end))
    (slice_range (shape_h orig_pixels) y_start y_end).

(** ** OBJ output *)

(** A number as an f-string prints it: the default UV [(0, 0)] is a pair
    of ints, the entries of the UV dictionary are floats. *)
Inductive py_num : Type :=
  | PyInt (z : Z)
  | PyFloat (f : float).

(** [1 - v] *)
Definition one_minus (v : py_num) : py_num :=
  match v with
  | PyInt z => PyInt (1 - z)
  | PyFloat f => PyFloat (PrimFloat.sub 1 f)
  end.

(** The lines [create_tiled_meshes] writes:
    [# Tile tx,ty], [v x y z], [vt u v] and [f i1/j1 i2/j2 i3/j3 i4/j4]. *)
Inductive obj_line : Type :=
  | Comment (tile_x tile_y : Z)
  | Vertex (x y z : Z)
  | TexCoord (u v : py_num)
  | Face (c1 c2 c3 c4 : Z * Z).

(** [f"pixel_mesh_{tile_x}_{tile_y}.obj"] *)
Definition tile_name (tile_x tile_y : Z) : string :=
  "pixel_mesh_" +:+ pretty tile_x +:+ "_" +:+ pretty tile_y +:+ ".obj".

(** [color_to_uv.get(color, (0, 0))] *)
Definition uv_get (color_to_uv : gmap color (float * float)) (c : color)
    : py_num * py_num :=
  match color_to_uv !! c with
  | Some (u, v) => (PyFloat u, PyFloat v)
  | None => (PyInt 0, PyInt 0)
  end.

(** ** The mesh tiler *)

(** The open file and the two counters of the inner loops.  ([face_index]
    and [index_map] are assigned once and never read.) *)
Record writer : Type := mk_writer {
  written : list obj_line;
  vertex_index : Z;
  uv_index : Z
}.

(** Body of the loop over [x] (source lines 128-148). *)
Definition write_pixel (orig_pixels : ndarray)
    (color_to_uv : gmap color (float * float)) (orig_h : Z)
    (y : Z) (st : writer) (x : Z) : result writer :=
  c ← getitem orig_pixels y x;
  let vs := [Vertex x (orig_h - y) 0; Vertex (x + 1) (orig_h - y) 0;
             Vertex (x + 1) (orig_h - y - 1) 0; Vertex x (orig_h - y - 1) 0] in
  let '(u, v) := uv_get color_to_uv c in
  let vts := [TexCoord u (one_minus v); TexCoord u (one_minus v);
              TexCoord u (one_minus v); TexCoord u (one_minus v)] in
  let vi := vertex_index st in
  let ti := uv_index st in
  let fs := if (0 <? alpha c)%N
            then [Face (vi, ti) (vi + 1, ti + 1) (vi + 2, ti + 2) (vi + 3, ti + 3)]
            else [] in
  mret {| written := written st ++ vs ++ vts ++ fs;
          vertex_index := vi + 4;
          uv_index := ti + 4 |}.

(** The [with open(tile_name, 'w')] block (source lines 116-148); the
    result is the content of the file when it is closed. *)
Definition write_tile (orig_pixels : ndarray)
    (color_to_uv : gmap color (float * float)) (orig_h : Z)
    (tile_x tile_y x_start x_end y_start y_end : Z) : result (list obj_line) :=
  let st0 := {| written := [Comment tile_x tile_y];
                vertex_index := 1; uv_index := 1 |} in
  st ← for_each (py_range y_start y_end)
         (fun st y =>
            for_each (py_range x_start x_end)
              (write_pixel orig_pixels color_to_uv orig_h y) st)
         st0;
  mret (written st).

(** Tile shape and tile counts (source lines 89-94):
    [(cols_per_mesh, rows_per_mesh, num_meshes_x, num_meshes_y)]. *)
Definition tiling (orig_w orig_h max_tris : Z) : result (Z * Z * Z * Z) :=
  let max_pixels_per_mesh := max_tris / 2 in
  r ← py_isqrt max_pixels_per_mesh;
  let cols_per_mesh := Z.min orig_w r in
  q ← py_floordiv max_pixels_per_mesh cols_per_mesh;
  let rows_per_mesh := Z.min orig_h q in
  num_meshes_x ← ceil_truediv orig_w cols_per_mesh;
  num_meshes_y ← ceil_truediv orig_h rows_per_mesh;
  mret (cols_per_mesh, rows_per_mesh, num_meshes_x, num_meshes_y).

(** Tile boundaries (source lines 103-106):
    [(x_start, x_end, y_start, y_end)]. *)
Definition tile_bounds (orig_w orig_h cols_per_mesh rows_per_mesh : Z)
    (tile_x tile_y : Z) : Z * Z * Z * Z :=
  (tile_x * cols_per_mesh,
   Z.min ((tile_x + 1) * cols_per_mesh) orig_w,
   tile_y * rows_per_mesh,
   Z.min ((tile_y + 1) * rows_per_mesh) orig_h).

(** What the run has produced so far: the list it returns, the skip
    counter, and the files on disk, by name. *)
Record run_state : Type := mk_run_state {
  mesh_paths : list string;
  skipped_tiles : Z;
  disk : gmap string (list obj_line)
}.

(** Body of the loop over [tile_x] (source lines 102-148). *)
Definition process_tile (orig_pixels : ndarray)
    (color_to_uv : gmap color (float * float))
    (orig_w orig_h cols_per_mesh rows_per_mesh : Z)
    (tile_y : Z) (st : run_state) (tile_x : Z) : result run_state :=
  let '(x_start, x_end, y_start, y_end) :=
    tile_bounds orig_w orig_h cols_per_mesh rows_per_mesh tile_x tile_y in
  if is_tile_fully_transparent orig_pixels x_start x_end y_start y_end then
    mret {| mesh_paths := mesh_paths st;
            skipped_tiles := skipped_tiles st + 1;
            disk := disk st |}
  else
    lines ← write_tile orig_pixels color_to_uv orig_h
              tile_x tile_y x_start x_end y_start y_end;
    mret {| mesh_paths := mesh_paths st ++ [tile_name tile_x tile_y];
            skipped_tiles := skipped_tiles st;
            disk := <[tile_name tile_x tile_y := lines]> (disk st) |}.

(** [create_tiled_meshes]: the returned [mesh_paths] and the files the
    run has written into an empty directory. *)
Definition create_tiled_meshes (orig_pixels : ndarray)
    (color_to_uv : gmap color (float * float))
    (original_dims : Z * Z) (max_tris : Z)
    : result (list string * gmap string (list obj_line)) :=
  let '(orig_w, orig_h) := original_dims in
  '(cols_per_mesh, rows_per_mesh, num_meshes_x, num_meshes_y) ←
    tiling orig_w orig_h max_tris;
  st ← for_each (py_range 0 num_meshes_y)
         (fun st tile_y =>
            for_each (py_range 0 num_meshes_x)
              (process_tile orig_pixels color_to_uv
                 orig_w orig_h cols_per_mesh rows_per_mesh tile_y) st)
         {| mesh_paths := []; skipped_tiles := 0; disk := ∅ |};
  mret (mesh_paths st, disk st).

(** ** The atlas builder *)

Definition tex_size : Z := 1024.

(** [a[y_start:y_end, x_start:x_end] = c] *)
Definition setitem_slice (a : ndarray) (y_start y_end x_start x_end : Z)
    (c : color) : ndarray :=
  let h := shape_h a in
  let w := shape_w a in
  {| shape_h := h;
     shape_w := w;
     pixel := fun y x =>
       if (slice_bound h y_start <=? y) && (y <? slice_bound h y_end)
          && (slice_bound w x_start <=? x) && (x <? slice_bound w x_end)
       then c else pixel a y x |}.

(** [np.zeros((h, w, 4), dtype=np.uint8)] *)
Definition np_zeros (h w : Z) : ndarray :=
  {| shape_h := h; shape_w := w; pixel := fun _ _ => RGBA 0 0 0 0 |}.

(** The colours handed to [unique_colors.add], in scan order
    (source lines 15-19). *)
Definition visible_colors (orig_pixels : ndarray) : list color :=
  y ← py_range 0 (shape_h orig_pixels);
  x ← py_range 0 (shape_w orig_pixels);
  let c := pixel orig_pixels y x in
  if (0 <? alpha c)%N then [c] else [].

(** [list(s)] for the set [s] built by the calls [s.add(c)], [c] in
    [adds]: some duplicate-free list of the elements added.  Its order is
    the set's iteration order, which the script does not control. *)
Definition enumerates (set_to_list : list color -> list color) : Prop :=
  forall adds, NoDup (set_to_list adds) /\
    forall c, c ∈ set_to_list adds <-> c ∈ adds.

(** [enumerate(l)] *)
Definition enumerate {A : Type} (l : list A) : list (Z * A) :=
  zip (seqZ 0 (Z.of_nat (length l))) l.

(** [i % cols] *)
Definition py_mod (a b : Z) : result Z :=
  if b =? 0 then Raise ZeroDivisionError else Ok (a mod b).

(** Pixel bounds of grid cell [i] (source lines 47-53 and 64-69):
    [(x_start, x_end, y_start, y_end)]. *)
Definition cell_rect (cell_w cell_h : float) (cols i : Z)
    : result (Z * Z * Z * Z) :=
  col ← py_mod i cols;
  row ← py_floordiv i cols;
  x_start ← py_int (int_mul_float col cell_w);
  x_end ← py_int (int_mul_float (col + 1) cell_w);
  y_start ← py_int (int_mul_float row cell_h);
  y_end ← py_int (int_mul_float (row + 1) cell_h);
  mret (x_start, x_end, y_start, y_end).

(** Body of the loop over [enumerate(unique_colors)] (source lines 46-60). *)
Definition place_color (cell_w cell_h : float) (cols : Z)
    (st : ndarray * gmap color (float * float)) (ic : Z * color)
    : result (ndarray * gmap color (float * float)) :=
  let '(texture, color_to_uv) := st in
  let '(i, c) := ic in
  '(x_start, x_end, y_start, y_end) ← cell_rect cell_w cell_h cols i;
  let texture := setitem_slice texture y_start y_end x_start x_end c in
  u ← int_truediv (x_start + x_end) (2 * tex_size);
  v ← int_truediv (y_start + y_end) (2 * tex_size);
  mret (texture, <[c := (u, v)]> color_to_uv).

(** [l[-1]] *)
Definition py_last {A : Type} (l : list A) : result A :=
  match last l with
  | Some a => Ok a
  | None => Raise IndexError
  end.

(** Body of the loop that fills the leftover cells (source lines 63-71). *)
Definition fill_rest (cell_w cell_h : float) (cols : Z)
    (unique_colors : list color) (texture : ndarray) (i : Z)
    : result ndarray :=
  '(x_start, x_end, y_start, y_end) ← cell_rect cell_w cell_h cols i;
  c ← py_last unique_colors;
  mret (setitem_slice texture y_start y_end x_start x_end (with_alpha c 255)).

(** Grid dimensions and cell size from the packed colour count
    (source lines 35-36 and 43-44): [(cols, rows, cell_w, cell_h)]. *)
Definition atlas_grid (num_colors : Z) : result (Z * Z * float * float) :=
  s ← py_sqrt num_colors;
  cols ← py_ceil s;
  q ← int_truediv num_colors cols;
  rows ← py_ceil q;
  cell_w ← int_truediv tex_size cols;
  cell_h ← int_truediv tex_size rows;
  mret (cols, rows, cell_w, cell_h).

(** The colours that are packed and their number (source lines 21-32). *)
Definition packed_colors (set_to_list : list color -> list color)
    (orig_pixels : ndarray) : list color * Z :=
  let unique_colors := set_to_list (visible_colors orig_pixels) in
  let num_colors := Z.of_nat (length unique_colors) in
  let max_colors := tex_size * tex_size in
  if max_colors <? num_colors
  then (take (Z.to_nat max_colors) unique_colors, max_colors)
  else (unique_colors, num_colors).

(** [generate_color_atlas]: the texture saved to [output_path], the UV
    dictionary and the image extent [(w, h)]. *)
Definition generate_color_atlas (set_to_list : list color -> list color)
    (orig_pixels : ndarray)
    : result (ndarray * gmap color (float * float) * (Z * Z)) :=
  let h := shape_h orig_pixels in
  let w := shape_w orig_pixels in
  let '(unique_colors, num_colors) := packed_colors set_to_list orig_pixels in
  '(cols, rows, cell_w, cell_h) ← atlas_grid num_colors;
  '(texture, color_to_uv) ←
    for_each (enumerate unique_colors) (place_color cell_w cell_h cols)
      (np_zeros tex_size tex_size, ∅);
  texture ←
    for_each (py_range num_colors (cols * rows))
      (fill_rest cell_w cell_h cols unique_colors) texture;
  mret (texture, color_to_uv, (w, h)).

(** The whole script (source lines 153-164): atlas first, then the tiles
    with the default budget of 10000 triangles. *)
Definition main (set_to_list : list color -> list color)
    (input_image : ndarray)
    : result (list string * gmap string (list obj_line)) :=
  '(_, uv_map, orig_dims) ← generate_color_atlas set_to_list input_image;
  create_tiled_meshes input_image uv_map orig_dims 10000.

(** ** Vocabulary of the statements *)

(** The pixels [(y, x)] of a tile in the order the inner loops visit them. *)
Definition tile_pixels (x_start x_end y_start y_end : Z) : list (Z * Z) :=
  y ← py_range y_start y_end; x ← py_range x_start x_end; [(y, x)].

(** The tile coordinates [(tile_y, tile_x)] in the order the outer loops
    visit them. *)
Definition all_tiles (num_meshes_x num_meshes_y : Z) : list (Z * Z) :=
  tile_y ← py_range 0 num_meshes_y; tile_x ← py_range 0 num_meshes_x;
  [(tile_y, tile_x)].

(** Pixel [(x, y)] lies in the rectangle [(x_start, x_end, y_start, y_end)]. *)
Definition in_rect (b : Z * Z * Z * Z) (x y : Z) : Prop :=
  let '(x_start, x_end, y_start, y_end) := b in
  x_start <= x < x_end /\ y_start <= y < y_end.

(** Number of pixels of a rectangle. *)
Definition rect_area (b : Z * Z * Z * Z) : Z :=
  let '(x_start, x_end, y_start, y_end) := b in
  (x_end - x_start) * (y_end - y_start).

(** The pixels of a rectangle, row-major. *)
Definition rect_pixels (b : Z * Z * Z * Z) : list (Z * Z) :=
  let '(x_start, x_end, y_start, y_end) := b in
  tile_pixels x_start x_end y_start y_end.

Definition is_vertex (l : obj_line) : bool :=
  match l with Vertex _ _ _ => true | _ => false end.
Definition is_texcoord (l : obj_line) : bool :=
  match l with TexCoord _ _ => true | _ => false end.
Definition is_face (l : obj_line) : bool :=
  match l with Face _ _ _ _ => true | _ => false end.

(** Number of lines of one kind in a file. *)
Definition count_lines (kind : obj_line -> bool) (lines : list obj_line) : Z :=
  Z.of_nat (length (List.filter kind lines)).

(** [color[3] > 0] *)
Definition visible (c : color) : bool := (0 <? alpha c)%N.

(** Number of pixels of a list that have [alpha > 0]. *)
Definition count_visible (orig_pixels : ndarray) (l : list (Z * Z)) : Z :=
  Z.of_nat (length (List.filter
    (fun yx => visible (pixel orig_pixels yx.1 yx.2)) l)).

(** Number of lines of one kind in all the files named by [paths]. *)
Definition count_lines_in (kind : obj_line -> bool)
    (files : gmap string (list obj_line)) (paths : list string) : Z :=
  foldr Z.add 0
    ((fun name => count_lines kind (default [] (files !! name))) <$> paths).

(** The four [v] lines of the quad of pixel [(y, x)]. *)
Definition quad_lines (orig_h : Z) (yx : Z * Z) : list obj_line :=
  let '(y, x) := yx in
  [Vertex x (orig_h - y) 0; Vertex (x + 1) (orig_h - y) 0;
   Vertex (x + 1) (orig_h - y - 1) 0; Vertex x (orig_h - y - 1) 0].

(** The [vt] line of a colour: its UV entry with [v] flipped, or the
    default [(0, 0)], printed as [vt 0 1]. *)
Definition uv_line (color_to_uv : gmap color (float * float)) (c : color)
    : obj_line :=
  match color_to_uv !! c with
  | Some (u, v) => TexCoord (PyFloat u) (PyFloat (PrimFloat.sub 1 v))
  | None => TexCoord (PyInt 0) (PyInt 1)
  end.

(** The [f] line that references the four vertices and UVs [i .. i+3]. *)
Definition face_line (i : Z) : obj_line :=
  Face (i, i) (i + 1, i + 1) (i + 2, i + 2) (i + 3, i + 3).

(** The lines written for one pixel when the counters stand at [vi]. *)
Definition pixel_block (orig_pixels : ndarray)
    (color_to_uv : gmap color (float * float)) (orig_h : Z)
    (vi : Z) (yx : Z * Z) : list obj_line :=
  let c := pixel orig_pixels yx.1 yx.2 in
  quad_lines orig_h yx
  ++ replicate 4 (uv_line color_to_uv c)
  ++ (if visible c then [face_line vi] else []).

(** The lines written for a run of pixels, counters starting at [vi]. *)
Fixpoint tile_blocks (orig_pixels : ndarray)
    (color_to_uv : gmap color (float * float)) (orig_h : Z)
    (l : list (Z * Z)) (vi : Z) : list obj_line :=
  match l with
  | [] => []
  | yx :: l' =>
      pixel_block orig_pixels color_to_uv orig_h vi yx
      ++ tile_blocks orig_pixels color_to_uv orig_h l' (vi + 4)
  end.

(** A tile of the run that is written: its coordinates are in range and
    its rectangle is not fully transparent. *)
Definition written_tile (orig_pixels : ndarray)
    (orig_w orig_h cols_per_mesh rows_per_mesh : Z) (t : Z * Z) : bool :=
  let '(x_start, x_end, y_start, y_end) :=
    tile_bounds orig_w orig_h cols_per_mesh rows_per_mesh t.2 t.1 in
  negb (is_tile_fully_transparent orig_pixels x_start x_end y_start y_end).

(** The content of the file of tile [t = (tile_y, tile_x)]: the header
    and the blocks of its pixels, counters starting at 1. *)
Definition tile_file (orig_pixels : ndarray)
    (color_to_uv : gmap color (float * float))
    (orig_w orig_h cols_per_mesh rows_per_mesh : Z) (t : Z * Z)
    : list obj_line :=
  Comment t.2 t.1
  :: tile_blocks orig_pixels color_to_uv orig_h
       (rect_pixels (tile_bounds orig_w orig_h cols_per_mesh rows_per_mesh t.2 t.1))
       1.

(** The name of the file of tile [t = (tile_y, tile_x)]. *)
Definition tile_path (t : Z * Z) : string := tile_name t.2 t.1.

(** Writing the file of tile [t] into the directory [d]. *)
Definition put_tile (orig_pixels : ndarray)
    (color_to_uv : gmap color (float * float))
    (orig_w orig_h cols_per_mesh rows_per_mesh : Z)
    (d : gmap string (list obj_line)) (t : Z * Z)
    : gmap string (list obj_line) :=
  <[tile_path t :=
      tile_file orig_pixels color_to_uv orig_w orig_h
        cols_per_mesh rows_per_mesh t]> d.

(** A string without the character [c]. *)
Fixpoint char_free (c : ascii) (s : string) : Prop :=
  match s with
  | EmptyString => True
  | String a s' => a <> c /\ char_free c s'
  end.

(** ** Checking the float computations of the atlas builder

    The atlas builder applies float operations to finitely many inputs:
    colour counts up to [tex_size * tex_size], grid positions up to
    [tex_size], pixel sums below [2 * tex_size].  Their properties are
    established by evaluating the operations on every input, on 63-bit
    integers. *)

(** [f] is finite, not negative, and below [2^53]: then [int(f)] is
    [trunc63 f]. *)
Definition fast_ok (f : float) : bool :=
  negb (PrimFloat.is_nan f) && negb (PrimFloat.is_infinity f)
  && negb (PrimFloat.ltb f 0)
  && Uint63.leb (snd (float_magnitude f)) 2154.

(** [math.ceil(f)] for such an [f]. *)
Definition ceil63 (f : float) : int :=
  if is_integral f then trunc63 f else Uint63.add (trunc63 f) 1.

(** [f] holds on each of the [2^k] integers from [lo] on. *)
Fixpoint all_range (k : nat) (lo : int) (f : int -> bool) : bool :=
  match k with
  | O => f lo
  | S k' =>
      all_range k' lo f
      && all_range k' (Uint63.add lo (Uint63.lsl 1 (Uint63.of_Z (Z.of_nat k')))) f
  end.

(** The grid of [n] colours: [cols = ceil(sqrt(n))] and
    [rows = ceil(n / cols)] are computed without exception, are the exact
    ceilings, lie in [1, 1024], and [cols * rows >= n]. *)
Definition grid_check (n : int) : bool :=
  let s := PrimFloat.sqrt (PrimFloat.of_uint63 n) in
  let cols := ceil63 s in
  let q := PrimFloat.div (PrimFloat.of_uint63 n) (PrimFloat.of_uint63 cols) in
  let rows := ceil63 q in
  fast_ok s && fast_ok q
  && Uint63.leb 1 cols && Uint63.leb cols 1024
  && Uint63.leb 1 rows && Uint63.leb rows 1024
  && Uint63.leb n (Uint63.mul cols rows)
  && Uint63.ltb (Uint63.mul (Uint63.sub cols 1) (Uint63.sub cols 1)) n
  && Uint63.leb n (Uint63.mul cols cols)
  && Uint63.ltb (Uint63.mul (Uint63.sub rows 1) cols) n.

(** Grid line [k] of a grid of [c] cells per side:
    [int(k * (tex_size / c))]. *)
Definition grid_line63 (c k : int) : float :=
  PrimFloat.mul (PrimFloat.of_uint63 k)
    (PrimFloat.div (PrimFloat.of_uint63 1024) (PrimFloat.of_uint63 c)).

(** For [k < c]: grid lines [k] and [k + 1] are computed without
    exception, line [k] is strictly left of line [k + 1], and line
    [k + 1] is at most [tex_size]. *)
Definition cell_check (c k : int) : bool :=
  implb (Uint63.ltb k c)
    (fast_ok (grid_line63 c k) && fast_ok (grid_line63 c (Uint63.add k 1))
     && Uint63.ltb (trunc63 (grid_line63 c k))
                   (trunc63 (grid_line63 c (Uint63.add k 1)))
     && Uint63.leb (trunc63 (grid_line63 c (Uint63.add k 1))) 1024).

(** [s / (2 * tex_size)] *)
Definition center63 (s : int) : float :=
  PrimFloat.div (PrimFloat.of_uint63 s) (PrimFloat.of_uint63 2048).

(** The centre of a pixel sum [s1] lies in [[0, 1)] and differs from the
    centre of every other pixel sum [s2]. *)
Definition center_check (s1 : int) : bool :=
  let u1 := center63 s1 in
  PrimFloat.leb 0 u1 && PrimFloat.ltb u1 1
  && all_range 11 0 (fun s2 =>
       Uint63.eqb s1 s2 || negb (PrimFloat.eqb u1 (center63 s2))).

(** The texel under the centre of a pixel sum [s]:
    [int(tex_size * (s / (2 * tex_size)))] is computed without exception
    and is [s // 2]. *)
Definition texel_check (s : int) : bool :=
  let p := PrimFloat.mul (PrimFloat.of_uint63 1024) (center63 s) in
  fast_ok p && Uint63.eqb (trunc63 p) (Uint63.lsr s 1).

(** [1 - s / (2 * tex_size)] is computed exactly: it is the float
    [(2 * tex_size - s) / (2 * tex_size)]. *)
Definition flip_check (s : int) : bool :=
  PrimFloat.Leibniz.eqb (PrimFloat.sub 1 (center63 s))
    (center63 (Uint63.sub 2048 s)).

(** ** Vocabulary of the statements on the atlas *)

(** Grid line [k] of a grid of [c] cells per side, as the atlas builder
    computes it. *)
Definition grid_line (c k : Z) : Z :=
  match cw ← int_truediv tex_size c; py_int (int_mul_float k cw) with
  | Ok z => z
  | Raise _ => 0
  end.

(** The UV coordinate recorded for a cell between grid lines [k] and
    [k + 1]. *)
Definition center (c k : Z) : float :=
  match int_truediv (grid_line c k + grid_line c (k + 1)) (2 * tex_size) with
  | Ok u => u
  | Raise _ => PrimFloat.nan
  end.

(** [0 <= u < 1] *)
Definition in_unit (u : float) : Prop :=
  PrimFloat.leb 0 u = true /\ PrimFloat.ltb u 1 = true.

(** [(u1, v1) != (u2, v2)] *)
Definition uv_differ (p q : float * float) : Prop :=
  PrimFloat.eqb p.1 q.1 = false \/ PrimFloat.eqb p.2 q.2 = false.

(** The pixel rectangle of grid cell [i] of a [cols] by [rows] grid. *)
Definition cell_of (cols rows i : Z) : Z * Z * Z * Z :=
  (grid_line cols (i mod cols), grid_line cols (i mod cols + 1),
   grid_line rows (i / cols), grid_line rows (i / cols + 1)).

(** The UV centre recorded for grid cell [i]. *)
Definition uv_of (cols rows i : Z) : float * float :=
  (center cols (i mod cols), center rows (i / cols)).

(** [l] paired with the indices [i0, i0 + 1, ...]. *)
Definition enumerate_from {A : Type} (i0 : Z) (l : list A) : list (Z * A) :=
  zip (seqZ i0 (Z.of_nat (length l))) l.

(** Filling cell [ic.1] of the texture with the colour [ic.2]. *)
Definition paint (cols rows : Z) (texture : ndarray) (ic : Z * color)
    : ndarray :=
  let '(x_start, x_end, y_start, y_end) := cell_of cols rows ic.1 in
  setitem_slice texture y_start y_end x_start x_end ic.2.

(** Recording the UV centre of cell [ic.1] for the colour [ic.2]. *)
Definition record (cols rows : Z) (color_to_uv : gmap color (float * float))
    (ic : Z * color) : gmap color (float * float) :=
  <[ic.2 := uv_of cols rows ic.1]> color_to_uv.

(** [list(unique_colors)] before truncation: the enumeration of the set
    of visible colours. *)
Definition unique_colors (set_to_list : list color -> list color)
    (orig_pixels : ndarray) : list color :=
  set_to_list (visible_colors orig_pixels).

(** The image has a pixel with [alpha > 0]. *)
Definition has_visible_pixel (orig_pixels : ndarray) : Prop :=
  exists y x, 0 <= y < shape_h orig_pixels /\ 0 <= x < shape_w orig_pixels
              /\ visible (pixel orig_pixels y x) = true.

(** ** Sample inputs *)

(** A 3x2 image: column 0 has one opaque and one fully transparent pixel,
    column 1 is fully transparent, column 2 has two half-transparent
    pixels of different colours. *)
Definition sample_image : ndarray :=
  {| shape_h := 2; shape_w := 3;
     pixel := fun y x =>
       if x =? 1 then RGBA 0 0 0 0
       else if x =? 0 then RGBA 200 10 10 (if y =? 0 then 255 else 0)
       else RGBA 10 (Z.to_N y) 200 128 |}.

(** A 1x1 image whose only pixel is fully transparent. *)
Definition transparent_pixel : ndarray :=
  {| shape_h := 1; shape_w := 1; pixel := fun _ _ => RGBA 0 0 0 0 |}.

(** Opaque colour number [k]: the bytes of [k] as red, green and blue. *)
Definition color_of_index (k : Z) : color :=
  RGBA (Z.to_N (k mod 256)) (Z.to_N ((k / 256) mod 256))
    (Z.to_N (k / 65536)) 255.

(** A 1024x1025 image whose pixels all have different opaque colours. *)
Definition many_colors_image : ndarray :=
  {| shape_h := 1025; shape_w := 1024;
     pixel := fun y x => color_of_index (y * 1024 + x) |}.

(** * Loops *)

Section for_each.
Context {A S : Type}.
Implicit Types (l : list A) (body : S -> A -> result S) (s : S).

Lemma for_each_app l1 l2 body s :
  for_each (l1 ++ l2) body s = s' ← for_each l1 body s; for_each l2 body s'.
Proof.
  revert s. induction l1 as [|a l1 IH]; intros s; simpl; [done|].
  destruct (body s a) as [s1|e]; simpl; [apply IH|done].
Qed.

End for_each.

Section for_each_nested.
Context {A B S : Type}.

Lemma for_each_nested (ys : list B) (xs : list A)
    (body : B -> S -> A -> result S) s :
  for_each ys (fun st y => for_each xs (body y) st) s
  = for_each (y ← ys; x ← xs; [(y, x)]) (fun st yx => body yx.1 st yx.2) s.
Proof.
  revert s. induction ys as [|y ys IH]; intros s; [done|].
  rewrite bind_cons, for_each_app. simpl.
  assert (forall s0, for_each (xs ≫= fun x => [(y, x)])
                       (fun st yx => body yx.1 st yx.2) s0
                     = for_each xs (body y) s0) as Hx.
  { clear. induction xs as [|x xs IHx]; intros s0; [done|].
    rewrite bind_cons. simpl.
    destruct (body y s0 x); simpl; [apply IHx|done]. }
  rewrite Hx.
  destruct (for_each xs (body y) s) as [s1|e]; simpl; [apply IH|done].
Qed.
End for_each_nested.

(** * 63-bit integers and binary64 floats *)

Lemma wB_eq : Uint63.wB = 9223372036854775808.
Proof. reflexivity. Qed.

Lemma to_Z_range (i : int) : 0 <= Uint63.to_Z i < 9223372036854775808.
Proof. rewrite <-wB_eq. apply Uint63.to_Z_bounded. Qed.

Lemma to_of_Z (z : Z) :
  0 <= z < 9223372036854775808 -> Uint63.to_Z (Uint63.of_Z z) = z.
Proof.
  intros. rewrite Uint63.of_Z_spec, wB_eq. by apply Z.mod_small.
Qed.

Lemma float_of_int_nonneg (z : Z) :
  0 <= z -> float_of_int z = PrimFloat.of_uint63 (Uint63.of_Z z).
Proof.
  intros. unfold float_of_int. destruct (Z.ltb_spec z 0); [lia|done].
Qed.

(** ** Significands and rounding *)

Lemma digits2_pos_bounds (p : positive) :
  2 ^ (Z.pos (digits2_pos p) - 1) <= Z.pos p < 2 ^ Z.pos (digits2_pos p).
Proof.
  induction p as [p IH|p IH|]; cbn [digits2_pos].
  - rewrite Pos2Z.inj_succ, (Pos2Z.inj_xI p).
    replace (Z.succ (Z.pos (digits2_pos p)) - 1)
      with (Z.succ (Z.pos (digits2_pos p) - 1)) by lia.
    rewrite !Z.pow_succ_r by lia. lia.
  - rewrite Pos2Z.inj_succ, (Pos2Z.inj_xO p).
    replace (Z.succ (Z.pos (digits2_pos p)) - 1)
      with (Z.succ (Z.pos (digits2_pos p) - 1)) by lia.
    rewrite !Z.pow_succ_r by lia. lia.
  - simpl. lia.
Qed.

Lemma digits2_pos_eq (p : positive) (d : Z) :
  2 ^ (d - 1) <= Z.pos p < 2 ^ d -> Z.pos (digits2_pos p) = d.
Proof.
  intros [Hlo Hhi]. pose proof (digits2_pos_bounds p) as [Hlo' Hhi'].
  assert (0 < d) as Hd.
  { destruct (Z.lt_trichotomy d 0) as [?|[->|?]]; [|simpl in Hhi; lia|done].
    rewrite Z.pow_neg_r in Hhi by done. lia. }
  destruct (Z.lt_trichotomy (Z.pos (digits2_pos p)) d) as [Hlt|[?|Hgt]]; [|done|].
  - assert (2 ^ Z.pos (digits2_pos p) <= 2 ^ (d - 1))
      by (apply Z.pow_le_mono_r; lia). lia.
  - assert (2 ^ d <= 2 ^ (Z.pos (digits2_pos p) - 1))
      by (apply Z.pow_le_mono_r; lia). lia.
Qed.

Lemma iter_xO_spec (m k : positive) :
  Z.pos (Pos.iter xO m k) = Z.pos m * 2 ^ Z.pos k.
Proof.
  change (Pos.iter xO m k) with (shift_pos k m).
  rewrite shift_pos_correct, Zpower_pos_nat, Zpower_nat_Z.
  rewrite positive_nat_Z. lia.
Qed.


Lemma fexp_normal (x : Z) : -1000 <= x -> fexp prec emax x = x - 53.
Proof. unfold fexp, emin, prec, emax. lia. Qed.

Lemma shr_record_of_loc_m (m : Z) (l : location) :
  shr_m (shr_record_of_loc m l) = m.
Proof. by destruct l as [|[]]. Qed.

Lemma loc_of_shr_record_of_loc (m : Z) (l : location) :
  loc_of_shr_record (shr_record_of_loc m l) = l.
Proof. by destruct l as [|[]]. Qed.

Lemma round_nearest_even_cases (m : Z) (l : location) :
  (round_nearest_even m l = m \/ round_nearest_even m l = m + 1)
  /\ (l = loc_Exact -> round_nearest_even m l = m).
Proof.
  destruct l as [|[]]; cbn; try destruct (Z.even m); auto with lia.
  all: split; [auto|done].
Qed.

(** The last step of [binary_round_aux]: a rounded significand that has
    reached [2^53] is renormalised. *)
Lemma round_finish (m e : Z) :
  2 ^ 52 <= m <= 2 ^ 53 -> -1000 <= e <= 950 ->
  exists (mr : positive) (k : Z),
    (let '(mrs, e') := shr_fexp prec emax m e loc_Exact in
     match shr_m mrs with
     | 0 => S754_zero false
     | Z.pos m => if e' <=? emax - prec then S754_finite false m e'
                  else S754_infinity false
     | Z.neg _ => S754_nan
     end) = S754_finite false mr (e + k)
    /\ 0 <= k <= 1
    /\ 2 ^ 52 <= Z.pos mr < 2 ^ 53
    /\ Z.pos mr * 2 ^ k = m.
Proof.
  intros Hm He. destruct m as [|p|p]; [lia| |lia].
  destruct (decide (Z.pos p = 2 ^ 53)) as [Heq|Hne].
  - change (2 ^ 53) with (Z.pos 9007199254740992) in Heq.
    injection Heq as ->.
    exists (4503599627370496)%positive, 1.
    unfold shr_fexp. cbn [Zdigits2].
    change (Z.pos (digits2_pos 9007199254740992)) with 54.
    rewrite fexp_normal by lia. replace (54 + e - 53 - e) with 1 by lia.
    cbn [shr shr_record_of_loc iter_pos shr_1 shr_m].
    assert ((e + 1 <=? emax - prec) = true) as ->
      by (apply Z.leb_le; unfold emax, prec; lia).
    split_and!; try done; lia.
  - exists p, 0.
    assert (Z.pos (digits2_pos p) = 53) as Hd by (apply digits2_pos_eq; lia).
    unfold shr_fexp. cbn [Zdigits2]. rewrite Hd.
    rewrite fexp_normal by lia. replace (53 + e - 53 - e) with 0 by lia.
    cbn [shr shr_record_of_loc shr_m].
    assert ((e <=? emax - prec) = true) as ->
      by (apply Z.leb_le; unfold emax, prec; lia).
    rewrite Z.add_0_r. split_and!; try done; lia.
Qed.

(** Rounding a 53- or 54-digit significand. *)
Lemma binary_round_aux_spec (q e : Z) (l : location) :
  2 ^ 52 <= q < 2 ^ 54 -> -1000 <= e <= 900 ->
  exists (mr : positive) (k : Z),
    binary_round_aux prec emax false q e l = S754_finite false mr (e + k)
    /\ 0 <= k <= 2
    /\ 2 ^ 52 <= Z.pos mr < 2 ^ 53
    /\ q - 1 <= Z.pos mr * 2 ^ k <= q + 2
    /\ (l = loc_Exact -> q < 2 ^ 53 \/ Z.even q = true ->
        Z.pos mr * 2 ^ k = q).
Proof.
  intros Hq He. destruct q as [|p|p]; [lia| |lia].
  unfold binary_round_aux.
  destruct (decide (Z.pos p < 2 ^ 53)) as [Hlt|Hge].
  - assert (Z.pos (digits2_pos p) = 53) as Hd by (apply digits2_pos_eq; lia).
    unfold shr_fexp at 1. cbn [Zdigits2]. rewrite Hd.
    rewrite fexp_normal by lia. replace (53 + e - 53 - e) with 0 by lia. cbn [shr].
    rewrite shr_record_of_loc_m, loc_of_shr_record_of_loc.
    destruct (round_nearest_even_cases (Z.pos p) l) as [Hr Hexact].
    destruct (round_finish (round_nearest_even (Z.pos p) l) e)
      as (mr & k & -> & Hk & Hmr & HV); [lia..|].
    exists mr, k. split_and!; try done; try lia.
    intros -> _. rewrite HV. by apply Hexact.
  - assert (Z.pos (digits2_pos p) = 54) as Hd by (apply digits2_pos_eq; lia).
    unfold shr_fexp at 1. cbn [Zdigits2]. rewrite Hd.
    rewrite fexp_normal by lia. replace (54 + e - 53 - e) with 1 by lia.
    cbn [shr iter_pos].
    set (mrs := shr_1 (shr_record_of_loc (Z.pos p) l)).
    assert (2 ^ 52 <= shr_m mrs < 2 ^ 53
            /\ (Z.pos p - 1 <= 2 * round_nearest_even (shr_m mrs) (loc_of_shr_record mrs)
                <= Z.pos p + 2)
            /\ (l = loc_Exact -> Z.even (Z.pos p) = true ->
                2 * round_nearest_even (shr_m mrs) (loc_of_shr_record mrs) = Z.pos p))
      as (Hm & Hr & Hexact).
    { subst mrs. destruct p as [p|p|]; [| |lia].
      - destruct l as [|[]];
          cbn [shr_1 shr_record_of_loc shr_m loc_of_shr_record
               round_nearest_even orb];
          try destruct (Z.even (Z.pos p)); split_and!; try done; lia.
      - destruct l as [|[]];
          cbn [shr_1 shr_record_of_loc shr_m loc_of_shr_record
               round_nearest_even orb];
          try destruct (Z.even (Z.pos p)); split_and!; try done; lia. }
    destruct (round_nearest_even_cases (shr_m mrs) (loc_of_shr_record mrs))
      as [Hr' _].
    destruct (round_finish (round_nearest_even (shr_m mrs) (loc_of_shr_record mrs))
                (e + 1))
      as (mr & k & -> & Hk & Hmr & HV); [lia..|].
    exists mr, (1 + k). rewrite Z.add_assoc.
    rewrite Z.pow_add_r by lia. change (2 ^ 1) with 2.
    split_and!; try done; try lia.
    intros Hl [?|Hev]; [lia|]. specialize (Hexact Hl Hev). lia.
Qed.

(** An int below [2^53] converts exactly: the significand is the int
    shifted to 53 digits. *)
Lemma float_of_int_SF (a : Z) :
  0 < a < 2 ^ 53 ->
  exists (m : positive) (s : Z),
    Prim2SF (float_of_int a) = S754_finite false m (- s)
    /\ 0 <= s <= 52
    /\ 2 ^ 52 <= Z.pos m < 2 ^ 53
    /\ Z.pos m = a * 2 ^ s.
Proof.
  intros Ha. rewrite float_of_int_nonneg by lia.
  rewrite of_uint63_spec, to_of_Z by lia.
  destruct a as [|p|p]; [lia| |lia].
  cbn [binary_normalize]. unfold binary_round.
  pose proof (digits2_pos_bounds p) as Hd.
  set (d := Z.pos (digits2_pos p)) in *.
  assert (1 <= d <= 53) as Hd53.
  { split; [subst d; lia|].
    destruct (decide (d <= 53)) as [|Hgt]; [done|].
    assert (2 ^ 53 <= 2 ^ (d - 1)) by (apply Z.pow_le_mono_r; lia). lia. }
  rewrite fexp_normal by lia.
  assert (exists mz : positive,
            shl_align p 0 (d + 0 - 53) = (mz, d - 53)
            /\ Z.pos mz = Z.pos p * 2 ^ (53 - d)) as (mz & -> & Hmz).
  { unfold shl_align. destruct (d + 0 - 53 - 0) as [|k|k] eqn:Hk; [|lia|].
    - exists p. replace d with 53 by lia. split; [done|]. simpl. lia.
    - exists (Pos.iter xO p k). split; [f_equal; lia|].
      rewrite iter_xO_spec. f_equal. f_equal. lia. }
  assert (2 ^ 52 <= Z.pos mz < 2 ^ 53) as Hrange.
  { rewrite Hmz.
    replace (2 ^ 52) with (2 ^ (d - 1) * 2 ^ (53 - d))
      by (rewrite <-Z.pow_add_r by lia; f_equal; lia).
    replace (2 ^ 53) with (2 ^ d * 2 ^ (53 - d))
      by (rewrite <-Z.pow_add_r by lia; f_equal; lia).
    assert (0 < 2 ^ (53 - d)) by (apply Z.pow_pos_nonneg; lia). nia. }
  destruct (binary_round_aux_spec (Z.pos mz) (d - 53) loc_Exact)
    as (mr & k & -> & Hk & Hmr & _ & Hexact); [lia..|].
  specialize (Hexact eq_refl (or_introl (proj2 Hrange))).
  assert (k = 0) as ->.
  { destruct (decide (k = 0)) as [|Hne]; [done|].
    assert (2 ^ 1 <= 2 ^ k) by (apply Z.pow_le_mono_r; lia).
    change (2 ^ 1) with 2 in *. nia. }
  exists mr, (53 - d). rewrite Z.mul_1_r in Hexact.
  split_and!; [f_equal; lia|lia..| |]; lia.
Qed.

Lemma new_location_0 (n : Z) : new_location n 0 = loc_Exact.
Proof. unfold new_location. by destruct (Z.even n). Qed.

(** The quotient of two normal significands: the float quotient is the
    integer quotient [q] of the significands, scaled, at most one unit
    below [q] and two above, and [q] itself when the division is exact. *)
Lemma SFdiv_normal (m1 m2 : positive) (s1 s2 : Z) :
  2 ^ 52 <= Z.pos m1 < 2 ^ 53 -> 2 ^ 52 <= Z.pos m2 < 2 ^ 53 ->
  0 <= s1 <= 52 -> 0 <= s2 <= 52 ->
  let q := (Z.pos m1 * 2 ^ 53) / Z.pos m2 in
  exists (mr : positive) (k : Z),
    SFdiv prec emax (S754_finite false m1 (- s1)) (S754_finite false m2 (- s2))
    = S754_finite false mr (k - (53 + s1 - s2))
    /\ 0 <= k <= 2
    /\ 2 ^ 52 <= Z.pos mr < 2 ^ 53
    /\ q - 1 <= Z.pos mr * 2 ^ k <= q + 2
    /\ ((Z.pos m1 * 2 ^ 53) mod Z.pos m2 = 0 -> Z.even q = true ->
        Z.pos mr * 2 ^ k = q).
Proof.
  intros Hm1 Hm2 Hs1 Hs2 q.
  assert (Z.pos (digits2_pos m1) = 53) as Hd1 by (apply digits2_pos_eq; lia).
  assert (Z.pos (digits2_pos m2) = 53) as Hd2 by (apply digits2_pos_eq; lia).
  assert (2 ^ 52 <= q < 2 ^ 54) as Hq.
  { subst q. split.
    - apply Z.div_le_lower_bound; [lia|]. nia.
    - apply Z.div_lt_upper_bound; [lia|]. nia. }
  assert (SFdiv_core_binary prec emax (Z.pos m1) (- s1) (Z.pos m2) (- s2)
          = (q, - (53 + s1 - s2),
             new_location (Z.pos m2) ((Z.pos m1 * 2 ^ 53) mod Z.pos m2)))
    as Hcore.
  { unfold SFdiv_core_binary. cbn [Zdigits2]. rewrite Hd1, Hd2.
    rewrite fexp_normal by lia.
    replace (Z.min (53 + - s1 - (53 + - s2) - 53) (- s1 - - s2))
      with (- (53 + s1 - s2)) by lia.
    replace (- s1 - - s2 - - (53 + s1 - s2)) with 53 by lia.
    rewrite Z.shiftl_mul_pow2 by lia.
    unfold q, Z.div, Z.modulo.
    by destruct (Z.div_eucl (Z.pos m1 * 2 ^ 53) (Z.pos m2)). }
  unfold SFdiv. rewrite Hcore. cbn [xorb].
  destruct (binary_round_aux_spec q (- (53 + s1 - s2))
              (new_location (Z.pos m2) ((Z.pos m1 * 2 ^ 53) mod Z.pos m2)))
    as (mr & k & -> & Hk & Hmr & HV & Hexact); [lia..|].
  exists mr, k. split_and!; [f_equal; lia|lia..| |].
  - lia.
  - intros Hr Hev. rewrite Hr, new_location_0 in Hexact. auto.
Qed.

(** ** Reading a float *)

Lemma float_magnitude_finite (f : float) (sg : bool) (m : positive) (s : Z) :
  Prim2SF f = S754_finite sg m (- s) ->
  2 ^ 52 <= Z.pos m < 2 ^ 53 -> 0 <= s <= 2000 ->
  exists mi ei : int,
    float_magnitude f = (mi, ei)
    /\ Uint63.to_Z mi = Z.pos m /\ Uint63.to_Z ei = 2154 - s.
Proof.
  intros Hf Hm Hs. unfold float_magnitude.
  pose proof (frshiftexp_spec (PrimFloat.abs f)) as Hfr.
  destruct (PrimFloat.frshiftexp (PrimFloat.abs f)) as [fr ei].
  rewrite abs_spec, Hf in Hfr. cbn [SFabs SFfrexp] in Hfr.
  assert (Z.pos (digits2_pos m) = 53) as Hd by (apply digits2_pos_eq; lia).
  rewrite Hd in Hfr. change (prec <=? 53) with true in Hfr. cbv iota in Hfr.
  injection Hfr as Hfr Hei.
  exists (PrimFloat.normfr_mantissa fr), ei. split; [done|]. split.
  - rewrite normfr_mantissa_spec, Hfr. cbn [SFnormfr_mantissa].
    by rewrite Z.eqb_refl.
  - unfold shift, prec in Hei. lia.
Qed.

Lemma is_nan_finite (f : float) (sg : bool) (m : positive) (e : Z) :
  Prim2SF f = S754_finite sg m e -> PrimFloat.is_nan f = false.
Proof.
  intros Hf. unfold PrimFloat.is_nan. rewrite FloatAxioms.eqb_spec, Hf.
  unfold SFeqb. cbn [SFcompare].
  rewrite Z.compare_refl, Pos.compare_cont_refl. by destruct sg.
Qed.

Lemma is_infinity_finite (f : float) (sg : bool) (m : positive) (e : Z) :
  Prim2SF f = S754_finite sg m e -> PrimFloat.is_infinity f = false.
Proof.
  intros Hf. unfold PrimFloat.is_infinity. rewrite FloatAxioms.eqb_spec, abs_spec, Hf.
  reflexivity.
Qed.

Lemma ltb_0_finite (f : float) (m : positive) (e : Z) :
  Prim2SF f = S754_finite false m e -> PrimFloat.ltb f 0 = false.
Proof. intros Hf. rewrite FloatAxioms.ltb_spec, Hf. reflexivity. Qed.

(** [math.ceil] of a positive normal float below [2^53]. *)
Lemma py_ceil_finite (f : float) (m : positive) (s : Z) :
  Prim2SF f = S754_finite false m (- s) ->
  2 ^ 52 <= Z.pos m < 2 ^ 53 -> 0 <= s <= 2000 ->
  py_ceil f
  = Ok (if Z.pos m mod 2 ^ s =? 0 then Z.pos m / 2 ^ s
        else Z.pos m / 2 ^ s + 1).
Proof.
  intros Hf Hm Hs. unfold py_ceil.
  rewrite (is_nan_finite _ _ _ _ Hf), (is_infinity_finite _ _ _ _ Hf),
    (ltb_0_finite _ _ _ Hf).
  destruct (float_magnitude_finite f false m s Hf Hm Hs)
    as (mi & ei & Hmag & Hmi & Hei).
  assert (0 < 2 ^ s) as Hpow by (apply Z.pow_pos_nonneg; lia).
  pose proof (Z.div_mod (Z.pos m) (2 ^ s) ltac:(lia)) as Hdm.
  pose proof (Z.mod_pos_bound (Z.pos m) (2 ^ s) Hpow) as Hmod.
  assert (Uint63.to_Z (Uint63.sub 2154 ei) = s) as Hsh.
  { rewrite Uint63.sub_spec, Hei, wB_eq.
    change (Uint63.to_Z 2154) with 2154. rewrite Z.mod_small; lia. }
  assert (Uint63.to_Z (trunc63 f) = Z.pos m / 2 ^ s) as Ht.
  { unfold trunc63. rewrite Hmag, Uint63.lsr_spec, Hsh, Hmi. done. }
  assert (trunc_abs f = Z.pos m / 2 ^ s) as Hta.
  { unfold trunc_abs. rewrite Hmag.
    assert (Uint63.leb ei 2154 = true) as ->.
    { apply Uint63.leb_spec. change (Uint63.to_Z 2154) with 2154. lia. }
    done. }
  assert (is_integral f = (Z.pos m mod 2 ^ s =? 0)) as Hint.
  { unfold is_integral. rewrite Hmag.
    assert (Uint63.leb ei 2154 = true) as ->.
    { apply Uint63.leb_spec. change (Uint63.to_Z 2154) with 2154. lia. }
    assert (Uint63.to_Z (Uint63.lsl (trunc63 f) (Uint63.sub 2154 ei))
            = Z.pos m / 2 ^ s * 2 ^ s) as Hl.
    { rewrite Uint63.lsl_spec, Ht, Hsh, wB_eq. apply Z.mod_small.
      assert (0 <= Z.pos m / 2 ^ s) by (apply Z.div_pos; lia). nia. }
    destruct (Z.eqb_spec (Z.pos m mod 2 ^ s) 0) as [Hz|Hnz].
    - apply Uint63.eqb_spec, Uint63.to_Z_inj. rewrite Hl, Hmi. lia.
    - apply not_true_is_false. intros Heq%Uint63.eqb_spec.
      apply (f_equal Uint63.to_Z) in Heq. rewrite Hl, Hmi in Heq. lia. }
  rewrite Hint, Hta. done.
Qed.

(** ** The ceiling of a float quotient *)

Lemma py_ceil_zero (f : float) :
  Prim2SF f = S754_zero false -> py_ceil f = Ok 0.
Proof.
  intros Hf. assert (f = 0%float) as -> by (by apply Prim2SF_inj).
  reflexivity.
Qed.

Lemma ceiling_cases (a b : Z) :
  0 < b ->
  - ((- a) / b) = if a mod b =? 0 then a / b else a / b + 1.
Proof.
  intros Hb. pose proof (Z.div_mod a b ltac:(lia)) as Hdm.
  pose proof (Z.mod_pos_bound a b Hb) as Hmod.
  destruct (Z.eqb_spec (a mod b) 0) as [Hz|Hnz].
  - assert ((- a) / b = - (a / b)) as ->; [|lia].
    symmetry. apply (Z.div_unique _ _ _ 0); lia.
  - assert ((- a) / b = - (a / b + 1)) as ->; [|lia].
    symmetry. apply (Z.div_unique _ _ _ (b - a mod b)); lia.
Qed.

(** [math.ceil(a / b)] on two ints, computed in binary64, is the exact
    ceiling of the quotient. *)
Lemma ceil_truediv_float (a b : Z) :
  0 <= a < 2 ^ 51 -> 0 < b < 2 ^ 53 ->
  ceil_truediv a b = Ok (- ((- a) / b)).
Proof.
  intros Ha Hb. unfold ceil_truediv, int_truediv.
  destruct (Z.eqb_spec b 0) as [|_]; [lia|].
  change (py_ceil (PrimFloat.div (float_of_int a) (float_of_int b))
          = Ok (- (- a / b))).
  destruct (float_of_int_SF b Hb) as (m2 & s2 & Hfb & Hs2 & Hm2 & Hb2).
  destruct (decide (a = 0)) as [->|Hnz].
  { rewrite py_ceil_zero; [done|].
    rewrite FloatAxioms.div_spec, Hfb. reflexivity. }
  destruct (float_of_int_SF a ltac:(lia)) as (m1 & s1 & Hfa & Hs1 & Hm1 & Ha1).
  destruct (SFdiv_normal m1 m2 s1 s2 Hm1 Hm2 Hs1 Hs2)
    as (mr & k & Hdiv & Hk & Hmr & HV & Hexact).
  set (E := 53 + s1 - s2) in *.
  set (T := 2 ^ E).
  (* sizes *)
  assert (0 < 2 ^ s1 /\ 0 < 2 ^ s2 /\ 0 < 2 ^ k) as (Hp1 & Hp2 & Hpk)
    by (split_and!; apply Z.pow_pos_nonneg; lia).
  assert (2 <= s1) as Hs1'.
  { destruct (decide (2 <= s1)) as [|Hlt]; [done|].
    assert (2 ^ s1 <= 2 ^ 1) by (apply Z.pow_le_mono_r; lia).
    change (2 ^ 1) with 2 in *. nia. }
  assert (4 * b < T) as HT.
  { assert (2 ^ 2 <= 2 ^ s1) by (apply Z.pow_le_mono_r; lia).
    change (2 ^ 2) with 4 in *.
    assert (T * 2 ^ s2 = 2 ^ 53 * 2 ^ s1) as HTs.
    { subst T E. rewrite <-!Z.pow_add_r by lia. f_equal. lia. }
    nia. }
  assert (Z.pos m1 * 2 ^ 53 = a * T * 2 ^ s2) as Hnum.
  { rewrite Ha1. subst T E.
    rewrite <-!Z.mul_assoc, <-!Z.pow_add_r by lia. do 2 f_equal. lia. }
  rewrite Hnum, Hb2 in HV, Hexact.
  rewrite Z.div_mul_cancel_r in HV, Hexact by lia.
  (* the result *)
  assert (Prim2SF (PrimFloat.div (float_of_int a) (float_of_int b))
          = S754_finite false mr (- (E - k))) as Hquot.
  { rewrite FloatAxioms.div_spec, Hfa, Hfb. unfold SF64div.
    rewrite Hdiv. f_equal. lia. }
  rewrite (py_ceil_finite _ mr (E - k) Hquot) by lia.
  f_equal. rewrite ceiling_cases by lia.
  set (P := 2 ^ (E - k)).
  assert (0 < P) as HP by (apply Z.pow_pos_nonneg; lia).
  assert (T = P * 2 ^ k) as HTP.
  { subst T P. rewrite <-Z.pow_add_r by lia. f_equal. lia. }
  pose proof (Z.div_mod a b ltac:(lia)) as Hdm.
  pose proof (Z.mod_pos_bound a b ltac:(lia)) as Hmod.
  set (n := a / b) in *. set (r := a mod b) in *.
  destruct (Z.eqb_spec r 0) as [Hr|Hr].
  - (* the quotient is the integer [n] *)
    assert (a * T = n * T * b) as HaT by nia.
    assert (a * T / b = n * T) as Hq by (rewrite HaT; apply Z.div_mul; lia).
    assert (Z.pos mr * 2 ^ k = n * T) as HVn.
    { rewrite <-Hq. apply Hexact.
      - rewrite HaT. replace (n * T * b * 2 ^ s2) with (n * T * (b * 2 ^ s2))
          by lia. apply Z.mod_mul. lia.
      - rewrite Hq. rewrite Z.even_mul. apply orb_true_iff. right.
        subst T. apply Z.even_pow. lia. }
    assert (Z.pos mr = P * n) as Hmrn by nia.
    rewrite Hmrn, Z.mul_comm, Z.mod_mul, Z.div_mul by lia. done.
  - assert (n * T + 4 <= a * T / b) as Hlo.
    { apply Z.div_le_lower_bound; [lia|]. nia. }
    assert (a * T / b < (n + 1) * T - 3) as Hhi.
    { apply Z.div_lt_upper_bound; [lia|]. nia. }
    assert (P * n < Z.pos mr < P * (n + 1)) as Hbetween by nia.
    assert (Z.pos mr / P = n) as Hdivn.
    { symmetry. apply (Z.div_unique _ _ _ (Z.pos mr - P * n)); lia. }
    assert (Z.pos mr mod P = Z.pos mr - P * n) as Hmodn.
    { symmetry. apply (Z.mod_unique _ _ n); lia. }
    rewrite Hdivn, Hmodn.
    destruct (Z.eqb_spec (Z.pos mr - P * n) 0); [lia|done].
Qed.

Example ceil_truediv_exact : ceil_truediv 6 2 = Ok 3.
Proof. reflexivity. Qed.

Example ceil_truediv_up : ceil_truediv 7 2 = Ok 4.
Proof. reflexivity. Qed.

Example ceil_truediv_by_zero : ceil_truediv 7 0 = Raise ZeroDivisionError.
Proof. reflexivity. Qed.

(** Float products need not be exact: [49 * (1024 / 49)] is just below
    1024. *)
Example py_int_inexact_product :
  (cell_w ← int_truediv 1024 49; py_int (int_mul_float 49 cell_w)) = Ok 1023.
Proof. reflexivity. Qed.

(** * Tiling arithmetic *)

Lemma ceil_truediv_spec a b :
  0 <= a < 2 ^ 51 -> 0 < b < 2 ^ 53 ->
  exists n, ceil_truediv a b = Ok n /\ (n - 1) * b < a <= n * b.
Proof.
  intros Ha Hb. rewrite ceil_truediv_float by done.
  eexists; split; [done|].
  pose proof (Z.mul_div_le (- a) b ltac:(lia)).
  pose proof (Z.mul_succ_div_gt (- a) b ltac:(lia)). lia.
Qed.

Lemma tiling_spec w h max_tris :
  1 <= w < 2 ^ 51 -> 1 <= h < 2 ^ 51 -> 2 <= max_tris ->
  exists cpm rpm nx ny,
    tiling w h max_tris = Ok (cpm, rpm, nx, ny)
    /\ cpm = Z.min w (Z.sqrt (max_tris / 2))
    /\ rpm = Z.min h ((max_tris / 2) / cpm)
    /\ 1 <= cpm /\ 1 <= rpm /\ cpm * rpm * 2 <= max_tris
    /\ (nx - 1) * cpm < w <= nx * cpm
    /\ (ny - 1) * rpm < h <= ny * rpm.
Proof.
  intros Hw Hh Ht. unfold tiling.
  set (m := max_tris / 2).
  assert (1 <= m) as Hm by (subst m; apply Z.div_le_lower_bound; lia).
  assert (2 * m <= max_tris) as Hm2 by (subst m; apply Z.mul_div_le; lia).
  unfold py_isqrt. destruct (Z.ltb_spec m 0) as [?|_]; [lia|]. simpl.
  pose proof (Z.sqrt_spec m ltac:(lia)) as Hs. cbv zeta in Hs.
  set (r := Z.sqrt m) in *.
  assert (1 <= r) as Hr by nia.
  set (cpm := Z.min w r).
  assert (1 <= cpm <= r) as Hc by lia.
  unfold py_floordiv. destruct (Z.eqb_spec cpm 0) as [?|_]; [lia|]. simpl.
  assert (cpm <= m / cpm) as Hq by (apply Z.div_le_lower_bound; nia).
  pose proof (Z.mul_div_le m cpm ltac:(lia)) as Hq2.
  set (rpm := Z.min h (m / cpm)).
  assert (1 <= rpm <= m / cpm) as Hrp by lia.
  destruct (ceil_truediv_spec w cpm ltac:(lia) ltac:(lia))
    as (nx & -> & Hnx). simpl.
  destruct (ceil_truediv_spec h rpm ltac:(lia) ltac:(lia))
    as (ny & -> & Hny). simpl.
  exists cpm, rpm, nx, ny. repeat split; try done; try lia. nia.
Qed.

Lemma tile_bounds_inside w h cpm rpm nx ny tx ty :
  1 <= cpm -> 1 <= rpm ->
  (nx - 1) * cpm < w <= nx * cpm ->
  (ny - 1) * rpm < h <= ny * rpm ->
  0 <= tx < nx -> 0 <= ty < ny ->
  exists xs xe ys ye,
    tile_bounds w h cpm rpm tx ty = (xs, xe, ys, ye)
    /\ 0 <= xs < xe /\ xe <= w /\ 0 <= ys < ye /\ ye <= h
    /\ xe - xs <= cpm /\ ye - ys <= rpm.
Proof.
  intros. unfold tile_bounds. do 4 eexists. split; [done|]. nia.
Qed.

(** * Row-major grids *)

Lemma elem_of_py_range a b k : k ∈ py_range a b <-> a <= k < b.
Proof. unfold py_range. rewrite elem_of_seqZ. lia. Qed.

Lemma NoDup_py_range a b : NoDup (py_range a b).
Proof. apply NoDup_seqZ. Qed.

Lemma length_py_range a b : Z.of_nat (length (py_range a b)) = Z.max 0 (b - a).
Proof. unfold py_range. rewrite length_seqZ. lia. Qed.

Section grid.
Context {A B : Type}.
Implicit Types (ys : list A) (xs : list B).

Lemma elem_of_grid ys xs y x :
  (y, x) ∈ (y ← ys; x ← xs; [(y, x)]) <-> y ∈ ys /\ x ∈ xs.
Proof.
  rewrite list_elem_of_bind. split.
  - intros (y' & (x' & Hx & ?)%list_elem_of_bind & ?).
    apply list_elem_of_singleton in Hx. by simplify_eq.
  - intros [??]. exists y. split; [|done].
    apply list_elem_of_bind. exists x. split; [|done]. by left.
Qed.

Lemma length_grid ys xs :
  length (y ← ys; x ← xs; [(y, x)]) = (length ys * length xs)%nat.
Proof.
  induction ys as [|y ys IH]; [done|].
  rewrite bind_cons, length_app, IH. simpl. f_equal.
  clear. induction xs as [|x xs IH]; [done|].
  rewrite bind_cons. simpl. by rewrite IH.
Qed.

Lemma NoDup_grid ys xs :
  NoDup ys -> NoDup xs -> NoDup (y ← ys; x ← xs; [(y, x)]).
Proof.
  intros Hys Hxs. apply NoDup_bind; [| |done].
  - intros y1 y2 [y x] _ _ (?&Hx1&_)%list_elem_of_bind (?&Hx2&_)%list_elem_of_bind.
    apply list_elem_of_singleton in Hx1, Hx2. congruence.
  - intros y _. apply NoDup_bind; [| |done].
    + intros x1 x2 ? _ _ Hx1%list_elem_of_singleton Hx2%list_elem_of_singleton.
      congruence.
    + intros. apply NoDup_singleton.
Qed.
End grid.

Lemma elem_of_tile_pixels xs xe ys ye y x :
  (y, x) ∈ tile_pixels xs xe ys ye <-> xs <= x < xe /\ ys <= y < ye.
Proof.
  unfold tile_pixels. rewrite elem_of_grid, !elem_of_py_range. tauto.
Qed.

Lemma length_tile_pixels xs xe ys ye :
  xs <= xe -> ys <= ye ->
  Z.of_nat (length (tile_pixels xs xe ys ye)) = (xe - xs) * (ye - ys).
Proof.
  intros. unfold tile_pixels. rewrite length_grid, Nat2Z.inj_mul.
  rewrite !length_py_range, !Z.max_r by lia. lia.
Qed.

Lemma elem_of_all_tiles nx ny ty tx :
  (ty, tx) ∈ all_tiles nx ny <-> 0 <= tx < nx /\ 0 <= ty < ny.
Proof.
  unfold all_tiles. rewrite elem_of_grid, !elem_of_py_range. tauto.
Qed.

Lemma NoDup_all_tiles nx ny : NoDup (all_tiles nx ny).
Proof. apply NoDup_grid; apply NoDup_py_range. Qed.

(** * Array access *)

Lemma getitem_inside a y x :
  0 <= y < shape_h a -> 0 <= x < shape_w a ->
  getitem a y x = Ok (pixel a y x).
Proof.
  intros Hy Hx. unfold getitem, index_axis.
  destruct (Z.leb_spec 0 y), (Z.ltb_spec y (shape_h a)); try lia. simpl.
  destruct (Z.leb_spec 0 x), (Z.ltb_spec x (shape_w a)); try lia. done.
Qed.

Lemma slice_bound_inside size i : 0 <= i <= size -> slice_bound size i = i.
Proof.
  intros. unfold slice_bound. destruct (Z.ltb_spec i 0); lia.
Qed.

Lemma is_tile_fully_transparent_spec a xs xe ys ye :
  0 <= xs <= shape_w a -> 0 <= xe <= shape_w a ->
  0 <= ys <= shape_h a -> 0 <= ye <= shape_h a ->
  is_tile_fully_transparent a xs xe ys ye = true
  <-> forall x y, in_rect (xs, xe, ys, ye) x y -> alpha (pixel a y x) = 0%N.
Proof.
  intros. unfold is_tile_fully_transparent, slice_range, in_rect.
  rewrite !slice_bound_inside by done.
  rewrite forallb_forall. setoid_rewrite forallb_forall.
  setoid_rewrite <-list_elem_of_In. setoid_rewrite elem_of_py_range.
  setoid_rewrite N.eqb_eq. split.
  - intros Hall x y [??]. by apply Hall.
  - intros Hall y ? x ?. by apply Hall.
Qed.

(** * One tile *)

Section write_tile.
Context (a : ndarray) (uv : gmap color (float * float)) (H : Z).

Lemma write_pixel_inside y x st :
  0 <= y < shape_h a -> 0 <= x < shape_w a ->
  vertex_index st = uv_index st ->
  write_pixel a uv H y st x
  = Ok {| written := written st ++ pixel_block a uv H (vertex_index st) (y, x);
          vertex_index := vertex_index st + 4;
          uv_index := uv_index st + 4 |}.
Proof.
  intros Hy Hx Hi. unfold write_pixel. rewrite getitem_inside by done.
  simpl. unfold pixel_block, uv_line, uv_get, visible, face_line, quad_lines.
  rewrite <-Hi. simpl.
  destruct (uv !! pixel a y x) as [[u v]|]; done.
Qed.

Lemma write_pixels_inside l st :
  (forall y x, (y, x) ∈ l -> 0 <= y < shape_h a /\ 0 <= x < shape_w a) ->
  vertex_index st = uv_index st ->
  for_each l (fun st yx => write_pixel a uv H yx.1 st yx.2) st
  = Ok {| written := written st ++ tile_blocks a uv H l (vertex_index st);
          vertex_index := vertex_index st + 4 * Z.of_nat (length l);
          uv_index := uv_index st + 4 * Z.of_nat (length l) |}.
Proof.
  revert st. induction l as [|[y x] l IH]; intros st Hin Hi.
  - simpl. rewrite app_nil_r, !Z.add_0_r. by destruct st.
  - cbn [for_each]. cbn [fst snd].
    destruct (Hin y x) as [??]; [by left|].
    rewrite write_pixel_inside by done. simpl.
    rewrite IH; simpl.
    + rewrite <-app_assoc. do 2 f_equal; lia.
    + intros ???. apply Hin. by right.
    + lia.
Qed.

Lemma write_tile_inside tx ty xs xe ys ye :
  0 <= xs -> xe <= shape_w a -> 0 <= ys -> ye <= shape_h a ->
  write_tile a uv H tx ty xs xe ys ye
  = Ok (Comment tx ty :: tile_blocks a uv H (tile_pixels xs xe ys ye) 1).
Proof.
  intros. unfold write_tile.
  rewrite (for_each_nested _ _ (write_pixel a uv H)).
  fold (tile_pixels xs xe ys ye).
  rewrite write_pixels_inside; [done| |done].
  intros y x ?%elem_of_tile_pixels. lia.
Qed.
End write_tile.

(** * File names *)

Lemma char_free_app c s t :
  char_free c s -> char_free c t -> char_free c (s +:+ t).
Proof. induction s; simpl; tauto. Qed.

Lemma split_at_char c s1 s2 t1 t2 :
  char_free c s1 -> char_free c s2 ->
  s1 +:+ String c t1 = s2 +:+ String c t2 -> s1 = s2 /\ t1 = t2.
Proof.
  revert s2. induction s1 as [|a s1 IH]; intros [|b s2]; simpl.
  - intros _ _ [= ->]. done.
  - intros _ [? _] [= ? _]. congruence.
  - intros [? _] _ [= ? _]. congruence.
  - intros [_ ?] [_ ?] [= -> Heq]. destruct (IH s2) as [-> ->]; done.
Qed.

Lemma pretty_N_char_sep c x :
  c = "_"%char \/ c = "."%char -> pretty_N_char x <> c.
Proof.
  intros [->| ->]; unfold pretty_N_char; repeat case_match; discriminate.
Qed.

Lemma char_free_pretty_N_go c x s :
  c = "_"%char \/ c = "."%char ->
  char_free c s -> char_free c (pretty_N_go x s).
Proof.
  intros Hc. revert s.
  induction (N.lt_wf_0 x) as [x _ IH]; intros s Hs.
  assert (x = 0 \/ 0 < x)%N as [->|?] by lia.
  - by rewrite pretty_N_go_0.
  - rewrite pretty_N_go_step by done. apply IH.
    + by apply N.div_lt.
    + split; [by apply pretty_N_char_sep|done].
Qed.

Lemma char_free_pretty_N c (x : N) :
  c = "_"%char \/ c = "."%char -> char_free c (pretty x).
Proof.
  intros Hc. unfold pretty, pretty_N. case_decide.
  - destruct Hc as [->| ->]; simpl; split; done.
  - by apply char_free_pretty_N_go.
Qed.

Lemma char_free_pretty_Z c (z : Z) :
  c = "_"%char \/ c = "."%char -> char_free c (pretty z).
Proof.
  intros Hc. destruct z as [|p|p]; unfold pretty; simpl.
  - destruct Hc as [->| ->]; split; done.
  - by apply (char_free_pretty_N c (N.pos p)).
  - split.
    + destruct Hc as [->| ->]; done.
    + by apply (char_free_pretty_N c (N.pos p)).
Qed.

Lemma tile_name_inj tx ty tx' ty' :
  tile_name tx ty = tile_name tx' ty' -> tx = tx' /\ ty = ty'.
Proof.
  unfold tile_name. simpl. intros [= Heq].
  apply split_at_char in Heq as [Hx Heq];
    [|apply char_free_pretty_Z; by left..].
  apply split_at_char in Heq as [Hy _];
    [|apply char_free_pretty_Z; by right..].
  split; by apply (inj pretty).
Qed.

(** * The run over all tiles *)

Lemma tile_path_inj : Inj (=) (=) tile_path.
Proof.
  intros [??] [??] [??]%tile_name_inj. simpl in *. congruence.
Qed.

Section disk.
Context (a : ndarray) (uv : gmap color (float * float)).
Context (w h cpm rpm : Z).

Lemma foldl_put_other l d s :
  (forall t, t ∈ l -> tile_path t <> s) ->
  foldl (put_tile a uv w h cpm rpm) d l !! s = d !! s.
Proof.
  revert d. induction l as [|t l IH]; intros d Hn; [done|]. simpl.
  rewrite IH by (intros; apply Hn; by right).
  unfold put_tile. apply lookup_insert_ne, Hn. by left.
Qed.

Lemma foldl_put_elem l d t :
  NoDup l -> t ∈ l ->
  foldl (put_tile a uv w h cpm rpm) d l !! tile_path t
  = Some (tile_file a uv w h cpm rpm t).
Proof.
  revert d. induction l as [|t' l IH]; intros d Hnd Hin; [by inv Hin|].
  apply NoDup_cons in Hnd as [Hni Hnd]. simpl.
  apply elem_of_cons in Hin as [->|Hin]; [|by apply IH].
  rewrite foldl_put_other.
  - unfold put_tile. apply lookup_insert_eq.
  - intros t Ht Heq. apply tile_path_inj in Heq. congruence.
Qed.
End disk.

Section run.
Context (a : ndarray) (uv : gmap color (float * float)).
Context (w h cpm rpm nx ny : Z).
Hypothesis shape_w_eq : shape_w a = w.
Hypothesis shape_h_eq : shape_h a = h.
Hypothesis cpm_pos : 1 <= cpm.
Hypothesis rpm_pos : 1 <= rpm.
Hypothesis nx_spec : (nx - 1) * cpm < w <= nx * cpm.
Hypothesis ny_spec : (ny - 1) * rpm < h <= ny * rpm.

Lemma process_tile_inside st ty tx :
  0 <= tx < nx -> 0 <= ty < ny ->
  process_tile a uv w h cpm rpm ty st tx
  = Ok (if written_tile a w h cpm rpm (ty, tx)
        then {| mesh_paths := mesh_paths st ++ [tile_path (ty, tx)];
                skipped_tiles := skipped_tiles st;
                disk := put_tile a uv w h cpm rpm (disk st) (ty, tx) |}
        else {| mesh_paths := mesh_paths st;
                skipped_tiles := skipped_tiles st + 1;
                disk := disk st |}).
Proof.
  intros Hx Hy.
  destruct (tile_bounds_inside w h cpm rpm nx ny tx ty)
    as (xs & xe & ys & ye & Hb & ?); try done.
  unfold process_tile, written_tile, put_tile, tile_file, tile_path.
  cbn [fst snd]. rewrite Hb. cbn [rect_pixels].
  destruct (is_tile_fully_transparent a xs xe ys ye); simpl; [done|].
  rewrite write_tile_inside by lia. done.
Qed.

Lemma run_inside l st :
  (forall ty tx, (ty, tx) ∈ l -> 0 <= tx < nx /\ 0 <= ty < ny) ->
  for_each l (fun st t => process_tile a uv w h cpm rpm t.1 st t.2) st
  = Ok {| mesh_paths :=
            mesh_paths st
            ++ (tile_path <$>
                filter (fun t => written_tile a w h cpm rpm t = true) l);
          skipped_tiles :=
            skipped_tiles st
            + Z.of_nat (length
                (filter (fun t => written_tile a w h cpm rpm t <> true) l));
          disk :=
            foldl (put_tile a uv w h cpm rpm) (disk st)
              (filter (fun t => written_tile a w h cpm rpm t = true) l) |}.
Proof.
  revert st. induction l as [|[ty tx] l IH]; intros st Hin.
  - simpl. rewrite app_nil_r, Z.add_0_r. by destruct st.
  - cbn [for_each fst snd].
    destruct (Hin ty tx) as [??]; [by left|].
    rewrite process_tile_inside by done.
    assert (forall ty' tx', (ty', tx') ∈ l -> 0 <= tx' < nx /\ 0 <= ty' < ny)
      as Hin' by (intros ???; apply Hin; by right).
    destruct (written_tile a w h cpm rpm (ty, tx)) eqn:Hk; simpl;
      rewrite IH by done; simpl.
    + rewrite !filter_cons_True by done.
      rewrite filter_cons_False by (intros Hn; by apply Hn).
      by rewrite <-app_assoc.
    + rewrite !filter_cons_False by congruence.
      rewrite filter_cons_True by congruence.
      simpl. do 2 f_equal. lia.
Qed.
End run.

(** * The lines of a tile *)

Section blocks.
Context (a : ndarray) (uv : gmap color (float * float)) (H : Z).
Implicit Types (l : list (Z * Z)) (vi : Z).

Lemma vertex_lines_of_blocks l vi :
  count_lines is_vertex (tile_blocks a uv H l vi) = 4 * Z.of_nat (length l).
Proof.
  unfold count_lines. revert vi.
  induction l as [|[y x] l IH]; intros vi; [done|].
  cbn [tile_blocks]. rewrite List.filter_app, length_app, Nat2Z.inj_add, IH.
  unfold pixel_block, uv_line. simpl.
  destruct (uv !! pixel a y x) as [[u v]|], (visible _); simpl; lia.
Qed.

Lemma texcoord_lines_of_blocks l vi :
  List.filter is_texcoord (tile_blocks a uv H l vi)
  = yx ← l; replicate 4 (uv_line uv (pixel a yx.1 yx.2)).
Proof.
  revert vi. induction l as [|[y x] l IH]; intros vi; [done|].
  cbn [tile_blocks]. rewrite List.filter_app, IH, bind_cons. f_equal.
  unfold pixel_block, uv_line. simpl.
  destruct (uv !! pixel a y x) as [[u v]|], (visible _); done.
Qed.

Lemma face_lines_of_blocks l vi :
  count_lines is_face (tile_blocks a uv H l vi) = count_visible a l.
Proof.
  unfold count_lines, count_visible. revert vi.
  induction l as [|[y x] l IH]; intros vi; [done|].
  cbn [tile_blocks]. rewrite List.filter_app, length_app, Nat2Z.inj_add, IH.
  unfold pixel_block, uv_line. simpl.
  destruct (uv !! pixel a y x) as [[u v]|], (visible _); simpl; lia.
Qed.

Lemma count_texcoord_of_blocks l vi :
  count_lines is_texcoord (tile_blocks a uv H l vi) = 4 * Z.of_nat (length l).
Proof.
  unfold count_lines. rewrite texcoord_lines_of_blocks.
  induction l as [|yx l IH]; [done|].
  rewrite bind_cons, length_app, length_replicate. cbn [length]. lia.
Qed.

Lemma count_visible_le l : 0 <= count_visible a l <= Z.of_nat (length l).
Proof.
  unfold count_visible. pose proof (List.filter_length_le
    (fun yx => visible (pixel a yx.1 yx.2)) l). lia.
Qed.

(** Every [f] line of a run of blocks closes the block of one visible
    pixel and names the four vertices and UVs of that block. *)
Lemma face_of_blocks l vi pre post c1 c2 c3 c4 :
  tile_blocks a uv H l vi = pre ++ Face c1 c2 c3 c4 :: post ->
  exists (k : nat) (yx : Z * Z),
    l !! k = Some yx
    /\ visible (pixel a yx.1 yx.2) = true
    /\ Face c1 c2 c3 c4 = face_line (vi + 4 * Z.of_nat k)
    /\ pre = tile_blocks a uv H (take k l) vi
             ++ quad_lines H yx
             ++ replicate 4 (uv_line uv (pixel a yx.1 yx.2)).
Proof.
  revert vi pre. induction l as [|[y x] l IH]; intros vi pre Heq.
  { by destruct pre. }
  cbn [tile_blocks] in Heq.
  apply app_eq_inv in Heq as [(k0 & Hb & Hr)|(k0 & -> & Hr)].
  - destruct k0 as [|o k0].
    + simpl in Hr. symmetry in Hr.
      apply (IH _ []) in Hr as (k & yx & _ & _ & _ & Hpre).
      destruct (tile_blocks a uv H (take k l) (vi + 4)), yx; discriminate.
    + simpl in Hr. injection Hr as Ho _. subst o.
      exists 0%nat, (y, x). unfold pixel_block in Hb. cbn [fst snd] in *.
      assert (pre = quad_lines H (y, x)
                    ++ replicate 4 (uv_line uv (pixel a y x))
              /\ visible (pixel a y x) = true
              /\ Face c1 c2 c3 c4 = face_line vi) as (-> & Hv & Hf).
      { unfold uv_line in *. simpl in Hb.
        destruct (uv !! pixel a y x) as [[u v]|];
          destruct (visible (pixel a y x)); simpl in Hb;
          repeat (destruct pre as [|? pre]; simplify_eq/=); done. }
      rewrite Z.add_0_r. done.
  - apply IH in Hr as (k & yx & Hk & Hv & Hf & ->).
    exists (S k), yx. split_and!; [done|done| |].
    + rewrite Hf. f_equal; lia.
    + cbn [take tile_blocks]. by rewrite <-app_assoc.
Qed.
End blocks.

(** * The tiler as a whole *)

Lemma count_occ_NoDup {A : Type} `{EqDecision A} (l : list A) (x : A) :
  NoDup l -> x ∈ l -> length (filter (fun y => y = x) l) = 1%nat.
Proof.
  induction 1 as [|y l Hy Hnd IH]; [by intros ?%elem_of_nil|].
  intros [->|Hin]%elem_of_cons.
  - rewrite filter_cons_True by done. simpl. f_equal.
    apply length_zero_iff_nil. apply elem_of_nil_inv. intros z.
    rewrite list_elem_of_filter. by intros [-> ?].
  - rewrite filter_cons_False by (intros ->; done). by apply IH.
Qed.

(** What a run on an image of at least one pixel, of width and height
    below [2^51], with a budget of at least one quad produces. *)
Lemma create_tiled_meshes_inside a uv max_tris :
  1 <= shape_w a < 2 ^ 51 -> 1 <= shape_h a < 2 ^ 51 -> 2 <= max_tris ->
  exists cpm rpm nx ny paths files,
    tiling (shape_w a) (shape_h a) max_tris = Ok (cpm, rpm, nx, ny)
    /\ create_tiled_meshes a uv (shape_w a, shape_h a) max_tris = Ok (paths, files)
    /\ (forall tx ty, (ty, tx) ∈ all_tiles nx ny ->
          exists xs xe ys ye,
            tile_bounds (shape_w a) (shape_h a) cpm rpm tx ty = (xs, xe, ys, ye)
            /\ 0 <= xs < xe /\ xe <= shape_w a /\ 0 <= ys < ye /\ ye <= shape_h a)
    /\ NoDup paths
    /\ (forall tx ty, (ty, tx) ∈ all_tiles nx ny ->
          written_tile a (shape_w a) (shape_h a) cpm rpm (ty, tx) = true ->
          tile_name tx ty ∈ paths
          /\ files !! tile_name tx ty
             = Some (tile_file a uv (shape_w a) (shape_h a) cpm rpm (ty, tx)))
    /\ (forall tx ty, (ty, tx) ∈ all_tiles nx ny ->
          written_tile a (shape_w a) (shape_h a) cpm rpm (ty, tx) = false ->
          (tile_name tx ty ∉ paths) /\ files !! tile_name tx ty = None).
Proof.
  intros Hw Hh Ht.
  destruct (tiling_spec _ _ _ Hw Hh Ht)
    as (cpm & rpm & nx & ny & Htil & _ & _ & Hc & Hr & _ & Hnx & Hny).
  set (w := shape_w a) in *. set (h := shape_h a) in *.
  pose proof tile_path_inj as Hinj.
  exists cpm, rpm, nx, ny. do 2 eexists. split; [done|].
  split.
  { unfold create_tiled_meshes. rewrite Htil. simpl.
    rewrite (for_each_nested _ _ (process_tile a uv w h cpm rpm)).
    fold (all_tiles nx ny).
    rewrite (run_inside a uv w h cpm rpm nx ny) by
      (try done; intros ?? ?%elem_of_all_tiles; done).
    simpl. reflexivity. }
  split.
  { intros tx ty [??]%elem_of_all_tiles.
    destruct (tile_bounds_inside w h cpm rpm nx ny tx ty)
      as (xs & xe & ys & ye & Hb & ?); try done.
    exists xs, xe, ys, ye. split; [done|lia]. }
  split.
  { apply (NoDup_fmap_2 tile_path), NoDup_filter, NoDup_all_tiles. }
  split.
  - intros tx ty Hin Hk. split.
    + apply (list_elem_of_fmap_2 tile_path _ (ty, tx)).
      by apply list_elem_of_filter.
    + apply (foldl_put_elem a uv w h cpm rpm _ _ (ty, tx)).
      * apply NoDup_filter, NoDup_all_tiles.
      * by apply list_elem_of_filter.
  - intros tx ty Hin Hk. split.
    + intros ([ty' tx'] & Heq & [Hk' _]%list_elem_of_filter)%list_elem_of_fmap.
      apply (tile_path_inj (ty, tx)) in Heq. congruence.
    + rewrite foldl_put_other; [done|].
      intros [ty' tx'] [Hk' _]%list_elem_of_filter Heq.
      apply (tile_path_inj _ (ty, tx)) in Heq. congruence.
Qed.

(** * Claims on the mesh tiler

    The tile counts are [math.ceil(orig_w / cols_per_mesh)] and
    [math.ceil(orig_h / rows_per_mesh)], computed in binary64.  The
    statements below are for images whose width and height are below
    [2^51], where [ceil_truediv_float] shows these to be the exact
    ceilings; an array that large has no pixels an implementation could
    hold, so the bound excludes no image the script can be given. *)

(** C3: for an image of at least one pixel (and of width and height
    below [2^51]) and a budget of at least two triangles the tile
    rectangles the tiler visits (skipped ones
    included) partition the image: every rectangle lies inside
    [[0,w) x [0,h)], every pixel of the image lies in a rectangle, and no
    pixel lies in two. *)
Theorem tiles_partition_image (w h max_tris : Z) :
  1 <= w < 2 ^ 51 -> 1 <= h < 2 ^ 51 -> 2 <= max_tris ->
  exists cpm rpm nx ny,
    tiling w h max_tris = Ok (cpm, rpm, nx, ny)
    /\ (forall tx ty x y,
          (ty, tx) ∈ all_tiles nx ny ->
          in_rect (tile_bounds w h cpm rpm tx ty) x y ->
          0 <= x < w /\ 0 <= y < h)
    /\ (forall x y,
          0 <= x < w -> 0 <= y < h ->
          exists tx ty,
            (ty, tx) ∈ all_tiles nx ny
            /\ in_rect (tile_bounds w h cpm rpm tx ty) x y)
    /\ (forall tx ty tx' ty' x y,
          (ty, tx) ∈ all_tiles nx ny -> (ty', tx') ∈ all_tiles nx ny ->
          in_rect (tile_bounds w h cpm rpm tx ty) x y ->
          in_rect (tile_bounds w h cpm rpm tx' ty') x y ->
          tx = tx' /\ ty = ty').
Proof.
  intros Hw Hh Ht.
  destruct (tiling_spec _ _ _ Hw Hh Ht)
    as (cpm & rpm & nx & ny & Htil & _ & _ & Hc & Hr & _ & Hnx & Hny).
  exists cpm, rpm, nx, ny. split; [done|]. split_and!.
  - intros tx ty x y [??]%elem_of_all_tiles. unfold in_rect, tile_bounds. nia.
  - intros x y Hx Hy. exists (x / cpm), (y / rpm).
    pose proof (Z.mul_div_le x cpm ltac:(lia)).
    pose proof (Z.mul_succ_div_gt x cpm ltac:(lia)).
    pose proof (Z.mul_div_le y rpm ltac:(lia)).
    pose proof (Z.mul_succ_div_gt y rpm ltac:(lia)).
    rewrite elem_of_all_tiles. unfold in_rect, tile_bounds.
    assert (0 <= x / cpm) by (apply Z.div_pos; lia).
    assert (0 <= y / rpm) by (apply Z.div_pos; lia).
    split_and!; try lia; nia.
  - intros tx ty tx' ty' x y _ _. unfold in_rect, tile_bounds.
    intros [??] [??]. split; nia.
Qed.

(** C4: for an image of at least one pixel (and of width and height
    below [2^51]) and a budget of at least two triangles, with
    [cols_per_mesh = min(w, isqrt(max_tris // 2))] and
    [rows_per_mesh = min(h, (max_tris // 2) // cols_per_mesh)] every tile
    rectangle has at most [max_tris / 2] pixels:
    [(x_end - x_start) * (y_end - y_start) * 2 <= max_tris]. *)
Theorem tile_within_triangle_budget (w h max_tris : Z) :
  1 <= w < 2 ^ 51 -> 1 <= h < 2 ^ 51 -> 2 <= max_tris ->
  exists cpm rpm nx ny,
    tiling w h max_tris = Ok (cpm, rpm, nx, ny)
    /\ cpm = Z.min w (Z.sqrt (max_tris / 2))
    /\ rpm = Z.min h ((max_tris / 2) / cpm)
    /\ forall tx ty x_start x_end y_start y_end,
         (ty, tx) ∈ all_tiles nx ny ->
         tile_bounds w h cpm rpm tx ty = (x_start, x_end, y_start, y_end) ->
         0 < x_end - x_start /\ 0 < y_end - y_start
         /\ (x_end - x_start) * (y_end - y_start) * 2 <= max_tris.
Proof.
  intros Hw Hh Ht.
  destruct (tiling_spec _ _ _ Hw Hh Ht)
    as (cpm & rpm & nx & ny & Htil & Hcd & Hrd & Hc & Hr & Hb & Hnx & Hny).
  exists cpm, rpm, nx, ny. split_and!; try done.
  intros tx ty xs xe ys ye [??]%elem_of_all_tiles Htb.
  destruct (tile_bounds_inside w h cpm rpm nx ny tx ty)
    as (xs' & xe' & ys' & ye' & Hb' & ?); try done.
  rewrite Htb in Hb'. simplify_eq. split_and!; try lia. nia.
Qed.

Lemma written_tile_false a cpm rpm nx ny ty tx :
  1 <= cpm -> 1 <= rpm ->
  (nx - 1) * cpm < shape_w a <= nx * cpm ->
  (ny - 1) * rpm < shape_h a <= ny * rpm ->
  (ty, tx) ∈ all_tiles nx ny ->
  written_tile a (shape_w a) (shape_h a) cpm rpm (ty, tx) = false
  <-> forall x y,
        in_rect (tile_bounds (shape_w a) (shape_h a) cpm rpm tx ty) x y ->
        alpha (pixel a y x) = 0%N.
Proof.
  intros Hc Hr Hnx Hny [??]%elem_of_all_tiles.
  destruct (tile_bounds_inside (shape_w a) (shape_h a) cpm rpm nx ny tx ty)
    as (xs & xe & ys & ye & Hb & ?); try done.
  unfold written_tile. cbn [fst snd]. rewrite Hb.
  rewrite negb_false_iff. apply is_tile_fully_transparent_spec; lia.
Qed.

(** C1: on an image of at least one pixel (and of width and height
    below [2^51]) a tile of the partition gets no mesh file exactly when
    every pixel of its rectangle has alpha 0, and a tile with a pixel of
    alpha above 0 gets exactly one: its name is listed once and the file
    exists. *)
Theorem tile_skipped_iff_transparent (a : ndarray)
    (uv : gmap color (float * float)) (max_tris : Z) :
  1 <= shape_w a < 2 ^ 51 -> 1 <= shape_h a < 2 ^ 51 -> 2 <= max_tris ->
  exists cpm rpm nx ny paths files,
    tiling (shape_w a) (shape_h a) max_tris = Ok (cpm, rpm, nx, ny)
    /\ create_tiled_meshes a uv (shape_w a, shape_h a) max_tris
       = Ok (paths, files)
    /\ forall tx ty,
         (ty, tx) ∈ all_tiles nx ny ->
         let b := tile_bounds (shape_w a) (shape_h a) cpm rpm tx ty in
         let transparent :=
           forall x y, in_rect b x y -> alpha (pixel a y x) = 0%N in
         (files !! tile_name tx ty = None <-> transparent)
         /\ (tile_name tx ty ∉ paths <-> transparent)
         /\ ((exists x y, in_rect b x y /\ visible (pixel a y x) = true) ->
             is_Some (files !! tile_name tx ty)
             /\ length (filter (fun p => p = tile_name tx ty) paths) = 1%nat).
Proof.
  intros Hw Hh Ht.
  destruct (tiling_spec _ _ _ Hw Hh Ht)
    as (cpm' & rpm' & nx' & ny' & Htil' & _ & _ & Hc & Hr & _ & Hnx & Hny).
  destruct (create_tiled_meshes_inside a uv max_tris Hw Hh Ht)
    as (cpm & rpm & nx & ny & paths & files & Htil & Hrun & _ & Hnd & Hyes & Hno).
  rewrite Htil in Htil'. simplify_eq.
  exists cpm', rpm', nx', ny', paths, files. split_and!; [done..|].
  intros tx ty Hin b transparent.
  pose proof (written_tile_false a cpm' rpm' nx' ny' ty tx Hc Hr Hnx Hny Hin)
    as Hwt. fold b in Hwt. fold transparent in Hwt.
  destruct (written_tile a (shape_w a) (shape_h a) cpm' rpm' (ty, tx)) eqn:Hk.
  - destruct (Hyes tx ty Hin Hk) as [Hp Hf].
    assert (~ transparent) as Hnt by (intros ?%Hwt; done).
    split_and!.
    + rewrite Hf. split; [done|tauto].
    + split; [tauto|]. intros ?. tauto.
    + intros _. split; [by rewrite Hf|]. by apply count_occ_NoDup.
  - destruct (Hno tx ty Hin Hk) as [Hp Hf].
    assert transparent as Htr by (by apply Hwt).
    split_and!; [tauto..|].
    intros (x & y & Hxy & Hv). apply Htr in Hxy.
    unfold visible in Hv. rewrite Hxy in Hv. done.
Qed.

(** C5: on an image of at least one pixel (and of width and height
    below [2^51]) the file of a tile that is not skipped has four [v]
    lines and four [vt] lines per pixel of the tile and one [f] line per
    pixel of the tile with alpha above 0, which is at most a quarter of
    the number of [v] lines. *)
Theorem mesh_file_line_counts (a : ndarray)
    (uv : gmap color (float * float)) (max_tris : Z) :
  1 <= shape_w a < 2 ^ 51 -> 1 <= shape_h a < 2 ^ 51 -> 2 <= max_tris ->
  exists cpm rpm nx ny paths files,
    tiling (shape_w a) (shape_h a) max_tris = Ok (cpm, rpm, nx, ny)
    /\ create_tiled_meshes a uv (shape_w a, shape_h a) max_tris
       = Ok (paths, files)
    /\ forall tx ty x_start x_end y_start y_end,
         (ty, tx) ∈ all_tiles nx ny ->
         tile_bounds (shape_w a) (shape_h a) cpm rpm tx ty
         = (x_start, x_end, y_start, y_end) ->
         is_tile_fully_transparent a x_start x_end y_start y_end = false ->
         exists lines,
           files !! tile_name tx ty = Some lines
           /\ count_lines is_vertex lines
              = 4 * ((x_end - x_start) * (y_end - y_start))
           /\ count_lines is_texcoord lines
              = 4 * ((x_end - x_start) * (y_end - y_start))
           /\ count_lines is_face lines
              = count_visible a (tile_pixels x_start x_end y_start y_end)
           /\ count_lines is_face lines <= count_lines is_vertex lines / 4.
Proof.
  intros Hw Hh Ht.
  destruct (create_tiled_meshes_inside a uv max_tris Hw Hh Ht)
    as (cpm & rpm & nx & ny & paths & files & Htil & Hrun & Hin & _ & Hyes & _).
  exists cpm, rpm, nx, ny, paths, files. split_and!; [done..|].
  intros tx ty xs xe ys ye Ht' Hb Hnt.
  destruct (Hin tx ty Ht') as (xs' & xe' & ys' & ye' & Hb' & ?).
  rewrite Hb in Hb'. simplify_eq.
  destruct (Hyes tx ty Ht') as [_ Hf].
  { unfold written_tile. cbn [fst snd]. by rewrite Hb, Hnt. }
  eexists. split; [done|].
  unfold tile_file. cbn [fst snd]. rewrite Hb. cbn [rect_pixels].
  set (px := tile_pixels xs' xe' ys' ye').
  assert (Z.of_nat (length px) = (xe' - xs') * (ye' - ys')) as Hlen
    by (apply length_tile_pixels; lia).
  assert (forall kind l, kind (Comment tx ty) = false ->
            count_lines kind (Comment tx ty :: l) = count_lines kind l) as Hhd.
  { intros kind l Hk. unfold count_lines. simpl. by rewrite Hk. }
  rewrite !Hhd by done.
  rewrite vertex_lines_of_blocks, count_texcoord_of_blocks, face_lines_of_blocks.
  rewrite Hlen. split_and!; try done.
  pose proof (count_visible_le a px).
  rewrite Z.mul_comm, Z.div_mul by done. lia.
Qed.

(** C9: on an image of at least one pixel (and of width and height
    below [2^51]) the [vt] lines of the file of a tile that is not
    skipped are, in pixel order, four identical lines per pixel: [(u, 1 - v)] for the UV
    entry [(u, v)] of the pixel's colour key, and the line of the default
    [(0, 0)] when the key is not in the map. *)
Theorem mesh_file_uv_lines (a : ndarray)
    (uv : gmap color (float * float)) (max_tris : Z) :
  1 <= shape_w a < 2 ^ 51 -> 1 <= shape_h a < 2 ^ 51 -> 2 <= max_tris ->
  exists cpm rpm nx ny paths files,
    tiling (shape_w a) (shape_h a) max_tris = Ok (cpm, rpm, nx, ny)
    /\ create_tiled_meshes a uv (shape_w a, shape_h a) max_tris
       = Ok (paths, files)
    /\ forall tx ty x_start x_end y_start y_end,
         (ty, tx) ∈ all_tiles nx ny ->
         tile_bounds (shape_w a) (shape_h a) cpm rpm tx ty
         = (x_start, x_end, y_start, y_end) ->
         is_tile_fully_transparent a x_start x_end y_start y_end = false ->
         exists lines,
           files !! tile_name tx ty = Some lines
           /\ List.filter is_texcoord lines
              = (yx ← tile_pixels x_start x_end y_start y_end;
                 replicate 4
                   match uv !! pixel a yx.1 yx.2 with
                   | Some (u, v) =>
                       TexCoord (PyFloat u) (PyFloat (PrimFloat.sub 1 v))
                   | None => TexCoord (PyInt 0) (PyInt (1 - 0))
                   end).
Proof.
  intros Hw Hh Ht.
  destruct (create_tiled_meshes_inside a uv max_tris Hw Hh Ht)
    as (cpm & rpm & nx & ny & paths & files & Htil & Hrun & Hin & _ & Hyes & _).
  exists cpm, rpm, nx, ny, paths, files. split_and!; [done..|].
  intros tx ty xs xe ys ye Ht' Hb Hnt.
  destruct (Hyes tx ty Ht') as [_ Hf].
  { unfold written_tile. cbn [fst snd]. by rewrite Hb, Hnt. }
  eexists. split; [done|].
  unfold tile_file. cbn [fst snd]. rewrite Hb. cbn [rect_pixels].
  cbn [List.filter is_texcoord]. apply texcoord_lines_of_blocks.
Qed.

(** C10: on an image of at least one pixel (and of width and height
    below [2^51]), in the file of a tile that is not skipped every [f]
    line closes the block of a visible pixel of the tile, of rank [k] in
    row-major order: it comes right after the four [v] and four [vt] lines of that
    pixel, its four pairs are [(i, i)] for [i = 4k+1 .. 4k+4], these are
    the last four [v] and [vt] lines written before it, and every index
    lies between 1 and the number of [v] (and [vt]) lines of the file. *)
Theorem mesh_file_face_indices (a : ndarray)
    (uv : gmap color (float * float)) (max_tris : Z) :
  1 <= shape_w a < 2 ^ 51 -> 1 <= shape_h a < 2 ^ 51 -> 2 <= max_tris ->
  exists cpm rpm nx ny paths files,
    tiling (shape_w a) (shape_h a) max_tris = Ok (cpm, rpm, nx, ny)
    /\ create_tiled_meshes a uv (shape_w a, shape_h a) max_tris
       = Ok (paths, files)
    /\ forall tx ty x_start x_end y_start y_end,
         (ty, tx) ∈ all_tiles nx ny ->
         tile_bounds (shape_w a) (shape_h a) cpm rpm tx ty
         = (x_start, x_end, y_start, y_end) ->
         is_tile_fully_transparent a x_start x_end y_start y_end = false ->
         exists lines,
           files !! tile_name tx ty = Some lines
           /\ forall pre c1 c2 c3 c4 post,
                lines = pre ++ Face c1 c2 c3 c4 :: post ->
                exists (k : nat) (yx : Z * Z) (pre' : list obj_line),
                  tile_pixels x_start x_end y_start y_end !! k = Some yx
                  /\ visible (pixel a yx.1 yx.2) = true
                  /\ pre = pre' ++ quad_lines (shape_h a) yx
                           ++ replicate 4 (uv_line uv (pixel a yx.1 yx.2))
                  /\ c1 = (4 * Z.of_nat k + 1, 4 * Z.of_nat k + 1)
                  /\ c2 = (4 * Z.of_nat k + 2, 4 * Z.of_nat k + 2)
                  /\ c3 = (4 * Z.of_nat k + 3, 4 * Z.of_nat k + 3)
                  /\ c4 = (4 * Z.of_nat k + 4, 4 * Z.of_nat k + 4)
                  /\ count_lines is_vertex pre = 4 * Z.of_nat k + 4
                  /\ count_lines is_texcoord pre = 4 * Z.of_nat k + 4
                  /\ 4 * Z.of_nat k + 4
                     <= 4 * ((x_end - x_start) * (y_end - y_start))
                  /\ count_lines is_vertex lines
                     = 4 * ((x_end - x_start) * (y_end - y_start))
                  /\ count_lines is_texcoord lines
                     = 4 * ((x_end - x_start) * (y_end - y_start)).
Proof.
  intros Hw Hh Ht.
  destruct (create_tiled_meshes_inside a uv max_tris Hw Hh Ht)
    as (cpm & rpm & nx & ny & paths & files & Htil & Hrun & Hin & _ & Hyes & _).
  exists cpm, rpm, nx, ny, paths, files. split_and!; [done..|].
  intros tx ty xs xe ys ye Ht' Hb Hnt.
  destruct (Hin tx ty Ht') as (xs' & xe' & ys' & ye' & Hb' & ?).
  rewrite Hb in Hb'. simplify_eq.
  destruct (Hyes tx ty Ht') as [_ Hf].
  { unfold written_tile. cbn [fst snd]. by rewrite Hb, Hnt. }
  eexists. split; [done|].
  unfold tile_file. cbn [fst snd]. rewrite Hb. cbn [rect_pixels].
  set (px := tile_pixels xs' xe' ys' ye').
  assert (Z.of_nat (length px) = (xe' - xs') * (ye' - ys')) as Hlen
    by (apply length_tile_pixels; lia).
  assert (forall kind l, kind (Comment tx ty) = false ->
            count_lines kind (Comment tx ty :: l) = count_lines kind l) as Hhd.
  { intros kind l Hk. unfold count_lines. simpl. by rewrite Hk. }
  intros pre c1 c2 c3 c4 post Heq.
  destruct pre as [|o pre]; [done|]. injection Heq as <- Heq.
  apply face_of_blocks in Heq as (k & yx & Hk & Hv & Hface & ->).
  exists k, yx, (Comment tx ty :: tile_blocks a uv (shape_h a) (take k px) 1).
  pose proof (lookup_lt_Some _ _ _ Hk) as Hlt.
  unfold face_line in Hface. injection Hface as -> -> -> ->.
  rewrite !Hhd by done.
  assert (forall kind, count_lines kind
            (tile_blocks a uv (shape_h a) (take k px) 1
             ++ quad_lines (shape_h a) yx
             ++ replicate 4 (uv_line uv (pixel a yx.1 yx.2)))
          = count_lines kind (tile_blocks a uv (shape_h a) (take k px) 1)
            + count_lines kind (quad_lines (shape_h a) yx)
            + count_lines kind (replicate 4 (uv_line uv (pixel a yx.1 yx.2))))
    as Happ.
  { intros kind. unfold count_lines.
    rewrite !List.filter_app, !length_app. lia. }
  rewrite !Happ, vertex_lines_of_blocks, !count_texcoord_of_blocks,
    vertex_lines_of_blocks, length_take, Hlen.
  assert (count_lines is_vertex (quad_lines (shape_h a) yx) = 4
          /\ count_lines is_texcoord (quad_lines (shape_h a) yx) = 0
          /\ count_lines is_vertex
               (replicate 4 (uv_line uv (pixel a yx.1 yx.2))) = 0
          /\ count_lines is_texcoord
               (replicate 4 (uv_line uv (pixel a yx.1 yx.2))) = 4)
    as (-> & -> & -> & ->).
  { destruct yx as [y x]. unfold uv_line, count_lines. simpl.
    destruct (uv !! pixel a y x) as [[u v]|]; done. }
  split_and!; try done; try (f_equal; lia); lia.
Qed.

(** * 63-bit integers *)

Lemma to_Z_add_1 (i : int) :
  Uint63.to_Z i < 9223372036854775807 ->
  Uint63.to_Z (Uint63.add i 1) = Uint63.to_Z i + 1.
Proof.
  intros. rewrite Uint63.add_spec, Uint63.to_Z_1, wB_eq.
  apply Z.mod_small. pose proof (to_Z_range i). lia.
Qed.

Lemma of_Z_succ (z : Z) :
  0 <= z < 9223372036854775807 ->
  Uint63.of_Z (z + 1) = Uint63.add (Uint63.of_Z z) 1.
Proof.
  intros. apply Uint63.to_Z_inj.
  rewrite to_Z_add_1; rewrite !to_of_Z; lia.
Qed.

Lemma all_range_sound (k : nat) (f : int -> bool) (lo i : int) :
  (k < 62)%nat ->
  Uint63.to_Z lo + 2 ^ Z.of_nat k < 2 ^ 62 ->
  all_range k lo f = true ->
  Uint63.to_Z lo <= Uint63.to_Z i < Uint63.to_Z lo + 2 ^ Z.of_nat k ->
  f i = true.
Proof.
  revert lo. induction k as [|k IH]; intros lo Hk Hlo Hall Hi.
  - simpl in *. assert (i = lo) as -> by (apply Uint63.to_Z_inj; lia). done.
  - cbn [all_range] in Hall. apply andb_true_iff in Hall as [H1 H2].
    rewrite Nat2Z.inj_succ, Z.pow_succ_r in Hlo, Hi by lia.
    assert (0 < 2 ^ Z.of_nat k) by (apply Z.pow_pos_nonneg; lia).
    assert (2 ^ Z.of_nat k < 2 ^ 62) by (apply Z.pow_lt_mono_r; lia).
    pose proof (to_Z_range lo).
    set (mid := Uint63.add lo (Uint63.lsl 1 (Uint63.of_Z (Z.of_nat k)))) in *.
    assert (Uint63.to_Z mid = Uint63.to_Z lo + 2 ^ Z.of_nat k) as Hmid.
    { unfold mid. rewrite Uint63.add_spec, Uint63.lsl_spec, Uint63.to_Z_1.
      rewrite to_of_Z by lia. rewrite Z.mul_1_l, wB_eq.
      change (2 ^ 62) with 4611686018427387904 in *.
      rewrite (Z.mod_small (2 ^ Z.of_nat k)) by lia.
      apply Z.mod_small. lia. }
    destruct (Z.lt_ge_cases (Uint63.to_Z i) (Uint63.to_Z mid)).
    + apply (IH lo); [lia|lia|done|lia].
    + apply (IH mid); [lia|lia|done|lia].
Qed.

(** * The three checks *)

Lemma grid_checked : all_range 20 1 grid_check = true.
Proof. vm_cast_no_check (eq_refl true). Qed.

Lemma cells_checked :
  all_range 10 1 (fun c => all_range 10 0 (cell_check c)) = true.
Proof. vm_cast_no_check (eq_refl true). Qed.

Lemma centers_checked : all_range 11 0 center_check = true.
Proof. vm_cast_no_check (eq_refl true). Qed.

(** * From the checks to the Python operations *)

Lemma float_of_to_Z (i : int) :
  float_of_int (Uint63.to_Z i) = PrimFloat.of_uint63 i.
Proof.
  rewrite float_of_int_nonneg by apply to_Z_range.
  by rewrite Uint63.of_to_Z.
Qed.

Lemma py_int_fast (f : float) :
  fast_ok f = true -> py_int f = Ok (Uint63.to_Z (trunc63 f)).
Proof.
  unfold fast_ok, py_int, trunc_abs.
  intros (((Hnan & Hinf)%andb_true_iff & Hneg)%andb_true_iff & He)%andb_true_iff.
  apply negb_true_iff in Hnan, Hinf, Hneg. rewrite Hnan, Hinf, Hneg.
  destruct (float_magnitude f) as [m e]. simpl in He. by rewrite He.
Qed.

Lemma py_ceil_fast (f : float) :
  fast_ok f = true -> 1 <= Uint63.to_Z (ceil63 f) ->
  py_ceil f = Ok (Uint63.to_Z (ceil63 f)).
Proof.
  unfold fast_ok, py_ceil, trunc_abs, ceil63.
  intros (((Hnan & Hinf)%andb_true_iff & Hneg)%andb_true_iff & He)%andb_true_iff.
  apply negb_true_iff in Hnan, Hinf, Hneg. rewrite Hnan, Hinf, Hneg.
  destruct (float_magnitude f) as [m e] eqn:Hm. simpl in He. rewrite He.
  destruct (is_integral f); [done|]. intros Hc. f_equal.
  rewrite Uint63.add_spec, Uint63.to_Z_1, wB_eq in Hc |- *.
  pose proof (to_Z_range (trunc63 f)).
  destruct (Z.eq_dec (Uint63.to_Z (trunc63 f) + 1) 9223372036854775808) as [Heq|].
  - rewrite Heq, Z.mod_same in Hc by done. lia.
  - rewrite Z.mod_small by lia. done.
Qed.

Lemma to_Z_mul_small (x y : int) :
  Uint63.to_Z x <= 1024 -> Uint63.to_Z y <= 1024 ->
  Uint63.to_Z (Uint63.mul x y) = Uint63.to_Z x * Uint63.to_Z y.
Proof.
  intros. rewrite Uint63.mul_spec, wB_eq. apply Z.mod_small.
  pose proof (to_Z_range x). pose proof (to_Z_range y). nia.
Qed.

Lemma to_Z_pred (x : int) :
  1 <= Uint63.to_Z x -> Uint63.to_Z (Uint63.sub x 1) = Uint63.to_Z x - 1.
Proof.
  intros. rewrite Uint63.sub_spec, Uint63.to_Z_1, wB_eq. apply Z.mod_small.
  pose proof (to_Z_range x). lia.
Qed.

(** The grid of [n] colours, [1 <= n <= tex_size * tex_size]. *)
Lemma atlas_grid_spec (n : Z) :
  1 <= n <= tex_size * tex_size ->
  exists cols rows s q cell_w cell_h,
    py_sqrt n = Ok s /\ py_ceil s = Ok cols
    /\ int_truediv n cols = Ok q /\ py_ceil q = Ok rows
    /\ int_truediv tex_size cols = Ok cell_w
    /\ int_truediv tex_size rows = Ok cell_h
    /\ atlas_grid n = Ok (cols, rows, cell_w, cell_h)
    /\ 1 <= cols <= tex_size /\ 1 <= rows <= tex_size
    /\ n <= cols * rows
    /\ (cols - 1) * (cols - 1) < n <= cols * cols
    /\ (rows - 1) * cols < n.
Proof.
  unfold tex_size. intros Hn.
  pose proof (all_range_sound 20 grid_check 1 (Uint63.of_Z n)
                ltac:(lia) ltac:(done) grid_checked) as Hchk.
  rewrite to_of_Z in Hchk by lia.
  specialize (Hchk ltac:(rewrite Uint63.to_Z_1;
                          change (2 ^ Z.of_nat 20) with 1048576; lia)).
  unfold grid_check in Hchk.
  set (s := PrimFloat.sqrt (PrimFloat.of_uint63 (Uint63.of_Z n))) in *.
  set (cols := ceil63 s) in *.
  set (q := PrimFloat.div (PrimFloat.of_uint63 (Uint63.of_Z n))
              (PrimFloat.of_uint63 cols)) in *.
  set (rows := ceil63 q) in *.
  remember (fast_ok s) as ok_s eqn:Hoks.
  remember (fast_ok q) as ok_q eqn:Hokq.
  repeat (apply andb_true_iff in Hchk as [Hchk ?]). subst ok_s ok_q.
  repeat match goal with
         | H : Uint63.leb _ _ = true |- _ => apply Uint63.leb_spec in H
         | H : Uint63.ltb _ _ = true |- _ => apply Uint63.ltb_spec in H
         end.
  change (Uint63.to_Z 1) with 1 in *. change (Uint63.to_Z 1024) with 1024 in *.
  rewrite !to_Z_mul_small, ?to_Z_pred, ?to_of_Z in * by (rewrite ?to_Z_pred; lia).
  assert (py_sqrt n = Ok s) as Hs.
  { unfold py_sqrt. destruct (Z.ltb_spec n 0); [lia|].
    by rewrite float_of_int_nonneg by lia. }
  assert (py_ceil s = Ok (Uint63.to_Z cols)) as Hcols
    by (by apply py_ceil_fast).
  assert (int_truediv n (Uint63.to_Z cols) = Ok q) as Hq.
  { unfold int_truediv. destruct (Z.eqb_spec (Uint63.to_Z cols) 0); [lia|].
    by rewrite float_of_to_Z, float_of_int_nonneg by lia. }
  assert (py_ceil q = Ok (Uint63.to_Z rows)) as Hrows
    by (by apply py_ceil_fast).
  assert (forall c : int, 1 <= Uint63.to_Z c ->
            int_truediv 1024 (Uint63.to_Z c)
            = Ok (PrimFloat.div (float_of_int 1024) (PrimFloat.of_uint63 c)))
    as Hcw.
  { intros c Hc. unfold int_truediv.
    destruct (Z.eqb_spec (Uint63.to_Z c) 0); [lia|].
    by rewrite float_of_to_Z. }
  exists (Uint63.to_Z cols), (Uint63.to_Z rows), s, q. do 2 eexists.
  split_and!; try done; try lia; try (by apply Hcw).
  unfold atlas_grid. rewrite Hs. simpl. rewrite Hcols. simpl.
  rewrite Hq. simpl. rewrite Hrows. simpl. unfold tex_size.
  rewrite !Hcw by lia. done.
Qed.

Lemma float_of_int_1024 : float_of_int 1024 = PrimFloat.of_uint63 1024.
Proof. reflexivity. Qed.

Lemma float_of_int_2048 : float_of_int 2048 = PrimFloat.of_uint63 2048.
Proof. reflexivity. Qed.

(** Grid lines [k] and [k + 1] of a grid of [c] cells per side. *)
Lemma grid_line_spec (c k : Z) :
  1 <= c <= tex_size -> 0 <= k < c ->
  exists cell_w,
    int_truediv tex_size c = Ok cell_w
    /\ py_int (int_mul_float k cell_w) = Ok (grid_line c k)
    /\ py_int (int_mul_float (k + 1) cell_w) = Ok (grid_line c (k + 1))
    /\ 0 <= grid_line c k < grid_line c (k + 1)
    /\ grid_line c (k + 1) <= tex_size.
Proof.
  unfold tex_size. intros Hc Hk.
  pose proof (all_range_sound 10 _ 1 (Uint63.of_Z c)
                ltac:(lia) ltac:(done) cells_checked) as Hchk.
  rewrite to_of_Z in Hchk by lia.
  specialize (Hchk ltac:(rewrite Uint63.to_Z_1;
                          change (2 ^ Z.of_nat 10) with 1024; lia)).
  pose proof (all_range_sound 10 _ 0 (Uint63.of_Z k)
                ltac:(lia) ltac:(done) Hchk) as Hchk'.
  rewrite to_of_Z in Hchk' by lia.
  specialize (Hchk' ltac:(rewrite Uint63.to_Z_0;
                           change (2 ^ Z.of_nat 10) with 1024; lia)).
  clear Hchk. unfold cell_check in Hchk'.
  assert (Uint63.ltb (Uint63.of_Z k) (Uint63.of_Z c) = true) as Hlt
    by (apply Uint63.ltb_spec; rewrite !to_of_Z; lia).
  rewrite Hlt in Hchk'. simpl in Hchk'.
  rewrite <-of_Z_succ in Hchk' by lia.
  remember (fast_ok (grid_line63 (Uint63.of_Z c) (Uint63.of_Z k))) as ok0.
  remember (fast_ok (grid_line63 (Uint63.of_Z c) (Uint63.of_Z (k + 1)))) as ok1.
  repeat (apply andb_true_iff in Hchk' as [Hchk' ?]). subst ok0 ok1.
  repeat match goal with
         | H : Uint63.leb _ _ = true |- _ => apply Uint63.leb_spec in H
         | H : Uint63.ltb _ _ = true |- _ => apply Uint63.ltb_spec in H
         end.
  change (Uint63.to_Z 1024) with 1024 in *.
  assert (int_truediv 1024 c
          = Ok (PrimFloat.div (PrimFloat.of_uint63 1024)
                  (PrimFloat.of_uint63 (Uint63.of_Z c)))) as Hcw.
  { unfold int_truediv. destruct (Z.eqb_spec c 0); [lia|].
    by rewrite float_of_int_1024, float_of_int_nonneg by lia. }
  assert (forall j, 0 <= j ->
            fast_ok (grid_line63 (Uint63.of_Z c) (Uint63.of_Z j)) = true ->
            py_int (int_mul_float j
                      (PrimFloat.div (PrimFloat.of_uint63 1024)
                         (PrimFloat.of_uint63 (Uint63.of_Z c))))
            = Ok (Uint63.to_Z
                    (trunc63 (grid_line63 (Uint63.of_Z c) (Uint63.of_Z j)))))
    as Hline.
  { intros j Hj Hok. unfold int_mul_float.
    rewrite float_of_int_nonneg by done. by apply py_int_fast. }
  assert (forall j, 0 <= j ->
            fast_ok (grid_line63 (Uint63.of_Z c) (Uint63.of_Z j)) = true ->
            grid_line c j
            = Uint63.to_Z
                (trunc63 (grid_line63 (Uint63.of_Z c) (Uint63.of_Z j))))
    as Hgl.
  { intros j Hj Hok. unfold grid_line, tex_size. rewrite Hcw. simpl.
    by rewrite Hline. }
  eexists. split; [done|].
  rewrite !Hgl, !Hline by (done || lia).
  pose proof (to_Z_range
    (trunc63 (grid_line63 (Uint63.of_Z c) (Uint63.of_Z k)))).
  split_and!; try done; lia.
Qed.

Lemma grid_line_mono (c k1 k2 : Z) :
  1 <= c <= tex_size -> 0 <= k1 < k2 -> k2 <= c ->
  grid_line c k1 < grid_line c k2.
Proof.
  intros Hc [Hk1 Hlt] Hk2.
  assert (exists d : nat, k2 = k1 + 1 + Z.of_nat d) as [d ->]
    by (exists (Z.to_nat (k2 - k1 - 1)); lia).
  clear Hlt. induction d as [|d IH].
  - destruct (grid_line_spec c k1) as (_ & _ & _ & _ & ? & _); [done|lia|].
    replace (k1 + 1 + Z.of_nat 0) with (k1 + 1) by lia. lia.
  - destruct (grid_line_spec c (k1 + 1 + Z.of_nat d))
      as (_ & _ & _ & _ & ? & _); [done|lia|].
    replace (k1 + 1 + Z.of_nat (S d)) with (k1 + 1 + Z.of_nat d + 1) by lia.
    specialize (IH ltac:(lia)). lia.
Qed.

Lemma grid_line_range (c k : Z) :
  1 <= c <= tex_size -> 0 <= k <= c -> 0 <= grid_line c k <= tex_size.
Proof.
  intros Hc Hk. destruct (Z.eq_dec k c) as [->|].
  - destruct (grid_line_spec c (c - 1)) as (_ & _ & _ & _ & ? & ?);
      [done|lia|]. replace (c - 1 + 1) with c in * by lia. lia.
  - destruct (grid_line_spec c k) as (_ & _ & _ & _ & ? & ?); [done|lia|]. lia.
Qed.

Lemma int_truediv_center (s : Z) :
  0 <= s -> int_truediv s (2 * tex_size) = Ok (center63 (Uint63.of_Z s)).
Proof.
  intros. unfold int_truediv, center63.
  change (2 * tex_size =? 0) with false. cbv iota.
  rewrite float_of_int_nonneg by done. do 2 f_equal.
Qed.

(** The UV coordinate of the cells of a grid of [c] cells per side. *)
Lemma center_spec (c k : Z) :
  1 <= c <= tex_size -> 0 <= k < c ->
  int_truediv (grid_line c k + grid_line c (k + 1)) (2 * tex_size)
  = Ok (center c k)
  /\ in_unit (center c k)
  /\ forall k', 0 <= k' < c -> k <> k' ->
       PrimFloat.eqb (center c k) (center c k') = false.
Proof.
  intros Hc Hk.
  assert (forall j, 0 <= j < c ->
            0 <= grid_line c j + grid_line c (j + 1) < 2048
            /\ center c j
               = center63 (Uint63.of_Z (grid_line c j + grid_line c (j + 1))))
    as Hsum.
  { intros j Hj.
    destruct (grid_line_spec c j) as (_ & _ & _ & _ & ? & ?); [done..|].
    unfold tex_size in *. split; [lia|].
    unfold center. by rewrite int_truediv_center by lia. }
  assert (forall s, 0 <= s < 2048 -> center_check (Uint63.of_Z s) = true)
    as Hchk.
  { intros s Hs.
    apply (all_range_sound 11 center_check 0); [lia|done|exact centers_checked|].
    rewrite to_of_Z by lia. rewrite Uint63.to_Z_0.
    change (2 ^ Z.of_nat 11) with 2048. lia. }
  destruct (Hsum k Hk) as [Hs Hck].
  pose proof (Hchk _ Hs) as Hc1. unfold center_check in Hc1.
  apply andb_true_iff in Hc1 as [[H0 H1]%andb_true_iff Hall].
  split_and!.
  - rewrite Hck. apply int_truediv_center. lia.
  - rewrite Hck. done.
  - intros k' Hk' Hne. destruct (Hsum k' Hk') as [Hs' Hck'].
    rewrite Hck, Hck'.
    pose proof (all_range_sound 11 _ 0
      (Uint63.of_Z (grid_line c k' + grid_line c (k' + 1)))
      ltac:(lia) ltac:(done) Hall) as Hp.
    rewrite to_of_Z in Hp by lia.
    specialize (Hp ltac:(rewrite Uint63.to_Z_0;
                          change (2 ^ Z.of_nat 11) with 2048; lia)).
    apply orb_true_iff in Hp as [Heq|Hp]; [|by apply negb_true_iff].
    apply Uint63.eqb_spec in Heq.
    apply (f_equal Uint63.to_Z) in Heq. rewrite !to_of_Z in Heq by lia.
    assert (k < k' \/ k' < k) as [?|?] by lia.
    + assert (grid_line c k < grid_line c k') by (apply grid_line_mono; lia).
      assert (grid_line c (k + 1) < grid_line c (k' + 1))
        by (apply grid_line_mono; lia). lia.
    + assert (grid_line c k' < grid_line c k) by (apply grid_line_mono; lia).
      assert (grid_line c (k' + 1) < grid_line c (k + 1))
        by (apply grid_line_mono; lia). lia.
Qed.

(** * Grid cells *)

Section cells.
Context (cols rows : Z).
Hypothesis cols_range : 1 <= cols <= tex_size.
Hypothesis rows_range : 1 <= rows <= tex_size.

Lemma cell_index (i : Z) :
  0 <= i < cols * rows ->
  0 <= i mod cols < cols /\ 0 <= i / cols < rows.
Proof.
  intros Hi. pose proof (Z.mod_pos_bound i cols ltac:(lia)).
  pose proof (Z.div_mod i cols ltac:(lia)).
  assert (0 <= i / cols) by (apply Z.div_pos; lia).
  split; [done|]. split; [done|]. nia.
Qed.

Lemma cell_of_inside (i : Z) :
  0 <= i < cols * rows ->
  exists xs xe ys ye,
    cell_of cols rows i = (xs, xe, ys, ye)
    /\ 0 <= xs < xe /\ xe <= tex_size /\ 0 <= ys < ye /\ ye <= tex_size.
Proof.
  intros [Hc Hr]%cell_index.
  destruct (grid_line_spec cols (i mod cols)) as (_ & _ & _ & _ & ? & ?);
    [done..|].
  destruct (grid_line_spec rows (i / cols)) as (_ & _ & _ & _ & ? & ?);
    [done..|].
  do 4 eexists. split; [done|]. lia.
Qed.

(** Two different cells of the grid share no pixel. *)
Lemma cells_disjoint (i j x y : Z) :
  0 <= i < cols * rows -> 0 <= j < cols * rows -> i <> j ->
  in_rect (cell_of cols rows i) x y -> ~ in_rect (cell_of cols rows j) x y.
Proof.
  intros Hi Hj Hne. unfold cell_of, in_rect. intros [Hx Hy] [Hx' Hy'].
  destruct (cell_index i Hi) as [Hci Hri].
  destruct (cell_index j Hj) as [Hcj Hrj].
  pose proof (Z.div_mod i cols ltac:(lia)).
  pose proof (Z.div_mod j cols ltac:(lia)).
  assert (forall c a b, 1 <= c <= tex_size -> 0 <= a < c -> 0 <= b < c ->
            a < b -> grid_line c (a + 1) <= grid_line c b) as Hsep.
  { intros c a b Hc Ha Hb Hab. destruct (Z.eq_dec (a + 1) b) as [->|]; [lia|].
    apply Z.lt_le_incl, grid_line_mono; lia. }
  assert (i mod cols = j mod cols) as Hc.
  { destruct (Z.lt_total (i mod cols) (j mod cols)) as [Hlt|[?|Hlt]]; [|done|].
    - pose proof (Hsep cols _ _ cols_range Hci Hcj Hlt). lia.
    - pose proof (Hsep cols _ _ cols_range Hcj Hci Hlt). lia. }
  assert (i / cols = j / cols) as Hr.
  { destruct (Z.lt_total (i / cols) (j / cols)) as [Hlt|[?|Hlt]]; [|done|].
    - pose proof (Hsep rows _ _ rows_range Hri Hrj Hlt). lia.
    - pose proof (Hsep rows _ _ rows_range Hrj Hri Hlt). lia. }
  lia.
Qed.

(** The UV centres of two different cells differ. *)
Lemma uv_of_differ (i j : Z) :
  0 <= i < cols * rows -> 0 <= j < cols * rows -> i <> j ->
  uv_differ (uv_of cols rows i) (uv_of cols rows j).
Proof.
  intros Hi Hj Hne. unfold uv_differ, uv_of. cbn [fst snd].
  destruct (cell_index i Hi) as [Hci Hri].
  destruct (cell_index j Hj) as [Hcj Hrj].
  pose proof (Z.div_mod i cols ltac:(lia)).
  pose proof (Z.div_mod j cols ltac:(lia)).
  destruct (Z.eq_dec (i mod cols) (j mod cols)) as [Heq|Hc].
  - right. destruct (center_spec rows (i / cols)) as (_ & _ & Hd); [done..|].
    apply Hd; [done|]. intros Hr. rewrite Heq, Hr in *. lia.
  - left. destruct (center_spec cols (i mod cols)) as (_ & _ & Hd); [done..|].
    by apply Hd.
Qed.

Lemma uv_of_in_unit (i : Z) :
  0 <= i < cols * rows ->
  in_unit (uv_of cols rows i).1 /\ in_unit (uv_of cols rows i).2.
Proof.
  intros [Hc Hr]%cell_index. unfold uv_of. cbn [fst snd].
  destruct (center_spec cols (i mod cols)) as (_ & ? & _); [done..|].
  destruct (center_spec rows (i / cols)) as (_ & ? & _); [done..|].
  done.
Qed.

Context (cell_w cell_h : float).
Hypothesis cell_w_eq : int_truediv tex_size cols = Ok cell_w.
Hypothesis cell_h_eq : int_truediv tex_size rows = Ok cell_h.

Lemma cell_rect_inside (i : Z) :
  0 <= i < cols * rows ->
  cell_rect cell_w cell_h cols i = Ok (cell_of cols rows i).
Proof.
  intros [Hc Hr]%cell_index. unfold cell_rect, py_mod, py_floordiv.
  destruct (Z.eqb_spec cols 0); [lia|]. simpl.
  destruct (grid_line_spec cols (i mod cols))
    as (cw & Hcw & Hx0 & Hx1 & _); [done..|].
  rewrite cell_w_eq in Hcw. injection Hcw as <-.
  destruct (grid_line_spec rows (i / cols))
    as (ch & Hch & Hy0 & Hy1 & _); [done..|].
  rewrite cell_h_eq in Hch. injection Hch as <-.
  rewrite Hx0. simpl. rewrite Hx1. simpl.
  rewrite Hy0. simpl. rewrite Hy1. done.
Qed.

Lemma place_color_inside (st : ndarray * gmap color (float * float))
    (i : Z) (c : color) :
  0 <= i < cols * rows ->
  place_color cell_w cell_h cols st (i, c)
  = Ok (paint cols rows st.1 (i, c), record cols rows st.2 (i, c)).
Proof.
  intros Hi. destruct st as [tex m]. unfold place_color, paint, record.
  rewrite cell_rect_inside by done. cbn [fst snd].
  destruct (cell_index i Hi) as [Hc Hr].
  unfold cell_of, uv_of. cbn -[Z.mul].
  destruct (center_spec cols (i mod cols)) as (-> & _); [done..|].
  cbn -[Z.mul].
  destruct (center_spec rows (i / cols)) as (-> & _); [done..|]. done.
Qed.

Lemma place_colors_inside (ics : list (Z * color))
    (st : ndarray * gmap color (float * float)) :
  (forall i c, (i, c) ∈ ics -> 0 <= i < cols * rows) ->
  for_each ics (place_color cell_w cell_h cols) st
  = Ok (foldl (paint cols rows) st.1 ics, foldl (record cols rows) st.2 ics).
Proof.
  revert st. induction ics as [|[i c] ics IH]; intros st Hin.
  - by destruct st.
  - cbn [for_each]. rewrite place_color_inside by (apply (Hin i c); by left).
    simpl. rewrite IH by (intros ???; eapply Hin; by right). done.
Qed.

Lemma fill_rest_step (colors : list color) (last_color : color)
    (tex : ndarray) (i : Z) :
  last colors = Some last_color -> 0 <= i < cols * rows ->
  fill_rest cell_w cell_h cols colors tex i
  = Ok (paint cols rows tex (i, with_alpha last_color 255%N)).
Proof.
  intros Hlast Hi. unfold fill_rest, paint, py_last.
  rewrite cell_rect_inside, Hlast by done. cbn [fst snd].
  by destruct (cell_of cols rows i) as [[[??]?]?].
Qed.

Lemma fill_rest_inside (colors : list color) (last_color : color)
    (idx : list Z) (tex : ndarray) :
  last colors = Some last_color ->
  (forall i, i ∈ idx -> 0 <= i < cols * rows) ->
  for_each idx (fill_rest cell_w cell_h cols colors) tex
  = Ok (foldl (paint cols rows) tex
          ((fun i => (i, with_alpha last_color 255%N)) <$> idx)).
Proof.
  intros Hlast. revert tex.
  induction idx as [|i idx IH]; intros tex Hin; [done|].
  cbn [for_each].
  rewrite (fill_rest_step _ last_color) by (done || apply Hin; by left).
  simpl. by rewrite IH by (intros ??; apply Hin; by right).
Qed.

(** ** The texture *)

Lemma paint_shape_1 (tex : ndarray) (ic : Z * color) :
  shape_h (paint cols rows tex ic) = shape_h tex
  /\ shape_w (paint cols rows tex ic) = shape_w tex.
Proof. unfold paint. by destruct (cell_of cols rows ic.1) as [[[??]?]?]. Qed.

Lemma paint_shape (tex : ndarray) (ics : list (Z * color)) :
  shape_h (foldl (paint cols rows) tex ics) = shape_h tex
  /\ shape_w (foldl (paint cols rows) tex ics) = shape_w tex.
Proof.
  revert tex. induction ics as [|ic ics IH]; intros tex; [done|].
  simpl. destruct (IH (paint cols rows tex ic)) as [-> ->].
  apply paint_shape_1.
Qed.

Lemma paint_pixel (tex : ndarray) (i : Z) (c : color) (x y : Z) :
  shape_h tex = tex_size -> shape_w tex = tex_size ->
  0 <= i < cols * rows ->
  pixel (paint cols rows tex (i, c)) y x
  = if decide (in_rect (cell_of cols rows i) x y) then c else pixel tex y x.
Proof.
  intros Hh Hw Hi.
  destruct (cell_of_inside i Hi) as (xs & xe & ys & ye & Hcell & ?).
  unfold paint. cbn [fst snd]. rewrite Hcell. unfold in_rect.
  cbn [setitem_slice pixel]. rewrite Hh, Hw.
  rewrite !slice_bound_inside by lia.
  case_decide as Hd.
  - destruct Hd as [[??] [??]].
    destruct (Z.leb_spec ys y), (Z.ltb_spec y ye),
      (Z.leb_spec xs x), (Z.ltb_spec x xe); try lia. done.
  - destruct (Z.leb_spec ys y), (Z.ltb_spec y ye),
      (Z.leb_spec xs x), (Z.ltb_spec x xe); try done. lia.
Qed.

Lemma paint_out (tex : ndarray) (ics : list (Z * color)) (x y : Z) :
  shape_h tex = tex_size -> shape_w tex = tex_size ->
  (forall i c, (i, c) ∈ ics ->
     0 <= i < cols * rows /\ ~ in_rect (cell_of cols rows i) x y) ->
  pixel (foldl (paint cols rows) tex ics) y x = pixel tex y x.
Proof.
  revert tex. induction ics as [|[i c] ics IH]; intros tex Hh Hw Hout; [done|].
  simpl. destruct (Hout i c) as [Hi Hn]; [by left|].
  destruct (paint_shape_1 tex (i, c)) as [Hh' Hw'].
  rewrite IH; [|congruence|congruence|intros j c' ?; apply (Hout j c'); by right].
  rewrite paint_pixel by done. by rewrite decide_False.
Qed.

(** A cell keeps the colour it was filled with as long as the cells
    filled afterwards are different ones. *)
Lemma paint_in (tex : ndarray) (pre post : list (Z * color))
    (i : Z) (c : color) (x y : Z) :
  shape_h tex = tex_size -> shape_w tex = tex_size ->
  0 <= i < cols * rows ->
  (forall j c', (j, c') ∈ post -> 0 <= j < cols * rows /\ j <> i) ->
  in_rect (cell_of cols rows i) x y ->
  pixel (foldl (paint cols rows) tex (pre ++ (i, c) :: post)) y x = c.
Proof.
  intros Hh Hw Hi Hpost Hin. rewrite foldl_app. simpl.
  destruct (paint_shape tex pre) as [Hh' Hw'].
  destruct (paint_shape_1 (foldl (paint cols rows) tex pre) (i, c))
    as [Hh'' Hw''].
  rewrite paint_out; [|congruence|congruence|].
  - rewrite paint_pixel by congruence. by rewrite decide_True.
  - intros j c' Hj. destruct (Hpost j c' Hj) as [??]. split; [done|].
    by apply (cells_disjoint i j).
Qed.
End cells.

(** * The UV dictionary *)

Lemma enumerate_from_cons {A : Type} (i0 : Z) (a : A) (l : list A) :
  enumerate_from i0 (a :: l) = (i0, a) :: enumerate_from (i0 + 1) l.
Proof.
  unfold enumerate_from. cbn [length].
  rewrite Nat2Z.inj_succ, seqZ_cons by lia. simpl.
  by rewrite Z.pred_succ.
Qed.

Lemma elem_of_enumerate_from {A : Type} (i0 : Z) (l : list A) (i : Z) (a : A) :
  (i, a) ∈ enumerate_from i0 l
  <-> exists j : nat, i = i0 + Z.of_nat j /\ l !! j = Some a.
Proof.
  revert i0. induction l as [|b l IH]; intros i0.
  - unfold enumerate_from. simpl. rewrite elem_of_nil. split; [done|].
    by intros ([|j] & _ & ?).
  - rewrite enumerate_from_cons, elem_of_cons, IH. split.
    + intros [[= -> ->]|(j & -> & ?)].
      * exists 0%nat. split; [lia|done].
      * exists (S j). split; [lia|done].
    + intros ([|j] & -> & Hl); simpl in Hl.
      * left. f_equal; [lia|congruence].
      * right. exists j. split; [lia|done].
Qed.

Section record.
Context (cols rows : Z).

Lemma record_other (ics : list (Z * color))
    (m : gmap color (float * float)) (c : color) :
  (forall i, (i, c) ∉ ics) ->
  foldl (record cols rows) m ics !! c = m !! c.
Proof.
  revert m. induction ics as [|[i c'] ics IH]; intros m Hn; [done|].
  simpl. rewrite IH by (intros j ?; apply (Hn j); by right).
  unfold record. cbn [fst snd]. apply lookup_insert_ne.
  intros ->. apply (Hn i). by left.
Qed.

Lemma record_enumerated (l : list color) (i0 : Z)
    (m : gmap color (float * float)) (j : nat) (c : color) :
  NoDup l -> l !! j = Some c ->
  foldl (record cols rows) m (enumerate_from i0 l) !! c
  = Some (uv_of cols rows (i0 + Z.of_nat j)).
Proof.
  revert i0 m j. induction l as [|c' l IH]; intros i0 m j Hnd Hj; [done|].
  apply NoDup_cons in Hnd as [Hni Hnd].
  rewrite enumerate_from_cons. simpl. destruct j as [|j]; simpl in Hj.
  - injection Hj as ->. rewrite record_other.
    + unfold record. cbn [fst snd]. rewrite lookup_insert_eq.
      do 2 f_equal. lia.
    + intros i (k & _ & Hk)%elem_of_enumerate_from.
      apply Hni. by eapply list_elem_of_lookup_2.
  - rewrite (IH _ _ j) by done. do 2 f_equal. lia.
Qed.

Lemma record_enumerated_None (l : list color) (i0 : Z) (c : color) :
  c ∉ l -> foldl (record cols rows) ∅ (enumerate_from i0 l) !! c = None.
Proof.
  intros Hn. rewrite record_other; [done|].
  intros i (k & _ & Hk)%elem_of_enumerate_from.
  apply Hn. by eapply list_elem_of_lookup_2.
Qed.
End record.

(** * The atlas builder as a whole *)

Lemma enumerate_from_app {A : Type} (i0 : Z) (l k : list A) :
  enumerate_from i0 (l ++ k)
  = enumerate_from i0 l ++ enumerate_from (i0 + Z.of_nat (length l)) k.
Proof.
  revert i0. induction l as [|a l IH]; intros i0.
  - cbn [length app]. change (Z.of_nat 0) with 0. by rewrite Z.add_0_r.
  - rewrite <-app_comm_cons, !enumerate_from_cons, IH. simpl.
    do 3 f_equal. lia.
Qed.

Lemma enumerate_eq {A : Type} (l : list A) : enumerate l = enumerate_from 0 l.
Proof. reflexivity. Qed.

Lemma elem_of_visible_colors (a : ndarray) (c : color) :
  c ∈ visible_colors a
  <-> exists y x, 0 <= y < shape_h a /\ 0 <= x < shape_w a
                  /\ pixel a y x = c /\ visible c = true.
Proof.
  unfold visible_colors. rewrite list_elem_of_bind. split.
  - intros (y & (x & Hc & Hx%elem_of_py_range)%list_elem_of_bind
              & Hy%elem_of_py_range).
    unfold visible. destruct (0 <? alpha (pixel a y x))%N eqn:Hv.
    + apply list_elem_of_singleton in Hc as ->. exists y, x.
      split_and!; try done; lia.
    + by apply elem_of_nil in Hc.
  - intros (y & x & Hy & Hx & <- & Hv). exists y.
    split; [|apply elem_of_py_range; lia].
    apply list_elem_of_bind. exists x.
    split; [|apply elem_of_py_range; lia].
    unfold visible in Hv. rewrite Hv. by left.
Qed.

(** The atlas builder from the packed colours on. *)
Lemma atlas_body_spec (colors : list color) (n : Z) (dims : Z * Z) :
  NoDup colors -> n = Z.of_nat (length colors) ->
  1 <= n <= tex_size * tex_size ->
  exists cols rows cell_w cell_h tex uvm,
    atlas_grid n = Ok (cols, rows, cell_w, cell_h)
    /\ 1 <= cols <= tex_size /\ 1 <= rows <= tex_size
    /\ n <= cols * rows
    /\ (cols - 1) * (cols - 1) < n <= cols * cols
    /\ (rows - 1) * cols < n
    /\ ('(cols, rows, cell_w, cell_h) ← atlas_grid n;
        '(texture, color_to_uv) ←
          for_each (enumerate colors) (place_color cell_w cell_h cols)
            (np_zeros tex_size tex_size, ∅);
        texture ←
          for_each (py_range n (cols * rows))
            (fill_rest cell_w cell_h cols colors) texture;
        mret (texture, color_to_uv, dims))
       = Ok (tex, uvm, dims)
    /\ (forall (j : nat) c, colors !! j = Some c ->
          uvm !! c = Some (uv_of cols rows (Z.of_nat j)))
    /\ (forall c, c ∉ colors -> uvm !! c = None)
    /\ shape_h tex = tex_size /\ shape_w tex = tex_size
    /\ (forall (j : nat) c x y, colors !! j = Some c ->
          in_rect (cell_of cols rows (Z.of_nat j)) x y -> pixel tex y x = c).
Proof.
  intros Hnd Hn Hrange.
  destruct (atlas_grid_spec n Hrange)
    as (cols & rows & s & q & cw & ch & _ & _ & _ & _ & Hcw & Hch & Hgrid
        & Hcols & Hrows & Hcap & Hexc & Hexr).
  assert (exists last_color, last colors = Some last_color) as [lc Hlc].
  { apply last_is_Some. intros Hnil. rewrite Hnil in Hn. simpl in Hn. lia. }
  set (rest := (fun i => (i, with_alpha lc 255%N))
                 <$> py_range n (cols * rows)).
  exists cols, rows, cw, ch.
  exists (foldl (paint cols rows) (np_zeros tex_size tex_size)
            (enumerate_from 0 colors ++ rest)).
  exists (foldl (record cols rows) ∅ (enumerate_from 0 colors)).
  assert (forall i c, (i, c) ∈ enumerate_from 0 colors -> 0 <= i < n) as Hidx.
  { intros i c (j & -> & Hj%lookup_lt_Some)%elem_of_enumerate_from. lia. }
  split_and!; try done; try lia.
  - rewrite Hgrid. cbn [mbind result_bind].
    rewrite enumerate_eq.
    rewrite (place_colors_inside cols rows Hcols Hrows cw ch Hcw Hch)
      by (intros i c ?%Hidx; lia).
    cbn [mbind result_bind fst snd].
    rewrite (fill_rest_inside cols rows Hcols Hrows cw ch Hcw Hch _ lc)
      by (done || intros i ?%elem_of_py_range; lia).
    cbn [mbind result_bind mret result_ret]. by rewrite foldl_app.
  - intros j c Hj. rewrite (record_enumerated _ _ _ _ _ j) by done.
    do 2 f_equal.
  - intros c Hc. by apply record_enumerated_None.
  - by destruct (paint_shape cols rows (np_zeros tex_size tex_size)
                   (enumerate_from 0 colors ++ rest)) as [-> _].
  - by destruct (paint_shape cols rows (np_zeros tex_size tex_size)
                   (enumerate_from 0 colors ++ rest)) as [_ ->].
  - intros j c x y Hj Hin.
    pose proof (lookup_lt_Some _ _ _ Hj) as Hlt.
    rewrite <-(take_drop_middle colors j c Hj) at 1.
    rewrite enumerate_from_app, enumerate_from_cons, <-!app_assoc.
    rewrite <-app_comm_cons, length_take, Nat.min_l by lia.
    rewrite Z.add_0_l.
    apply (paint_in cols rows Hcols Hrows); [done|done|lia| |done].
    intros i c' [(k & -> & Hk%lookup_lt_Some)%elem_of_enumerate_from
                |Hr]%elem_of_app.
    + rewrite length_drop in Hk. lia.
    + unfold rest in Hr. apply list_elem_of_fmap in Hr as (i' & [= -> ->] & Hi).
      apply elem_of_py_range in Hi. lia.
Qed.

Section packed.
Context (set_to_list : list color -> list color).
Hypothesis set_to_list_spec : enumerates set_to_list.
Context (a : ndarray).

Local Abbreviation enumeration := (unique_colors set_to_list a).
Local Abbreviation capacity := (Z.to_nat (tex_size * tex_size)).

(** The colours that are packed: the first [tex_size * tex_size] of
    the enumeration of the set. *)
Lemma packed_colors_spec :
  exists n,
    packed_colors set_to_list a = (take capacity enumeration, n)
    /\ n = Z.of_nat (length (take capacity enumeration))
    /\ n = Z.min (Z.of_nat (length enumeration)) (tex_size * tex_size)
    /\ NoDup (take capacity enumeration).
Proof.
  unfold packed_colors. fold (unique_colors set_to_list a).
  set (cap := Z.to_nat (tex_size * tex_size)).
  assert (Z.of_nat cap = tex_size * tex_size) as Hmax
    by (unfold cap, tex_size; lia).
  clearbody cap.
  assert (NoDup (take cap enumeration)) as Hnd.
  { eapply sublist_NoDup; [apply set_to_list_spec|apply sublist_take]. }
  destruct (Z.ltb_spec (tex_size * tex_size) (Z.of_nat (length enumeration))).
  - eexists. split; [done|]. rewrite length_take. split_and!; [lia|lia|done].
  - eexists. rewrite take_ge by lia. split; [done|]. split_and!; [lia|lia|].
    apply set_to_list_spec.
Qed.

Lemma unique_colors_nonempty :
  has_visible_pixel a -> 1 <= Z.of_nat (length enumeration).
Proof.
  intros (y & x & Hy & Hx & Hv).
  assert (pixel a y x ∈ enumeration) as Hin.
  { apply set_to_list_spec, elem_of_visible_colors. by exists y, x. }
  destruct enumeration; [by apply elem_of_nil in Hin|simpl; lia].
Qed.

(** What [generate_color_atlas] returns for an image with a visible
    pixel. *)
Lemma generate_color_atlas_spec :
  has_visible_pixel a ->
  exists colors n cols rows cell_w cell_h tex uvm,
    packed_colors set_to_list a = (colors, n)
    /\ colors = take capacity enumeration
    /\ NoDup colors /\ n = Z.of_nat (length colors)
    /\ 1 <= n <= tex_size * tex_size
    /\ atlas_grid n = Ok (cols, rows, cell_w, cell_h)
    /\ 1 <= cols <= tex_size /\ 1 <= rows <= tex_size
    /\ n <= cols * rows
    /\ (cols - 1) * (cols - 1) < n <= cols * cols
    /\ (rows - 1) * cols < n
    /\ generate_color_atlas set_to_list a
       = Ok (tex, uvm, (shape_w a, shape_h a))
    /\ (forall (j : nat) c, colors !! j = Some c ->
          uvm !! c = Some (uv_of cols rows (Z.of_nat j)))
    /\ (forall c, c ∉ colors -> uvm !! c = None)
    /\ shape_h tex = tex_size /\ shape_w tex = tex_size
    /\ (forall (j : nat) c x y, colors !! j = Some c ->
          in_rect (cell_of cols rows (Z.of_nat j)) x y -> pixel tex y x = c).
Proof.
  intros Hvis. destruct packed_colors_spec as (n & Hp & Hn & Hmin & Hnd).
  pose proof (unique_colors_nonempty Hvis) as Hne.
  assert (tex_size * tex_size = 1048576) as Hcap by reflexivity.
  assert (1 <= n <= tex_size * tex_size) as Hrange by lia.
  clear Hcap. revert Hp Hn Hnd.
  generalize (take (Z.to_nat (tex_size * tex_size)) enumeration).
  intros colors Hp Hn Hnd.
  destruct (atlas_body_spec colors n (shape_w a, shape_h a) Hnd Hn Hrange)
    as (cols & rows & cw & ch & tex & uvm & Hgrid & ? & ? & ? & ? & ?
        & Hrun & ? & ? & ? & ? & ?).
  exists colors, n, cols, rows, cw, ch, tex, uvm.
  split_and!; try done; try lia.
  unfold generate_color_atlas. rewrite Hp. exact Hrun.
Qed.
End packed.

(** * Claims on the atlas builder *)

(** The grid lines of a grid with one cell per texel are the texels. *)
Lemma grid_line_full (k : Z) :
  0 <= k <= tex_size -> grid_line tex_size k = k.
Proof.
  intros Hk.
  assert (forall d : nat, Z.of_nat d <= tex_size ->
            Z.of_nat d <= grid_line tex_size (Z.of_nat d)) as Hlo.
  { induction d as [|d IH]; intros Hd.
    - apply (grid_line_range tex_size 0); unfold tex_size; lia.
    - destruct (grid_line_spec tex_size (Z.of_nat d))
        as (_ & _ & _ & _ & ? & _); [unfold tex_size; lia|lia|].
      replace (Z.of_nat (S d)) with (Z.of_nat d + 1) by lia.
      specialize (IH ltac:(lia)). lia. }
  assert (forall d : nat, Z.of_nat d <= tex_size ->
            grid_line tex_size (tex_size - Z.of_nat d)
            <= tex_size - Z.of_nat d) as Hhi.
  { induction d as [|d IH]; intros Hd.
    - replace (tex_size - Z.of_nat 0) with tex_size by lia.
      apply (grid_line_range tex_size tex_size); unfold tex_size; lia.
    - destruct (grid_line_spec tex_size (tex_size - Z.of_nat (S d)))
        as (_ & _ & _ & _ & ? & _); [unfold tex_size; lia|lia|].
      replace (tex_size - Z.of_nat (S d) + 1)
        with (tex_size - Z.of_nat d) in * by lia.
      specialize (IH ltac:(lia)). lia. }
  specialize (Hlo (Z.to_nat k)). specialize (Hhi (Z.to_nat (tex_size - k))).
  rewrite Z2Nat.id in Hlo, Hhi by lia.
  replace (tex_size - (tex_size - k)) with k in Hhi by lia. lia.
Qed.

Section atlas_claims.
Context (set_to_list : list color -> list color).
Hypothesis set_to_list_spec : enumerates set_to_list.
Context (a : ndarray).

(** C6: for an image with a visible pixel every entry [(u, v)] of the
    returned UV map has [0 <= u < 1] and [0 <= v < 1], and the entries
    of two different colour keys are different UV centres. *)
Theorem uv_map_unit_square_and_distinct :
  has_visible_pixel a ->
  exists tex uvm,
    generate_color_atlas set_to_list a = Ok (tex, uvm, (shape_w a, shape_h a))
    /\ (forall c u v, uvm !! c = Some (u, v) -> in_unit u /\ in_unit v)
    /\ (forall c1 c2 uv1 uv2,
          c1 <> c2 -> uvm !! c1 = Some uv1 -> uvm !! c2 = Some uv2 ->
          uv_differ uv1 uv2).
Proof.
  intros Hvis.
  destruct (generate_color_atlas_spec set_to_list set_to_list_spec a Hvis)
    as (colors & n & cols & rows & cw & ch & tex & uvm & _ & _ & Hnd & Hn
        & Hrange & _ & Hcols & Hrows & Hcap & _ & _ & Hrun & Hin & Hout & _).
  assert (forall c uv, uvm !! c = Some uv ->
            exists j : nat, colors !! j = Some c
                            /\ 0 <= Z.of_nat j < cols * rows
                            /\ uv = uv_of cols rows (Z.of_nat j)) as Hkey.
  { intros c uv Hc. destruct (decide (c ∈ colors)) as [Hel|Hnel].
    - apply list_elem_of_lookup in Hel as [j Hj].
      pose proof (lookup_lt_Some _ _ _ Hj).
      rewrite (Hin j c Hj) in Hc. exists j. split_and!; [done|lia|lia|congruence].
    - rewrite (Hout c Hnel) in Hc. done. }
  exists tex, uvm. split_and!; [done| |].
  - intros c u v (j & _ & Hj & Huv)%Hkey.
    destruct (uv_of_in_unit cols rows Hcols Hrows _ Hj) as [Hu Hv].
    rewrite <-Huv in Hu, Hv. done.
  - intros c1 c2 uv1 uv2 Hne (j1 & Hj1 & ? & ->)%Hkey (j2 & Hj2 & ? & ->)%Hkey.
    apply uv_of_differ; try done. intros Heq.
    apply Nat2Z.inj in Heq. congruence.
Qed.

(** C7: for an image with a visible pixel the grid computed from the
    packed colour count [n], [cols = ceil(sqrt(n))] and
    [rows = ceil(n / cols)], has room for all packed colours:
    [cols * rows >= n]. *)
Theorem grid_holds_packed_colors :
  has_visible_pixel a ->
  exists colors n s q cols rows cell_w cell_h,
    packed_colors set_to_list a = (colors, n)
    /\ n = Z.of_nat (length colors)
    /\ py_sqrt n = Ok s /\ py_ceil s = Ok cols
    /\ int_truediv n cols = Ok q /\ py_ceil q = Ok rows
    /\ atlas_grid n = Ok (cols, rows, cell_w, cell_h)
    /\ n <= cols * rows
    /\ (cols - 1) * (cols - 1) < n <= cols * cols
    /\ (rows - 1) * cols < n.
Proof.
  intros Hvis.
  destruct (packed_colors_spec set_to_list set_to_list_spec a)
    as (n & Hp & Hn & Hmin & _).
  pose proof (unique_colors_nonempty set_to_list set_to_list_spec a Hvis).
  assert (tex_size * tex_size = 1048576) as Hcap by reflexivity.
  assert (1 <= n <= tex_size * tex_size) as Hrange by lia.
  destruct (atlas_grid_spec n Hrange)
    as (cols & rows & s & q & cw & ch & ? & ? & ? & ? & _ & _ & ? & _ & _
        & ? & ? & ?).
  exists (take (Z.to_nat (tex_size * tex_size))
            (unique_colors set_to_list a)), n, s, q, cols, rows, cw, ch.
  split_and!; try done; lia.
Qed.

(** C8: when the set has more than [tex_size * tex_size] colours the
    atlas builder returns normally, the UV map has exactly
    [tex_size * tex_size] keys, namely the first that many colours of
    the enumeration, every later colour is absent from it, and texel
    [(j // tex_size, j % tex_size)] of the texture is colour [j] of the
    enumeration, unchanged. *)
Theorem truncation_keeps_first_colors :
  tex_size * tex_size < Z.of_nat (length (unique_colors set_to_list a)) ->
  exists tex uvm,
    generate_color_atlas set_to_list a = Ok (tex, uvm, (shape_w a, shape_h a))
    /\ Z.of_nat (base.size uvm) = tex_size * tex_size
    /\ (forall c,
          is_Some (uvm !! c)
          <-> exists j : nat, unique_colors set_to_list a !! j = Some c
                              /\ Z.of_nat j < tex_size * tex_size)
    /\ (forall (j : nat) c,
          unique_colors set_to_list a !! j = Some c ->
          tex_size * tex_size <= Z.of_nat j -> uvm !! c = None)
    /\ (forall (j : nat) c,
          unique_colors set_to_list a !! j = Some c ->
          Z.of_nat j < tex_size * tex_size ->
          pixel tex (Z.of_nat j / tex_size) (Z.of_nat j mod tex_size) = c).
Proof.
  intros Hmany. set (enum := unique_colors set_to_list a) in *.
  assert (tex_size * tex_size = 1048576) as Hcap by reflexivity.
  assert (has_visible_pixel a) as Hvis.
  { destruct enum as [|c l] eqn:Hu; [simpl in Hmany; lia|].
    assert (c ∈ visible_colors a) as Hc.
    { apply set_to_list_spec. fold (unique_colors set_to_list a).
      fold enum. rewrite Hu. by left. }
    apply elem_of_visible_colors in Hc as (y & x & ? & ? & <- & ?).
    by exists y, x. }
  destruct (generate_color_atlas_spec set_to_list set_to_list_spec a Hvis)
    as (colors & n & cols & rows & cw & ch & tex & uvm & _ & Hcolors & Hnd
        & Hn & Hrange & _ & Hcols & Hrows & Hcap' & Hexc & Hexr & Hrun & Hin
        & Hout & Hsh & Hsw & Htex).
  fold enum in Hcolors.
  set (cap := Z.to_nat (tex_size * tex_size)) in *.
  assert (Z.of_nat cap = tex_size * tex_size) as Hmax
    by (unfold cap; lia).
  clearbody cap.
  assert (n = tex_size * tex_size) as Hn'.
  { rewrite Hn, Hcolors, length_take. lia. }
  assert (cols = tex_size /\ rows = tex_size) as [-> ->]
    by (unfold tex_size in *; nia).
  assert (forall (j : nat) c,
            colors !! j = Some c
            <-> enum !! j = Some c
                /\ Z.of_nat j < tex_size * tex_size) as Hlook.
  { intros j c. rewrite Hcolors, lookup_take_Some. split; intros [??].
    - split; [done|lia].
    - split; [done|lia]. }
  assert (NoDup enum) as Hndu by apply set_to_list_spec.
  exists tex, uvm. split_and!; [done| | | |].
  - assert (dom uvm = (list_to_set colors : gset color)) as Hdom.
    { apply set_eq. intros c.
      rewrite elem_of_dom, elem_of_list_to_set. split.
      - intros [uv Huv]. destruct (decide (c ∈ colors)) as [|Hnel]; [done|].
        by rewrite (Hout c Hnel) in Huv.
      - intros [j Hj]%list_elem_of_lookup. rewrite (Hin j c Hj). by eexists. }
    rewrite <-Hn', Hn. f_equal.
    pose proof (size_dom (D:=gset color) uvm) as Hsz.
    rewrite Hdom in Hsz. rewrite <-Hsz. apply size_list_to_set. exact Hnd.
  - intros c. split.
    + intros [uv Huv]. destruct (decide (c ∈ colors)) as [Hel|Hnel].
      * apply list_elem_of_lookup in Hel as [j Hj]. exists j. by apply Hlook.
      * by rewrite (Hout c Hnel) in Huv.
    + intros (j & Hj). apply Hlook in Hj. rewrite (Hin j c Hj). by eexists.
  - intros j c Hj Hge. apply Hout.
    intros [j' [Hj' Hlt]%Hlook]%list_elem_of_lookup.
    assert (j = j') by (by eapply NoDup_lookup). lia.
  - intros j c Hj Hlt. apply (Htex j c); [by apply Hlook|].
    unfold cell_of, in_rect.
    pose proof (Z.mod_pos_bound (Z.of_nat j) tex_size ltac:(done)).
    assert (0 <= Z.of_nat j / tex_size < tex_size).
    { split; [apply Z.div_pos; lia|].
      apply Z.div_lt_upper_bound; [done|lia]. }
    rewrite !grid_line_full by lia. lia.
Qed.
End atlas_claims.

(** * C2: an image without a visible pixel *)

Lemma atlas_grid_0 : atlas_grid 0 = Raise ZeroDivisionError.
Proof. reflexivity. Qed.

(** The atlas builder raises [ZeroDivisionError] on every image that has
    no pixel with alpha above 0: [cols] is [ceil(sqrt(0)) = 0] and
    [rows = math.ceil(num_colors / cols)] divides by it. *)
Lemma transparent_image_raises (set_to_list : list color -> list color)
    (a : ndarray) :
  enumerates set_to_list ->
  (forall y x, 0 <= y < shape_h a -> 0 <= x < shape_w a ->
     alpha (pixel a y x) = 0%N) ->
  generate_color_atlas set_to_list a = Raise ZeroDivisionError
  /\ main set_to_list a = Raise ZeroDivisionError.
Proof.
  intros Hspec Hzero.
  assert (set_to_list (visible_colors a) = []) as Hnil.
  { apply elem_of_nil_inv. intros c Hc.
    apply (proj2 (Hspec (visible_colors a))) in Hc.
    apply elem_of_visible_colors in Hc as (y & x & Hy & Hx & <- & Hv).
    unfold visible in Hv. rewrite (Hzero y x Hy Hx) in Hv. done. }
  assert (generate_color_atlas set_to_list a = Raise ZeroDivisionError) as Hg.
  { unfold generate_color_atlas, packed_colors. rewrite Hnil.
    cbn [length]. change (tex_size * tex_size <? Z.of_nat 0) with false.
    cbv iota. change (Z.of_nat 0) with 0. by rewrite atlas_grid_0. }
  split; [done|]. unfold main. by rewrite Hg.
Qed.

(** * Sample inputs *)

Lemma remove_dups_enumerates : enumerates remove_dups.
Proof.
  intros adds. split; [apply NoDup_remove_dups|].
  intros c. apply elem_of_remove_dups.
Qed.

Lemma color_of_index_inj (k1 k2 : Z) :
  0 <= k1 -> 0 <= k2 -> color_of_index k1 = color_of_index k2 -> k1 = k2.
Proof.
  intros H1 H2. unfold color_of_index, RGBA. intros [= Ha Hb Hc].
  apply Z2N.inj in Ha, Hb, Hc;
    try (apply Z.mod_pos_bound; lia); try (apply Z.div_pos; lia).
  pose proof (Z.div_mod k1 256 ltac:(lia)).
  pose proof (Z.div_mod k2 256 ltac:(lia)).
  pose proof (Z.div_mod (k1 / 256) 256 ltac:(lia)).
  pose proof (Z.div_mod (k2 / 256) 256 ltac:(lia)).
  rewrite !Z.div_div in * by lia. change (256 * 256) with 65536 in *. lia.
Qed.

Lemma visible_colors_all (a : ndarray) :
  (forall y x, visible (pixel a y x) = true) ->
  visible_colors a
  = (fun yx => pixel a yx.1 yx.2) <$> tile_pixels 0 (shape_w a) 0 (shape_h a).
Proof.
  intros Hv. unfold visible_colors, tile_pixels.
  generalize (py_range 0 (shape_h a)) as ys.
  generalize (py_range 0 (shape_w a)) as xs. intros xs ys.
  induction ys as [|y ys IH]; [done|].
  rewrite !bind_cons, fmap_app, IH. f_equal.
  clear IH. induction xs as [|x xs IH]; [done|].
  rewrite !bind_cons, fmap_app, IH. f_equal.
  pose proof (Hv y x) as Hyx. unfold visible in Hyx. by rewrite Hyx.
Qed.

(** The image [many_colors_image] has [1025 * 1024] different visible
    colours. *)
Lemma many_colors_image_colors :
  Z.of_nat (length (unique_colors remove_dups many_colors_image)) = 1049600.
Proof.
  assert (NoDup (visible_colors many_colors_image)) as Hnd.
  { rewrite visible_colors_all by done.
    apply NoDup_fmap_2_strong.
    - intros [y1 x1] [y2 x2] [??]%elem_of_tile_pixels [??]%elem_of_tile_pixels.
      cbn [fst snd many_colors_image pixel shape_w shape_h] in *.
      intros Heq%color_of_index_inj; [|lia..].
      f_equal; lia.
    - apply NoDup_grid; apply NoDup_py_range. }
  assert (unique_colors remove_dups many_colors_image
          ≡ₚ visible_colors many_colors_image) as ->.
  { apply NoDup_Permutation; [apply NoDup_remove_dups|done|].
    intros c. apply elem_of_remove_dups. }
  rewrite visible_colors_all by done.
  rewrite length_fmap, length_tile_pixels; done.
Qed.

Lemma sample_image_visible : has_visible_pixel sample_image.
Proof. exists 0, 0. simpl. split_and!; (lia || reflexivity). Qed.

(** C2: on the 1x1 image whose pixel is fully transparent the atlas
    builder does not return an atlas: it raises [ZeroDivisionError], and
    so does the script, which never reaches the tiler.  The tiler alone,
    run on that image, writes no file. *)
Theorem transparent_image_atlas_raises :
  generate_color_atlas remove_dups transparent_pixel = Raise ZeroDivisionError
  /\ main remove_dups transparent_pixel = Raise ZeroDivisionError
  /\ create_tiled_meshes transparent_pixel ∅ (1, 1) 10000 = Ok ([], ∅).
Proof. split_and!; reflexivity. Qed.

(** * The claims on sample inputs *)

Lemma tile_skipped_iff_transparent_witness :
  1 <= shape_w sample_image < 2 ^ 51 /\ 1 <= shape_h sample_image < 2 ^ 51
  /\ 2 <= 4
  /\ exists cpm rpm nx ny paths files,
       tiling (shape_w sample_image) (shape_h sample_image) 4
       = Ok (cpm, rpm, nx, ny)
       /\ create_tiled_meshes sample_image ∅
            (shape_w sample_image, shape_h sample_image) 4
          = Ok (paths, files)
       /\ forall tx ty,
            (ty, tx) ∈ all_tiles nx ny ->
            let b := tile_bounds (shape_w sample_image) (shape_h sample_image)
                       cpm rpm tx ty in
            let transparent :=
              forall x y, in_rect b x y ->
                          alpha (pixel sample_image y x) = 0%N in
            (files !! tile_name tx ty = None <-> transparent)
            /\ (tile_name tx ty ∉ paths <-> transparent)
            /\ ((exists x y, in_rect b x y
                             /\ visible (pixel sample_image y x) = true) ->
                is_Some (files !! tile_name tx ty)
                /\ length (filter (fun p => p = tile_name tx ty) paths) = 1%nat).
Proof.
  simpl shape_w. simpl shape_h.
  split; [lia|]. split; [lia|]. split; [lia|].
  apply (tile_skipped_iff_transparent sample_image ∅ 4); simpl; lia.
Defined.

Lemma tiles_partition_image_witness :
  1 <= 3 < 2 ^ 51 /\ 1 <= 2 < 2 ^ 51 /\ 2 <= 4
  /\ exists cpm rpm nx ny,
       tiling 3 2 4 = Ok (cpm, rpm, nx, ny)
       /\ (forall tx ty x y,
             (ty, tx) ∈ all_tiles nx ny ->
             in_rect (tile_bounds 3 2 cpm rpm tx ty) x y ->
             0 <= x < 3 /\ 0 <= y < 2)
       /\ (forall x y,
             0 <= x < 3 -> 0 <= y < 2 ->
             exists tx ty,
               (ty, tx) ∈ all_tiles nx ny
               /\ in_rect (tile_bounds 3 2 cpm rpm tx ty) x y)
       /\ (forall tx ty tx' ty' x y,
             (ty, tx) ∈ all_tiles nx ny -> (ty', tx') ∈ all_tiles nx ny ->
             in_rect (tile_bounds 3 2 cpm rpm tx ty) x y ->
             in_rect (tile_bounds 3 2 cpm rpm tx' ty') x y ->
             tx = tx' /\ ty = ty').
Proof.
  split; [lia|]. split; [lia|]. split; [lia|].
  apply (tiles_partition_image 3 2 4); lia.
Defined.

Lemma tile_within_triangle_budget_witness :
  1 <= 3 < 2 ^ 51 /\ 1 <= 2 < 2 ^ 51 /\ 2 <= 4
  /\ exists cpm rpm nx ny,
       tiling 3 2 4 = Ok (cpm, rpm, nx, ny)
       /\ cpm = Z.min 3 (Z.sqrt (4 / 2))
       /\ rpm = Z.min 2 ((4 / 2) / cpm)
       /\ forall tx ty x_start x_end y_start y_end,
            (ty, tx) ∈ all_tiles nx ny ->
            tile_bounds 3 2 cpm rpm tx ty = (x_start, x_end, y_start, y_end) ->
            0 < x_end - x_start /\ 0 < y_end - y_start
            /\ (x_end - x_start) * (y_end - y_start) * 2 <= 4.
Proof.
  split; [lia|]. split; [lia|]. split; [lia|].
  apply (tile_within_triangle_budget 3 2 4); lia.
Defined.

Lemma mesh_file_line_counts_witness :
  1 <= shape_w sample_image < 2 ^ 51 /\ 1 <= shape_h sample_image < 2 ^ 51
  /\ 2 <= 4
  /\ exists cpm rpm nx ny paths files,
       tiling (shape_w sample_image) (shape_h sample_image) 4
       = Ok (cpm, rpm, nx, ny)
       /\ create_tiled_meshes sample_image ∅
            (shape_w sample_image, shape_h sample_image) 4
          = Ok (paths, files)
       /\ forall tx ty x_start x_end y_start y_end,
            (ty, tx) ∈ all_tiles nx ny ->
            tile_bounds (shape_w sample_image) (shape_h sample_image)
              cpm rpm tx ty
            = (x_start, x_end, y_start, y_end) ->
            is_tile_fully_transparent sample_image x_start x_end y_start y_end
            = false ->
            exists lines,
              files !! tile_name tx ty = Some lines
              /\ count_lines is_vertex lines
                 = 4 * ((x_end - x_start) * (y_end - y_start))
              /\ count_lines is_texcoord lines
                 = 4 * ((x_end - x_start) * (y_end - y_start))
              /\ count_lines is_face lines
                 = count_visible sample_image
                     (tile_pixels x_start x_end y_start y_end)
              /\ count_lines is_face lines <= count_lines is_vertex lines / 4.
Proof.
  simpl shape_w. simpl shape_h.
  split; [lia|]. split; [lia|]. split; [lia|].
  apply (mesh_file_line_counts sample_image ∅ 4); simpl; lia.
Defined.

Lemma mesh_file_uv_lines_witness :
  1 <= shape_w sample_image < 2 ^ 51 /\ 1 <= shape_h sample_image < 2 ^ 51
  /\ 2 <= 4
  /\ exists cpm rpm nx ny paths files,
       tiling (shape_w sample_image) (shape_h sample_image) 4
       = Ok (cpm, rpm, nx, ny)
       /\ create_tiled_meshes sample_image ∅
            (shape_w sample_image, shape_h sample_image) 4
          = Ok (paths, files)
       /\ forall tx ty x_start x_end y_start y_end,
            (ty, tx) ∈ all_tiles nx ny ->
            tile_bounds (shape_w sample_image) (shape_h sample_image)
              cpm rpm tx ty
            = (x_start, x_end, y_start, y_end) ->
            is_tile_fully_transparent sample_image x_start x_end y_start y_end
            = false ->
            exists lines,
              files !! tile_name tx ty = Some lines
              /\ List.filter is_texcoord lines
                 = (yx ← tile_pixels x_start x_end y_start y_end;
                    replicate 4
                      match (∅ : gmap color (float * float))
                            !! pixel sample_image yx.1 yx.2 with
                      | Some (u, v) =>
                          TexCoord (PyFloat u) (PyFloat (PrimFloat.sub 1 v))
                      | None => TexCoord (PyInt 0) (PyInt (1 - 0))
                      end).
Proof.
  simpl shape_w. simpl shape_h.
  split; [lia|]. split; [lia|]. split; [lia|].
  apply (mesh_file_uv_lines sample_image ∅ 4); simpl; lia.
Defined.

Lemma mesh_file_face_indices_witness :
  1 <= shape_w sample_image < 2 ^ 51 /\ 1 <= shape_h sample_image < 2 ^ 51
  /\ 2 <= 4
  /\ exists cpm rpm nx ny paths files,
       tiling (shape_w sample_image) (shape_h sample_image) 4
       = Ok (cpm, rpm, nx, ny)
       /\ create_tiled_meshes sample_image ∅
            (shape_w sample_image, shape_h sample_image) 4
          = Ok (paths, files)
       /\ forall tx ty x_start x_end y_start y_end,
            (ty, tx) ∈ all_tiles nx ny ->
            tile_bounds (shape_w sample_image) (shape_h sample_image)
              cpm rpm tx ty
            = (x_start, x_end, y_start, y_end) ->
            is_tile_fully_transparent sample_image x_start x_end y_start y_end
            = false ->
            exists lines,
              files !! tile_name tx ty = Some lines
              /\ forall pre c1 c2 c3 c4 post,
                   lines = pre ++ Face c1 c2 c3 c4 :: post ->
                   exists (k : nat) (yx : Z * Z) (pre' : list obj_line),
                     tile_pixels x_start x_end y_start y_end !! k = Some yx
                     /\ visible (pixel sample_image yx.1 yx.2) = true
                     /\ pre = pre' ++ quad_lines (shape_h sample_image) yx
                              ++ replicate 4
                                   (uv_line ∅ (pixel sample_image yx.1 yx.2))
                     /\ c1 = (4 * Z.of_nat k + 1, 4 * Z.of_nat k + 1)
                     /\ c2 = (4 * Z.of_nat k + 2, 4 * Z.of_nat k + 2)
                     /\ c3 = (4 * Z.of_nat k + 3, 4 * Z.of_nat k + 3)
                     /\ c4 = (4 * Z.of_nat k + 4, 4 * Z.of_nat k + 4)
                     /\ count_lines is_vertex pre = 4 * Z.of_nat k + 4
                     /\ count_lines is_texcoord pre = 4 * Z.of_nat k + 4
                     /\ 4 * Z.of_nat k + 4
                        <= 4 * ((x_end - x_start) * (y_end - y_start))
                     /\ count_lines is_vertex lines
                        = 4 * ((x_end - x_start) * (y_end - y_start))
                     /\ count_lines is_texcoord lines
                        = 4 * ((x_end - x_start) * (y_end - y_start)).
Proof.
  split; [simpl; lia|]. split; [simpl; lia|]. split; [lia|].
  apply (mesh_file_face_indices sample_image ∅ 4); simpl; lia.
Defined.

Lemma uv_map_unit_square_and_distinct_witness :
  enumerates remove_dups /\ has_visible_pixel sample_image
  /\ exists tex uvm,
       generate_color_atlas remove_dups sample_image
       = Ok (tex, uvm, (shape_w sample_image, shape_h sample_image))
       /\ (forall c u v, uvm !! c = Some (u, v) -> in_unit u /\ in_unit v)
       /\ (forall c1 c2 uv1 uv2,
             c1 <> c2 -> uvm !! c1 = Some uv1 -> uvm !! c2 = Some uv2 ->
             uv_differ uv1 uv2).
Proof.
  split; [exact remove_dups_enumerates|].
  split; [exact sample_image_visible|].
  exact (uv_map_unit_square_and_distinct remove_dups remove_dups_enumerates
           sample_image sample_image_visible).
Defined.

Lemma grid_holds_packed_colors_witness :
  enumerates remove_dups /\ has_visible_pixel sample_image
  /\ exists colors n s q cols rows cell_w cell_h,
       packed_colors remove_dups sample_image = (colors, n)
       /\ n = Z.of_nat (length colors)
       /\ py_sqrt n = Ok s /\ py_ceil s = Ok cols
       /\ int_truediv n cols = Ok q /\ py_ceil q = Ok rows
       /\ atlas_grid n = Ok (cols, rows, cell_w, cell_h)
       /\ n <= cols * rows
       /\ (cols - 1) * (cols - 1) < n <= cols * cols
       /\ (rows - 1) * cols < n.
Proof.
  split; [exact remove_dups_enumerates|].
  split; [exact sample_image_visible|].
  exact (grid_holds_packed_colors remove_dups remove_dups_enumerates
           sample_image sample_image_visible).
Defined.

Lemma truncation_keeps_first_colors_witness :
  enumerates remove_dups
  /\ tex_size * tex_size
     < Z.of_nat (length (unique_colors remove_dups many_colors_image))
  /\ exists tex uvm,
       generate_color_atlas remove_dups many_colors_image
       = Ok (tex, uvm, (shape_w many_colors_image, shape_h many_colors_image))
       /\ Z.of_nat (base.size uvm) = tex_size * tex_size
       /\ (forall c,
             is_Some (uvm !! c)
             <-> exists j : nat,
                   unique_colors remove_dups many_colors_image !! j = Some c
                   /\ Z.of_nat j < tex_size * tex_size)
       /\ (forall (j : nat) c,
             unique_colors remove_dups many_colors_image !! j = Some c ->
             tex_size * tex_size <= Z.of_nat j -> uvm !! c = None)
       /\ (forall (j : nat) c,
             unique_colors remove_dups many_colors_image !! j = Some c ->
             Z.of_nat j < tex_size * tex_size ->
             pixel tex (Z.of_nat j / tex_size) (Z.of_nat j mod tex_size) = c).
Proof.
  assert (tex_size * tex_size
          < Z.of_nat (length (unique_colors remove_dups many_colors_image)))
    as Hmany by (rewrite many_colors_image_colors; reflexivity).
  split; [exact remove_dups_enumerates|].
  split; [exact Hmany|].
  exact (truncation_keeps_first_colors remove_dups remove_dups_enumerates
           many_colors_image Hmany).
Defined.

(** * Further properties

    Properties of the two functions and of the script beyond the claims
    above. *)

(** ** The mesh tiler, further *)

(** The run of the tiler, written out: the names and the files of the
    tiles that are not fully transparent, in the order of the loops. *)
Lemma create_tiled_meshes_run a uv max_tris :
  1 <= shape_w a < 2 ^ 51 -> 1 <= shape_h a < 2 ^ 51 -> 2 <= max_tris ->
  exists cpm rpm nx ny,
    tiling (shape_w a) (shape_h a) max_tris = Ok (cpm, rpm, nx, ny)
    /\ 1 <= cpm /\ 1 <= rpm
    /\ (nx - 1) * cpm < shape_w a <= nx * cpm
    /\ (ny - 1) * rpm < shape_h a <= ny * rpm
    /\ create_tiled_meshes a uv (shape_w a, shape_h a) max_tris
       = Ok (tile_path <$>
               filter (fun t => written_tile a (shape_w a) (shape_h a)
                                  cpm rpm t = true) (all_tiles nx ny),
             foldl (put_tile a uv (shape_w a) (shape_h a) cpm rpm) ∅
               (filter (fun t => written_tile a (shape_w a) (shape_h a)
                                   cpm rpm t = true) (all_tiles nx ny))).
Proof.
  intros Hw Hh Ht.
  destruct (tiling_spec _ _ _ Hw Hh Ht)
    as (cpm & rpm & nx & ny & Htil & _ & _ & Hc & Hr & _ & Hnx & Hny).
  exists cpm, rpm, nx, ny. split_and!; try done; try lia.
  unfold create_tiled_meshes. rewrite Htil. cbn [mbind result_bind].
  rewrite (for_each_nested _ _
             (process_tile a uv (shape_w a) (shape_h a) cpm rpm)).
  fold (all_tiles nx ny).
  rewrite (run_inside a uv (shape_w a) (shape_h a) cpm rpm nx ny) by
    (try done; intros ?? ?%elem_of_all_tiles; done).
  done.
Qed.

(** X1: a negative triangle budget makes the tiler raise [ValueError]
    (from [math.isqrt]) before any tile is visited. *)
Theorem tiler_negative_budget (a : ndarray) (uv : gmap color (float * float))
    (dims : Z * Z) (max_tris : Z) :
  max_tris < 0 -> create_tiled_meshes a uv dims max_tris = Raise ValueError.
Proof.
  intros Hneg. destruct dims as [w h]. unfold create_tiled_meshes, tiling.
  assert (max_tris / 2 < 0) as Hm by (apply Z.div_lt_upper_bound; lia).
  unfold py_isqrt. destruct (Z.ltb_spec (max_tris / 2) 0); [done|lia].
Qed.

Lemma tiler_negative_budget_witness :
  -1 < 0 /\ create_tiled_meshes sample_image ∅ (3, 2) (-1) = Raise ValueError.
Proof.
  split; [lia|].
  apply (tiler_negative_budget sample_image ∅ (3, 2) (-1)). lia.
Defined.

(** X2: a budget of 0 or 1 triangles leaves no room for a pixel:
    [cols_per_mesh] is 0 and [max_pixels_per_mesh // cols_per_mesh]
    raises [ZeroDivisionError] before any tile is visited. *)
Theorem tiler_budget_below_one_quad (a : ndarray)
    (uv : gmap color (float * float)) (w h max_tris : Z) :
  0 <= w -> 0 <= max_tris < 2 ->
  create_tiled_meshes a uv (w, h) max_tris = Raise ZeroDivisionError.
Proof.
  intros Hw Ht. unfold create_tiled_meshes, tiling.
  assert (max_tris / 2 = 0) as -> by (apply Z.div_small; lia).
  change (py_isqrt 0) with (Ok 0 : result Z). cbn [mbind result_bind].
  rewrite Z.min_r by lia. done.
Qed.

Lemma tiler_budget_below_one_quad_witness :
  0 <= 3 /\ 0 <= 1 < 2
  /\ create_tiled_meshes sample_image ∅ (3, 2) 1 = Raise ZeroDivisionError.
Proof.
  split; [lia|]. split; [lia|].
  apply (tiler_budget_below_one_quad sample_image ∅ 3 2 1); lia.
Defined.

(** X3: every tile starts at a multiple of the tile shape; all tiles
    have [cols_per_mesh] columns and [rows_per_mesh] rows, except that
    the tiles of the last column and of the last row end at the image
    edge. *)
Theorem tiles_clipped_at_image_edge (w h max_tris : Z) :
  1 <= w < 2 ^ 51 -> 1 <= h < 2 ^ 51 -> 2 <= max_tris ->
  exists cpm rpm nx ny,
    tiling w h max_tris = Ok (cpm, rpm, nx, ny)
    /\ 1 <= nx /\ 1 <= ny
    /\ forall tx ty x_start x_end y_start y_end,
         (ty, tx) ∈ all_tiles nx ny ->
         tile_bounds w h cpm rpm tx ty = (x_start, x_end, y_start, y_end) ->
         x_start = tx * cpm /\ y_start = ty * rpm
         /\ (tx < nx - 1 -> x_end - x_start = cpm)
         /\ (tx = nx - 1 -> x_end = w /\ 1 <= x_end - x_start <= cpm)
         /\ (ty < ny - 1 -> y_end - y_start = rpm)
         /\ (ty = ny - 1 -> y_end = h /\ 1 <= y_end - y_start <= rpm).
Proof.
  intros Hw Hh Ht.
  destruct (tiling_spec _ _ _ Hw Hh Ht)
    as (cpm & rpm & nx & ny & Htil & _ & _ & Hc & Hr & _ & Hnx & Hny).
  exists cpm, rpm, nx, ny. split; [done|].
  split; [nia|]. split; [nia|].
  intros tx ty xs xe ys ye [??]%elem_of_all_tiles. unfold tile_bounds.
  intros [= <- <- <- <-]. split_and!; try done; intros; nia.
Qed.

Lemma tiles_clipped_at_image_edge_witness :
  1 <= 3 < 2 ^ 51 /\ 1 <= 2 < 2 ^ 51 /\ 2 <= 4
  /\ exists cpm rpm nx ny,
       tiling 3 2 4 = Ok (cpm, rpm, nx, ny)
       /\ 1 <= nx /\ 1 <= ny
       /\ forall tx ty x_start x_end y_start y_end,
            (ty, tx) ∈ all_tiles nx ny ->
            tile_bounds 3 2 cpm rpm tx ty = (x_start, x_end, y_start, y_end) ->
            x_start = tx * cpm /\ y_start = ty * rpm
            /\ (tx < nx - 1 -> x_end - x_start = cpm)
            /\ (tx = nx - 1 -> x_end = 3 /\ 1 <= x_end - x_start <= cpm)
            /\ (ty < ny - 1 -> y_end - y_start = rpm)
            /\ (ty = ny - 1 -> y_end = 2 /\ 1 <= y_end - y_start <= rpm).
Proof.
  split; [lia|]. split; [lia|]. split; [lia|].
  apply (tiles_clipped_at_image_edge 3 2 4); lia.
Defined.

(** X4: the returned list names the tiles that are not fully
    transparent in the order of the loops (row by row of tiles), without
    repetition, and the files written are exactly the files it names. *)
Theorem mesh_paths_name_the_files (a : ndarray)
    (uv : gmap color (float * float)) (max_tris : Z) :
  1 <= shape_w a < 2 ^ 51 -> 1 <= shape_h a < 2 ^ 51 -> 2 <= max_tris ->
  exists cpm rpm nx ny paths files,
    tiling (shape_w a) (shape_h a) max_tris = Ok (cpm, rpm, nx, ny)
    /\ create_tiled_meshes a uv (shape_w a, shape_h a) max_tris
       = Ok (paths, files)
    /\ paths
       = (fun t => tile_name t.2 t.1) <$>
           filter (fun t =>
                     let '(x_start, x_end, y_start, y_end) :=
                       tile_bounds (shape_w a) (shape_h a) cpm rpm t.2 t.1 in
                     is_tile_fully_transparent a x_start x_end y_start y_end
                     = false)
             (all_tiles nx ny)
    /\ NoDup paths
    /\ (forall name, is_Some (files !! name) <-> name ∈ paths).
Proof.
  intros Hw Hh Ht.
  destruct (create_tiled_meshes_run a uv max_tris Hw Hh Ht)
    as (cpm & rpm & nx & ny & Htil & _ & _ & _ & _ & Hrun).
  set (W := fun t => written_tile a (shape_w a) (shape_h a) cpm rpm t = true)
    in *.
  exists cpm, rpm, nx, ny. do 2 eexists. split; [done|]. split; [exact Hrun|].
  assert (NoDup (filter W (all_tiles nx ny))) as Hnd
    by apply NoDup_filter, NoDup_all_tiles.
  split_and!.
  - f_equal. apply list_filter_iff. intros t. unfold W, written_tile.
    destruct (tile_bounds _ _ _ _ _ _) as [[[xs xe] ys] ye].
    by rewrite negb_true_iff.
  - pose proof tile_path_inj. by apply (NoDup_fmap_2 tile_path).
  - intros name. split.
    + intros Hsome.
      destruct (decide (name ∈ tile_path <$> filter W (all_tiles nx ny)))
        as [?|Hno]; [done|].
      rewrite foldl_put_other in Hsome; [by destruct Hsome|].
      intros t Ht' Heq. apply Hno, list_elem_of_fmap. by exists t.
    + intros (t & -> & Hin)%list_elem_of_fmap.
      by rewrite (foldl_put_elem _ _ _ _ _ _ _ _ t).
Qed.

Lemma mesh_paths_name_the_files_witness :
  1 <= shape_w sample_image < 2 ^ 51 /\ 1 <= shape_h sample_image < 2 ^ 51
  /\ 2 <= 4
  /\ exists cpm rpm nx ny paths files,
       tiling (shape_w sample_image) (shape_h sample_image) 4
       = Ok (cpm, rpm, nx, ny)
       /\ create_tiled_meshes sample_image ∅
            (shape_w sample_image, shape_h sample_image) 4
          = Ok (paths, files)
       /\ paths
          = (fun t => tile_name t.2 t.1) <$>
              filter (fun t =>
                        let '(x_start, x_end, y_start, y_end) :=
                          tile_bounds (shape_w sample_image)
                            (shape_h sample_image) cpm rpm t.2 t.1 in
                        is_tile_fully_transparent sample_image
                          x_start x_end y_start y_end = false)
                (all_tiles nx ny)
       /\ NoDup paths
       /\ (forall name, is_Some (files !! name) <-> name ∈ paths).
Proof.
  split; [simpl; lia|]. split; [simpl; lia|]. split; [lia|].
  apply (mesh_paths_name_the_files sample_image ∅ 4); simpl; lia.
Defined.

Lemma vertex_filter_of_blocks (a : ndarray) (uv : gmap color (float * float))
    (H : Z) (l : list (Z * Z)) (vi : Z) :
  List.filter is_vertex (tile_blocks a uv H l vi) = yx ← l; quad_lines H yx.
Proof.
  revert vi. induction l as [|[y x] l IH]; intros vi; [done|].
  cbn [tile_blocks]. rewrite List.filter_app, IH, bind_cons. f_equal.
  unfold pixel_block, uv_line. simpl.
  destruct (uv !! pixel a y x) as [[u v]|], (visible _); done.
Qed.

(** X5: the file of a tile that is not skipped starts with the comment
    line of the tile, and its [v] lines are, in pixel order, the four
    corners of the unit square of each pixel with the vertical axis
    flipped: [(x, h - y)], [(x + 1, h - y)], [(x + 1, h - y - 1)],
    [(x, h - y - 1)], all at depth 0.  So every vertex lies on the
    rectangle of the tile. *)
Theorem mesh_file_vertex_lines (a : ndarray)
    (uv : gmap color (float * float)) (max_tris : Z) :
  1 <= shape_w a < 2 ^ 51 -> 1 <= shape_h a < 2 ^ 51 -> 2 <= max_tris ->
  exists cpm rpm nx ny paths files,
    tiling (shape_w a) (shape_h a) max_tris = Ok (cpm, rpm, nx, ny)
    /\ create_tiled_meshes a uv (shape_w a, shape_h a) max_tris
       = Ok (paths, files)
    /\ forall tx ty x_start x_end y_start y_end,
         (ty, tx) ∈ all_tiles nx ny ->
         tile_bounds (shape_w a) (shape_h a) cpm rpm tx ty
         = (x_start, x_end, y_start, y_end) ->
         is_tile_fully_transparent a x_start x_end y_start y_end = false ->
         exists lines,
           files !! tile_name tx ty = Some lines
           /\ head lines = Some (Comment tx ty)
           /\ List.filter is_vertex lines
              = ('(y, x) ← tile_pixels x_start x_end y_start y_end;
                 [Vertex x (shape_h a - y) 0;
                  Vertex (x + 1) (shape_h a - y) 0;
                  Vertex (x + 1) (shape_h a - y - 1) 0;
                  Vertex x (shape_h a - y - 1) 0])
           /\ forall x y z,
                Vertex x y z ∈ lines ->
                x_start <= x <= x_end
                /\ shape_h a - y_end <= y <= shape_h a - y_start
                /\ z = 0.
Proof.
  intros Hw Hh Ht.
  destruct (create_tiled_meshes_inside a uv max_tris Hw Hh Ht)
    as (cpm & rpm & nx & ny & paths & files & Htil & Hrun & Hin & _ & Hyes & _).
  exists cpm, rpm, nx, ny, paths, files. split_and!; [done..|].
  intros tx ty xs xe ys ye Ht' Hb Hnt.
  destruct (Hyes tx ty Ht') as [_ Hf].
  { unfold written_tile. cbn [fst snd]. by rewrite Hb, Hnt. }
  eexists. split; [done|].
  unfold tile_file. cbn [fst snd]. rewrite Hb. cbn [rect_pixels].
  assert (List.filter is_vertex
            (Comment tx ty
             :: tile_blocks a uv (shape_h a) (tile_pixels xs xe ys ye) 1)
          = ('(y, x) ← tile_pixels xs xe ys ye;
             [Vertex x (shape_h a - y) 0;
              Vertex (x + 1) (shape_h a - y) 0;
              Vertex (x + 1) (shape_h a - y - 1) 0;
              Vertex x (shape_h a - y - 1) 0])) as Hv.
  { cbn [List.filter is_vertex]. rewrite vertex_filter_of_blocks.
    induction (tile_pixels xs xe ys ye) as [|[y x] l IH]; [done|].
    by rewrite !bind_cons, IH. }
  split_and!; [done|done|].
  intros x y z Hel.
  assert (Vertex x y z
          ∈ List.filter is_vertex
              (Comment tx ty
               :: tile_blocks a uv (shape_h a) (tile_pixels xs xe ys ye) 1))
    as Hel'.
  { apply list_elem_of_In, List.filter_In. by rewrite <-list_elem_of_In. }
  rewrite Hv in Hel'.
  apply list_elem_of_bind in Hel' as ([y0 x0] & Hq & [??]%elem_of_tile_pixels).
  rewrite !elem_of_cons, elem_of_nil in Hq.
  destruct Hq as [Hq|[Hq|[Hq|[Hq|[]]]]]; injection Hq as -> -> ->; lia.
Qed.

Lemma mesh_file_vertex_lines_witness :
  1 <= shape_w sample_image < 2 ^ 51 /\ 1 <= shape_h sample_image < 2 ^ 51
  /\ 2 <= 4
  /\ exists cpm rpm nx ny paths files,
       tiling (shape_w sample_image) (shape_h sample_image) 4
       = Ok (cpm, rpm, nx, ny)
       /\ create_tiled_meshes sample_image ∅
            (shape_w sample_image, shape_h sample_image) 4
          = Ok (paths, files)
       /\ forall tx ty x_start x_end y_start y_end,
            (ty, tx) ∈ all_tiles nx ny ->
            tile_bounds (shape_w sample_image) (shape_h sample_image)
              cpm rpm tx ty
            = (x_start, x_end, y_start, y_end) ->
            is_tile_fully_transparent sample_image x_start x_end y_start y_end
            = false ->
            exists lines,
              files !! tile_name tx ty = Some lines
              /\ head lines = Some (Comment tx ty)
              /\ List.filter is_vertex lines
                 = ('(y, x) ← tile_pixels x_start x_end y_start y_end;
                    [Vertex x (shape_h sample_image - y) 0;
                     Vertex (x + 1) (shape_h sample_image - y) 0;
                     Vertex (x + 1) (shape_h sample_image - y - 1) 0;
                     Vertex x (shape_h sample_image - y - 1) 0])
              /\ forall x y z,
                   Vertex x y z ∈ lines ->
                   x_start <= x <= x_end
                   /\ shape_h sample_image - y_end <= y
                      <= shape_h sample_image - y_start
                   /\ z = 0.
Proof.
  split; [simpl; lia|]. split; [simpl; lia|]. split; [lia|].
  apply (mesh_file_vertex_lines sample_image ∅ 4); simpl; lia.
Defined.

Lemma count_lines_comment (kind : obj_line -> bool) (tx ty : Z)
    (l : list obj_line) :
  kind (Comment tx ty) = false ->
  count_lines kind (Comment tx ty :: l) = count_lines kind l.
Proof. intros Hk. unfold count_lines. simpl. by rewrite Hk. Qed.

Lemma forallb_false_elem {A : Type} (f : A -> bool) (l : list A) :
  forallb f l = false -> exists x, x ∈ l /\ f x = false.
Proof.
  induction l as [|x l IH]; [done|]. simpl.
  destruct (f x) eqn:Hx; simpl.
  - intros (y & ? & ?)%IH. exists y. split; [by right|done].
  - intros _. exists x. split; [by left|done].
Qed.

(** A tile is written exactly when its rectangle has a visible pixel. *)
Lemma written_tile_true a cpm rpm nx ny ty tx :
  1 <= cpm -> 1 <= rpm ->
  (nx - 1) * cpm < shape_w a <= nx * cpm ->
  (ny - 1) * rpm < shape_h a <= ny * rpm ->
  (ty, tx) ∈ all_tiles nx ny ->
  written_tile a (shape_w a) (shape_h a) cpm rpm (ty, tx) = true
  <-> exists x y,
        in_rect (tile_bounds (shape_w a) (shape_h a) cpm rpm tx ty) x y
        /\ visible (pixel a y x) = true.
Proof.
  intros Hc Hr Hnx Hny Ht.
  pose proof (written_tile_false a cpm rpm nx ny ty tx Hc Hr Hnx Hny Ht)
    as Hfalse.
  destruct (written_tile a (shape_w a) (shape_h a) cpm rpm (ty, tx)) eqn:Hk.
  - split; [intros _|done].
    destruct (tile_bounds_inside (shape_w a) (shape_h a) cpm rpm nx ny tx ty)
      as (xs & xe & ys & ye & Hb & ?);
      [done..|by apply elem_of_all_tiles in Ht as [??]
             |by apply elem_of_all_tiles in Ht as [??]|].
    unfold written_tile in Hk. cbn [fst snd] in Hk. rewrite Hb in Hk.
    apply negb_true_iff in Hk. unfold is_tile_fully_transparent in Hk.
    unfold slice_range in Hk. rewrite !slice_bound_inside in Hk by lia.
    apply forallb_false_elem in Hk as (y & Hy & Hk).
    apply forallb_false_elem in Hk as (x & Hx & Hk).
    apply elem_of_py_range in Hy, Hx.
    exists x, y. rewrite Hb. split; [done|].
    unfold visible. apply N.eqb_neq in Hk.
    apply N.ltb_lt. lia.
  - split; [done|]. intros (x & y & Hin & Hv).
    unfold visible in Hv. rewrite (proj1 Hfalse eq_refl x y Hin) in Hv. done.
Qed.

(** X6: an image that fits the budget in one piece
    ([w <= isqrt(max_tris // 2)] and [h <= (max_tris // 2) // w]) is one
    tile, the whole image.  If it has a visible pixel the run writes the
    single file [pixel_mesh_0_0.obj] with the quads of all [w * h]
    pixels; if it has none the run writes nothing and returns the empty
    list. *)
Theorem image_within_budget_is_one_tile (a : ndarray)
    (uv : gmap color (float * float)) (max_tris : Z) :
  1 <= shape_w a < 2 ^ 51 -> 1 <= shape_h a < 2 ^ 51 ->
  shape_w a <= Z.sqrt (max_tris / 2) ->
  shape_h a <= (max_tris / 2) / shape_w a ->
  tiling (shape_w a) (shape_h a) max_tris = Ok (shape_w a, shape_h a, 1, 1)
  /\ tile_bounds (shape_w a) (shape_h a) (shape_w a) (shape_h a) 0 0
     = (0, shape_w a, 0, shape_h a)
  /\ (has_visible_pixel a ->
      exists lines,
        create_tiled_meshes a uv (shape_w a, shape_h a) max_tris
        = Ok ([tile_name 0 0], {[ tile_name 0 0 := lines ]})
        /\ count_lines is_vertex lines = 4 * (shape_w a * shape_h a)
        /\ count_lines is_face lines
           = count_visible a (tile_pixels 0 (shape_w a) 0 (shape_h a)))
  /\ (~ has_visible_pixel a ->
      create_tiled_meshes a uv (shape_w a, shape_h a) max_tris = Ok ([], ∅)).
Proof.
  intros Hw Hh Hfw Hfh.
  assert (2 <= max_tris) as Ht.
  { destruct (decide (2 <= max_tris)) as [|Hlt]; [done|].
    assert (max_tris / 2 <= 0) as Hm
      by (apply Z.lt_succ_r, Z.div_lt_upper_bound; lia).
    destruct (decide (max_tris / 2 = 0)) as [Hz|Hnz].
    - rewrite Hz in Hfw. simpl in Hfw. lia.
    - rewrite Z.sqrt_neg in Hfw by lia. lia. }
  destruct (create_tiled_meshes_run a uv max_tris Hw Hh Ht)
    as (cpm & rpm & nx & ny & Htil & Hc & Hr & Hnx & Hny & Hrun).
  destruct (tiling_spec _ _ _ Hw Hh Ht)
    as (cpm' & rpm' & nx' & ny' & Htil' & Hcpm & Hrpm & _).
  rewrite Htil in Htil'. injection Htil' as <- <- <- <-.
  rewrite Z.min_l in Hcpm by done. subst cpm.
  rewrite Z.min_l in Hrpm by done. subst rpm.
  assert (nx = 1) as -> by nia. assert (ny = 1) as -> by nia.
  assert (tile_bounds (shape_w a) (shape_h a) (shape_w a) (shape_h a) 0 0
          = (0, shape_w a, 0, shape_h a)) as Hb.
  { unfold tile_bounds. rewrite !Z.mul_0_l, !Z.add_0_l, !Z.mul_1_l.
    by rewrite !Z.min_id. }
  split; [done|]. split; [done|].
  change (all_tiles 1 1) with [(0, 0)] in Hrun.
  assert ((0, 0) ∈ all_tiles 1 1) as Hin by (apply elem_of_all_tiles; lia).
  pose proof (written_tile_true a (shape_w a) (shape_h a) 1 1 0 0
                Hc Hr Hnx Hny Hin) as Hwr.
  rewrite Hb in Hwr.
  assert (has_visible_pixel a
          <-> written_tile a (shape_w a) (shape_h a) (shape_w a) (shape_h a)
                (0, 0) = true) as Hvis.
  { rewrite Hwr. unfold has_visible_pixel, in_rect. split.
    - intros (y & x & ? & ? & ?). by exists x, y.
    - intros (x & y & [??] & ?). by exists y, x. }
  split.
  - intros Hv%Hvis. rewrite filter_cons_True, filter_nil in Hrun by done.
    eexists. split; [exact Hrun|].
    unfold tile_file. cbn [fst snd]. rewrite Hb. cbn [rect_pixels].
    rewrite !count_lines_comment by done.
    rewrite vertex_lines_of_blocks, face_lines_of_blocks.
    rewrite length_tile_pixels by lia. split; [f_equal; lia|done].
  - intros Hv. rewrite filter_cons_False, filter_nil in Hrun; [done|].
    by rewrite <-Hvis.
Qed.

Lemma image_within_budget_is_one_tile_witness :
  1 <= shape_w sample_image < 2 ^ 51 /\ 1 <= shape_h sample_image < 2 ^ 51
  /\ shape_w sample_image <= Z.sqrt (10000 / 2)
  /\ shape_h sample_image <= (10000 / 2) / shape_w sample_image
  /\ tiling (shape_w sample_image) (shape_h sample_image) 10000
     = Ok (shape_w sample_image, shape_h sample_image, 1, 1)
  /\ tile_bounds (shape_w sample_image) (shape_h sample_image)
       (shape_w sample_image) (shape_h sample_image) 0 0
     = (0, shape_w sample_image, 0, shape_h sample_image)
  /\ (has_visible_pixel sample_image ->
      exists lines,
        create_tiled_meshes sample_image ∅
          (shape_w sample_image, shape_h sample_image) 10000
        = Ok ([tile_name 0 0], {[ tile_name 0 0 := lines ]})
        /\ count_lines is_vertex lines
           = 4 * (shape_w sample_image * shape_h sample_image)
        /\ count_lines is_face lines
           = count_visible sample_image
               (tile_pixels 0 (shape_w sample_image) 0 (shape_h sample_image)))
  /\ (~ has_visible_pixel sample_image ->
      create_tiled_meshes sample_image ∅
        (shape_w sample_image, shape_h sample_image) 10000 = Ok ([], ∅)).
Proof.
  split; [simpl; lia|]. split; [simpl; lia|].
  split; [vm_compute; discriminate|]. split; [vm_compute; discriminate|].
  apply (image_within_budget_is_one_tile sample_image ∅ 10000);
    [simpl; lia|simpl; lia|vm_compute; discriminate|vm_compute; discriminate].
Defined.

(** ** Faces over all files *)

Lemma count_visible_app (a : ndarray) (l k : list (Z * Z)) :
  count_visible a (l ++ k) = count_visible a l + count_visible a k.
Proof.
  unfold count_visible. rewrite List.filter_app, length_app. lia.
Qed.

Lemma count_visible_Permutation (a : ndarray) (l k : list (Z * Z)) :
  l ≡ₚ k -> count_visible a l = count_visible a k.
Proof.
  unfold count_visible. intros Hp. f_equal.
  induction Hp as [|x l k _ IH|x y l|l k m _ IH1 _ IH2]; simpl.
  - done.
  - destruct (visible _); simpl; by rewrite IH.
  - by destruct (visible (pixel a y.1 y.2)), (visible (pixel a x.1 x.2)).
  - by rewrite IH1.
Qed.

Lemma count_visible_transparent (a : ndarray) (l : list (Z * Z)) :
  (forall y x, (y, x) ∈ l -> alpha (pixel a y x) = 0%N) ->
  count_visible a l = 0.
Proof.
  unfold count_visible. intros Hz.
  induction l as [|[y x] l IH]; [done|]. simpl.
  unfold visible at 1. cbn [fst snd]. rewrite (Hz y x) by (by left).
  simpl. apply IH. intros ???. apply Hz. by right.
Qed.

(** The tile rectangles, one after the other, hold every pixel of the
    image once. *)
Lemma tiles_cover w h cpm rpm nx ny :
  1 <= cpm -> 1 <= rpm ->
  (nx - 1) * cpm < w <= nx * cpm ->
  (ny - 1) * rpm < h <= ny * rpm ->
  (t ← all_tiles nx ny; rect_pixels (tile_bounds w h cpm rpm t.2 t.1))
  ≡ₚ tile_pixels 0 w 0 h.
Proof.
  intros Hc Hr Hnx Hny. apply NoDup_Permutation.
  - apply NoDup_bind; [| |apply NoDup_all_tiles].
    + intros [ty tx] [ty' tx'] [y x] [??]%elem_of_all_tiles
        [??]%elem_of_all_tiles.
      unfold tile_bounds, rect_pixels. cbn [fst snd].
      intros [??]%elem_of_tile_pixels [??]%elem_of_tile_pixels.
      f_equal; nia.
    + intros [ty tx] _. unfold tile_bounds, rect_pixels.
      apply NoDup_grid; apply NoDup_py_range.
  - apply NoDup_grid; apply NoDup_py_range.
  - intros [y x]. rewrite list_elem_of_bind, elem_of_tile_pixels. split.
    + intros ([ty tx] & Hin & [??]%elem_of_all_tiles).
      unfold tile_bounds, rect_pixels in Hin. cbn [fst snd] in Hin.
      apply elem_of_tile_pixels in Hin. nia.
    + intros [Hx Hy]. exists (y / rpm, x / cpm).
      pose proof (Z.mul_div_le x cpm ltac:(lia)).
      pose proof (Z.mul_succ_div_gt x cpm ltac:(lia)).
      pose proof (Z.mul_div_le y rpm ltac:(lia)).
      pose proof (Z.mul_succ_div_gt y rpm ltac:(lia)).
      assert (0 <= x / cpm) by (apply Z.div_pos; lia).
      assert (0 <= y / rpm) by (apply Z.div_pos; lia).
      rewrite elem_of_all_tiles. unfold tile_bounds, rect_pixels.
      cbn [fst snd]. rewrite elem_of_tile_pixels.
      split_and!; try lia; nia.
Qed.

(** X7: over all the files of a run there are as many [f] lines as the
    image has pixels with alpha above 0: every visible pixel of the
    image gets its face, in one file, and no other face is written. *)
Theorem faces_of_all_files (a : ndarray)
    (uv : gmap color (float * float)) (max_tris : Z) :
  1 <= shape_w a < 2 ^ 51 -> 1 <= shape_h a < 2 ^ 51 -> 2 <= max_tris ->
  exists paths files,
    create_tiled_meshes a uv (shape_w a, shape_h a) max_tris
    = Ok (paths, files)
    /\ count_lines_in is_face files paths
       = count_visible a (tile_pixels 0 (shape_w a) 0 (shape_h a)).
Proof.
  intros Hw Hh Ht.
  destruct (create_tiled_meshes_run a uv max_tris Hw Hh Ht)
    as (cpm & rpm & nx & ny & Htil & Hc & Hr & Hnx & Hny & Hrun).
  set (w := shape_w a) in *. set (h := shape_h a) in *.
  set (W := fun t => written_tile a w h cpm rpm t = true) in *.
  set (files := foldl (put_tile a uv w h cpm rpm) ∅
                  (filter W (all_tiles nx ny))) in *.
  set (pix := fun t : Z * Z => rect_pixels (tile_bounds w h cpm rpm t.2 t.1)).
  do 2 eexists. split; [exact Hrun|].
  rewrite <-(count_visible_Permutation a _ _
               (tiles_cover w h cpm rpm nx ny Hc Hr Hnx Hny)).
  fold pix.
  assert (forall t, t ∈ filter W (all_tiles nx ny) ->
            files !! tile_path t = Some (tile_file a uv w h cpm rpm t)) as Hf.
  { intros t Hin. apply foldl_put_elem; [|done].
    apply NoDup_filter, NoDup_all_tiles. }
  assert (forall l, (forall t, t ∈ l -> files !! tile_path t
                                  = Some (tile_file a uv w h cpm rpm t)) ->
            count_lines_in is_face files (tile_path <$> l)
            = count_visible a (l ≫= pix)) as Hsum.
  { induction l as [|t l IH]; intros Hl; [done|].
    unfold count_lines_in in *. rewrite !fmap_cons, bind_cons. cbn [foldr].
    rewrite IH by (intros; apply Hl; by right).
    rewrite count_visible_app. f_equal.
    rewrite Hl by (by left). cbn [default from_option id]. unfold tile_file.
    rewrite count_lines_comment by done. apply face_lines_of_blocks. }
  rewrite (Hsum _ Hf).
  assert (forall l, (forall t, t ∈ l -> t ∈ all_tiles nx ny) ->
            count_visible a (filter W l ≫= pix)
            = count_visible a (l ≫= pix))
    as Hskip.
  { induction l as [|[ty tx] l IH]; intros Hl; [done|].
    rewrite bind_cons, count_visible_app.
    rewrite <-IH by (intros; apply Hl; by right).
    destruct (decide (W (ty, tx))) as [Hy|Hn].
    - rewrite filter_cons_True by done.
      by rewrite bind_cons, count_visible_app.
    - rewrite filter_cons_False by done.
      rewrite (count_visible_transparent a (pix (ty, tx))); [done|].
      intros y x Hin.
      assert (written_tile a w h cpm rpm (ty, tx) = false) as Hfalse
        by (unfold W in Hn; by destruct (written_tile a w h cpm rpm (ty, tx))).
      assert ((ty, tx) ∈ all_tiles nx ny) as Ht' by (apply Hl; by left).
      pose proof (proj1 (written_tile_false a cpm rpm nx ny ty tx
                           Hc Hr Hnx Hny Ht') Hfalse) as Hz.
      apply Hz. unfold pix, rect_pixels in Hin. cbn [fst snd] in Hin.
      fold w h. destruct (tile_bounds w h cpm rpm tx ty) as [[[xs xe] ys] ye].
      apply elem_of_tile_pixels in Hin. done. }
  by apply Hskip.
Qed.

Lemma faces_of_all_files_witness :
  1 <= shape_w sample_image < 2 ^ 51 /\ 1 <= shape_h sample_image < 2 ^ 51
  /\ 2 <= 4
  /\ exists paths files,
       create_tiled_meshes sample_image ∅
         (shape_w sample_image, shape_h sample_image) 4
       = Ok (paths, files)
       /\ count_lines_in is_face files paths
          = count_visible sample_image
              (tile_pixels 0 (shape_w sample_image) 0 (shape_h sample_image)).
Proof.
  split; [simpl; lia|]. split; [simpl; lia|]. split; [lia|].
  apply (faces_of_all_files sample_image ∅ 4); simpl; lia.
Defined.

(** X8: tiles with different coordinates get different file names, so
    no file of a run is overwritten by another tile. *)
Theorem tile_names_distinct (tx ty tx' ty' : Z) :
  (tx, ty) <> (tx', ty') -> tile_name tx ty <> tile_name tx' ty'.
Proof.
  intros Hne [-> ->]%tile_name_inj. done.
Qed.

Lemma tile_names_distinct_witness :
  (1, 12) <> (11, 2) /\ tile_name 1 12 <> tile_name 11 2.
Proof.
  split; [discriminate|]. apply (tile_names_distinct 1 12 11 2). discriminate.
Defined.

(** X9: [math.ceil(a / b)], computed in binary64 as the tiler computes
    its tile counts, returns the exact ceiling of the quotient for
    [0 <= a < 2^51] and [0 < b < 2^53]: the least [n] with [a <= n * b]. *)
Theorem tile_count_is_exact_ceiling (a b : Z) :
  0 <= a < 2 ^ 51 -> 0 < b < 2 ^ 53 ->
  exists n, ceil_truediv a b = Ok n /\ (n - 1) * b < a <= n * b.
Proof. apply ceil_truediv_spec. Qed.

Lemma tile_count_is_exact_ceiling_witness :
  0 <= 1000 < 2 ^ 51 /\ 0 < 70 < 2 ^ 53
  /\ exists n, ceil_truediv 1000 70 = Ok n /\ (n - 1) * 70 < 1000 <= n * 70.
Proof.
  split; [lia|]. split; [lia|].
  apply (tile_count_is_exact_ceiling 1000 70); lia.
Defined.

(** X10: when the loops over the tiles end, every tile has been counted
    once: the number of names in [mesh_paths] and the counter
    [skipped_tiles], the two numbers of the final report, add up to
    [num_meshes_x * num_meshes_y]. *)
Theorem listed_plus_skipped_is_all_tiles (a : ndarray)
    (uv : gmap color (float * float)) (max_tris : Z) :
  1 <= shape_w a < 2 ^ 51 -> 1 <= shape_h a < 2 ^ 51 -> 2 <= max_tris ->
  exists cpm rpm nx ny st,
    tiling (shape_w a) (shape_h a) max_tris = Ok (cpm, rpm, nx, ny)
    /\ for_each (py_range 0 ny)
         (fun st tile_y =>
            for_each (py_range 0 nx)
              (process_tile a uv (shape_w a) (shape_h a) cpm rpm tile_y) st)
         {| mesh_paths := []; skipped_tiles := 0; disk := ∅ |}
       = Ok st
    /\ create_tiled_meshes a uv (shape_w a, shape_h a) max_tris
       = Ok (mesh_paths st, disk st)
    /\ Z.of_nat (length (mesh_paths st)) + skipped_tiles st = nx * ny.
Proof.
  intros Hw Hh Ht.
  destruct (tiling_spec _ _ _ Hw Hh Ht)
    as (cpm & rpm & nx & ny & Htil & _ & _ & Hc & Hr & _ & Hnx & Hny).
  exists cpm, rpm, nx, ny. eexists. split; [done|].
  assert (forall ty tx, (ty, tx) ∈ all_tiles nx ny ->
            0 <= tx < nx /\ 0 <= ty < ny) as Hin
    by (by intros ?? ?%elem_of_all_tiles).
  split.
  { rewrite (for_each_nested _ _
               (process_tile a uv (shape_w a) (shape_h a) cpm rpm)).
    fold (all_tiles nx ny).
    rewrite (run_inside a uv (shape_w a) (shape_h a) cpm rpm nx ny) by done.
    reflexivity. }
  split.
  - unfold create_tiled_meshes. rewrite Htil. cbn [mbind result_bind].
    rewrite (for_each_nested _ _
               (process_tile a uv (shape_w a) (shape_h a) cpm rpm)).
    fold (all_tiles nx ny).
    by rewrite (run_inside a uv (shape_w a) (shape_h a) cpm rpm nx ny)
      by done.
  - cbn [mesh_paths skipped_tiles app]. rewrite length_fmap, Z.add_0_l.
    rewrite <-Nat2Z.inj_add, <-length_app.
    rewrite (filter_app_complement
               (fun t => written_tile a (shape_w a) (shape_h a) cpm rpm t
                         = true) (all_tiles nx ny)).
    unfold all_tiles. rewrite length_grid, Nat2Z.inj_mul, !length_py_range.
    nia.
Qed.

Lemma listed_plus_skipped_is_all_tiles_witness :
  1 <= shape_w sample_image < 2 ^ 51 /\ 1 <= shape_h sample_image < 2 ^ 51
  /\ 2 <= 4
  /\ exists cpm rpm nx ny st,
       tiling (shape_w sample_image) (shape_h sample_image) 4
       = Ok (cpm, rpm, nx, ny)
       /\ for_each (py_range 0 ny)
            (fun st tile_y =>
               for_each (py_range 0 nx)
                 (process_tile sample_image ∅ (shape_w sample_image)
                    (shape_h sample_image) cpm rpm tile_y) st)
            {| mesh_paths := []; skipped_tiles := 0; disk := ∅ |}
          = Ok st
       /\ create_tiled_meshes sample_image ∅
            (shape_w sample_image, shape_h sample_image) 4
          = Ok (mesh_paths st, disk st)
       /\ Z.of_nat (length (mesh_paths st)) + skipped_tiles st = nx * ny.
Proof.
  split; [simpl; lia|]. split; [simpl; lia|]. split; [lia|].
  apply (listed_plus_skipped_is_all_tiles sample_image ∅ 4); simpl; lia.
Defined.

(** ** Geometry and the UV map *)

Lemma geometry_of_blocks (a : ndarray) (uv1 uv2 : gmap color (float * float))
    (H : Z) (l : list (Z * Z)) (vi : Z) :
  List.filter (fun o => negb (is_texcoord o)) (tile_blocks a uv1 H l vi)
  = List.filter (fun o => negb (is_texcoord o)) (tile_blocks a uv2 H l vi).
Proof.
  revert vi. induction l as [|[y x] l IH]; intros vi; [done|].
  cbn [tile_blocks]. rewrite !List.filter_app, IH. f_equal.
  unfold pixel_block, uv_line. cbn [fst snd].
  rewrite !List.filter_app. f_equal. f_equal.
  destruct (uv1 !! pixel a y x) as [[u1 v1]|],
    (uv2 !! pixel a y x) as [[u2 v2]|]; done.
Qed.

(** X21: the UV map decides nothing but the [vt] lines: two runs of the
    tiler on the same image and budget with different UV maps return the
    same list of names, and the files of the same name agree on every
    line that is not a [vt] line (comment, [v] and [f] lines). *)
Theorem geometry_independent_of_uv_map (a : ndarray)
    (uv1 uv2 : gmap color (float * float)) (max_tris : Z) :
  1 <= shape_w a < 2 ^ 51 -> 1 <= shape_h a < 2 ^ 51 -> 2 <= max_tris ->
  exists paths files1 files2,
    create_tiled_meshes a uv1 (shape_w a, shape_h a) max_tris
    = Ok (paths, files1)
    /\ create_tiled_meshes a uv2 (shape_w a, shape_h a) max_tris
       = Ok (paths, files2)
    /\ forall name,
         match files1 !! name, files2 !! name with
         | Some lines1, Some lines2 =>
             List.filter (fun o => negb (is_texcoord o)) lines1
             = List.filter (fun o => negb (is_texcoord o)) lines2
         | None, None => True
         | _, _ => False
         end.
Proof.
  intros Hw Hh Ht.
  destruct (create_tiled_meshes_run a uv1 max_tris Hw Hh Ht)
    as (cpm & rpm & nx & ny & Htil & _ & _ & _ & _ & Hrun1).
  destruct (create_tiled_meshes_run a uv2 max_tris Hw Hh Ht)
    as (cpm' & rpm' & nx' & ny' & Htil' & _ & _ & _ & _ & Hrun2).
  rewrite Htil in Htil'. injection Htil' as <- <- <- <-.
  set (w := shape_w a) in *. set (h := shape_h a) in *.
  set (W := fun t => written_tile a w h cpm rpm t = true) in *.
  do 3 eexists. split; [exact Hrun1|]. split; [exact Hrun2|].
  intros name.
  assert (NoDup (filter W (all_tiles nx ny))) as Hnd
    by apply NoDup_filter, NoDup_all_tiles.
  destruct (decide (name ∈ tile_path <$> filter W (all_tiles nx ny)))
    as [(t & -> & Hin)%list_elem_of_fmap|Hno].
  - rewrite !(foldl_put_elem _ _ _ _ _ _ _ _ t) by done.
    unfold tile_file. cbn [List.filter is_texcoord negb]. f_equal.
    apply geometry_of_blocks.
  - rewrite !foldl_put_other; [done|..];
      intros t Ht' Heq; apply Hno, list_elem_of_fmap; by exists t.
Qed.

Lemma geometry_independent_of_uv_map_witness :
  1 <= shape_w sample_image < 2 ^ 51 /\ 1 <= shape_h sample_image < 2 ^ 51
  /\ 2 <= 4
  /\ exists paths files1 files2,
       create_tiled_meshes sample_image ∅
         (shape_w sample_image, shape_h sample_image) 4
       = Ok (paths, files1)
       /\ create_tiled_meshes sample_image
            {[ RGBA 200 10 10 255 := (0.25, 0.25)%float ]}
            (shape_w sample_image, shape_h sample_image) 4
          = Ok (paths, files2)
       /\ forall name,
            match files1 !! name, files2 !! name with
            | Some lines1, Some lines2 =>
                List.filter (fun o => negb (is_texcoord o)) lines1
                = List.filter (fun o => negb (is_texcoord o)) lines2
            | None, None => True
            | _, _ => False
            end.
Proof.
  split; [simpl; lia|]. split; [simpl; lia|]. split; [lia|].
  apply (geometry_independent_of_uv_map sample_image ∅
           {[ RGBA 200 10 10 255 := (0.25, 0.25)%float ]} 4); simpl; lia.
Defined.

(** ** The atlas builder, further *)

Lemma py_range_split (a i b : Z) :
  a <= i < b -> py_range a b = py_range a i ++ i :: py_range (i + 1) b.
Proof.
  intros Hi. unfold py_range.
  replace (b - a) with ((i - a) + (b - i)) by lia.
  rewrite seqZ_app by lia. f_equal.
  replace (a + (i - a)) with i by lia.
  rewrite seqZ_cons by lia. f_equal. f_equal; lia.
Qed.

(** The atlas builder from the packed colours on, written out: the
    texture is the empty texture with the cells of the packed colours
    and then the leftover cells filled in. *)
Lemma atlas_body_run (colors : list color) (n : Z) (dims : Z * Z) :
  NoDup colors -> n = Z.of_nat (length colors) ->
  1 <= n <= tex_size * tex_size ->
  exists cols rows cell_w cell_h last_color,
    atlas_grid n = Ok (cols, rows, cell_w, cell_h)
    /\ 1 <= cols <= tex_size /\ 1 <= rows <= tex_size
    /\ n <= cols * rows
    /\ int_truediv tex_size cols = Ok cell_w
    /\ int_truediv tex_size rows = Ok cell_h
    /\ last colors = Some last_color
    /\ ('(cols, rows, cell_w, cell_h) ← atlas_grid n;
        '(texture, color_to_uv) ←
          for_each (enumerate colors) (place_color cell_w cell_h cols)
            (np_zeros tex_size tex_size, ∅);
        texture ←
          for_each (py_range n (cols * rows))
            (fill_rest cell_w cell_h cols colors) texture;
        mret (texture, color_to_uv, dims))
       = Ok (foldl (paint cols rows) (np_zeros tex_size tex_size)
               (enumerate_from 0 colors
                ++ ((fun i => (i, with_alpha last_color 255%N))
                      <$> py_range n (cols * rows))),
             foldl (record cols rows) ∅ (enumerate_from 0 colors),
             dims).
Proof.
  intros Hnd Hn Hrange.
  destruct (atlas_grid_spec n Hrange)
    as (cols & rows & s & q & cw & ch & _ & _ & _ & _ & Hcw & Hch & Hgrid
        & Hcols & Hrows & Hcap & _ & _).
  assert (exists last_color, last colors = Some last_color) as [lc Hlc].
  { apply last_is_Some. intros Hnil. rewrite Hnil in Hn. simpl in Hn. lia. }
  exists cols, rows, cw, ch, lc. split_and!; try done; try lia.
  assert (forall i c, (i, c) ∈ enumerate_from 0 colors -> 0 <= i < n) as Hidx.
  { intros i c (j & -> & Hj%lookup_lt_Some)%elem_of_enumerate_from. lia. }
  rewrite Hgrid. cbn [mbind result_bind]. rewrite enumerate_eq.
  rewrite (place_colors_inside cols rows Hcols Hrows cw ch Hcw Hch)
    by (intros i c ?%Hidx; lia).
  cbn [mbind result_bind fst snd].
  rewrite (fill_rest_inside cols rows Hcols Hrows cw ch Hcw Hch _ lc)
    by (done || intros i ?%elem_of_py_range; lia).
  cbn [mbind result_bind mret result_ret]. by rewrite foldl_app.
Qed.

Section atlas_more.
Context (set_to_list : list color -> list color).
Hypothesis set_to_list_spec : enumerates set_to_list.
Context (a : ndarray).

(** What [generate_color_atlas] computes for an image with a visible
    pixel, written out. *)
Lemma generate_color_atlas_run :
  has_visible_pixel a ->
  exists colors n cols rows cell_w cell_h last_color,
    packed_colors set_to_list a = (colors, n)
    /\ NoDup colors /\ n = Z.of_nat (length colors)
    /\ 1 <= n <= tex_size * tex_size
    /\ (forall c, c ∈ colors -> c ∈ unique_colors set_to_list a)
    /\ (Z.of_nat (length (unique_colors set_to_list a)) <= tex_size * tex_size
        -> colors = unique_colors set_to_list a)
    /\ atlas_grid n = Ok (cols, rows, cell_w, cell_h)
    /\ 1 <= cols <= tex_size /\ 1 <= rows <= tex_size
    /\ n <= cols * rows
    /\ int_truediv tex_size cols = Ok cell_w
    /\ int_truediv tex_size rows = Ok cell_h
    /\ last colors = Some last_color
    /\ generate_color_atlas set_to_list a
       = Ok (foldl (paint cols rows) (np_zeros tex_size tex_size)
               (enumerate_from 0 colors
                ++ ((fun i => (i, with_alpha last_color 255%N))
                      <$> py_range n (cols * rows))),
             foldl (record cols rows) ∅ (enumerate_from 0 colors),
             (shape_w a, shape_h a)).
Proof.
  intros Hvis.
  destruct (packed_colors_spec set_to_list set_to_list_spec a)
    as (n & Hp & Hn & Hmin & Hnd).
  pose proof (unique_colors_nonempty set_to_list set_to_list_spec a Hvis)
    as Hne.
  assert (tex_size * tex_size = 1048576) as Hcap by reflexivity.
  assert (1 <= n <= tex_size * tex_size) as Hrange by lia.
  set (cap := Z.to_nat (tex_size * tex_size)) in *.
  assert (Z.of_nat cap = tex_size * tex_size) as Hmax by (unfold cap; lia).
  clearbody cap. clear Hcap.
  assert (forall c, c ∈ take cap (unique_colors set_to_list a) ->
            c ∈ unique_colors set_to_list a) as Hsub.
  { intros c [j [Hj _]%lookup_take_Some]%list_elem_of_lookup.
    by eapply list_elem_of_lookup_2. }
  assert (Z.of_nat (length (unique_colors set_to_list a)) <= tex_size * tex_size
          -> take cap (unique_colors set_to_list a)
             = unique_colors set_to_list a) as Hall.
  { intros Hle. apply take_ge. lia. }
  revert Hp Hn Hnd Hsub Hall.
  generalize (take cap (unique_colors set_to_list a)).
  intros colors Hp Hn Hnd Hsub Hall.
  destruct (atlas_body_run colors n (shape_w a, shape_h a) Hnd Hn Hrange)
    as (cols & rows & cw & ch & lc & Hgrid & ? & ? & ? & ? & ? & ? & Hrun).
  exists colors, n, cols, rows, cw, ch, lc.
  split_and!; try done; try lia.
  unfold generate_color_atlas. rewrite Hp. exact Hrun.
Qed.
End atlas_more.

Lemma texels_checked : all_range 11 0 texel_check = true.
Proof. vm_cast_no_check (eq_refl true). Qed.

(** The texel under the UV coordinate of a cell lies in the cell. *)
Lemma texel_of_center (c k : Z) :
  1 <= c <= tex_size -> 0 <= k < c ->
  exists x,
    py_int (int_mul_float tex_size (center c k)) = Ok x
    /\ grid_line c k <= x < grid_line c (k + 1).
Proof.
  intros Hc Hk.
  destruct (grid_line_spec c k) as (_ & _ & _ & _ & Hlt & Hle); [done..|].
  destruct (center_spec c k Hc Hk) as (Hcen & _).
  set (s := grid_line c k + grid_line c (k + 1)) in *.
  assert (0 <= s < 2048) as Hs by (unfold tex_size in *; lia).
  rewrite int_truediv_center in Hcen by lia. injection Hcen as <-.
  pose proof (all_range_sound 11 texel_check 0 (Uint63.of_Z s)
                ltac:(lia) ltac:(done) texels_checked) as Hchk.
  rewrite to_of_Z in Hchk by lia.
  specialize (Hchk ltac:(rewrite Uint63.to_Z_0;
                          change (2 ^ Z.of_nat 11) with 2048; lia)).
  unfold texel_check in Hchk.
  apply andb_true_iff in Hchk as [Hok Heq].
  apply Uint63.eqb_spec in Heq.
  exists (s / 2). split.
  - unfold int_mul_float.
    change (float_of_int tex_size) with (PrimFloat.of_uint63 1024).
    rewrite (py_int_fast _ Hok), Heq, Uint63.lsr_spec, to_of_Z by lia.
    done.
  - subst s. split.
    + apply Z.div_le_lower_bound; lia.
    + apply Z.div_lt_upper_bound; lia.
Qed.

Section atlas_extras.
Context (set_to_list : list color -> list color).
Hypothesis set_to_list_spec : enumerates set_to_list.
Context (a : ndarray).

(** X11: the atlas builder returns exactly for the images that have a
    pixel with alpha above 0, and then with a texture of
    [tex_size x tex_size] texels and the extent [(w, h)] of the image;
    on every other image it raises [ZeroDivisionError]. *)
Theorem atlas_returns_iff_visible :
  (has_visible_pixel a ->
   exists tex uvm,
     generate_color_atlas set_to_list a = Ok (tex, uvm, (shape_w a, shape_h a))
     /\ shape_h tex = tex_size /\ shape_w tex = tex_size)
  /\ (~ has_visible_pixel a ->
      generate_color_atlas set_to_list a = Raise ZeroDivisionError).
Proof.
  split.
  - intros Hvis.
    destruct (generate_color_atlas_spec set_to_list set_to_list_spec a Hvis)
      as (colors & n & cols & rows & cw & ch & tex & uvm & _ & _ & _ & _ & _
          & _ & _ & _ & _ & _ & _ & Hrun & _ & _ & Hsh & Hsw & _).
    by exists tex, uvm.
  - intros Hn.
    apply (transparent_image_raises set_to_list a set_to_list_spec).
    intros y x Hy Hx.
    destruct (N.eq_dec (alpha (pixel a y x)) 0%N) as [|Hne]; [done|].
    destruct Hn. exists y, x. split; [done|]. split; [done|].
    unfold visible. apply N.ltb_lt. lia.
Qed.

(** X12: every key of the returned UV map is the colour of a pixel of
    the image with alpha above 0; and when the image has at most
    [tex_size * tex_size] such colours the converse holds: the colour of
    every visible pixel is a key, and the map has one entry per distinct
    visible colour. *)
Theorem uv_map_keys_are_visible_colors :
  has_visible_pixel a ->
  exists tex uvm,
    generate_color_atlas set_to_list a = Ok (tex, uvm, (shape_w a, shape_h a))
    /\ (forall c, is_Some (uvm !! c) ->
          visible c = true
          /\ exists y x, 0 <= y < shape_h a /\ 0 <= x < shape_w a
                         /\ pixel a y x = c)
    /\ (Z.of_nat (length (unique_colors set_to_list a))
        <= tex_size * tex_size ->
        (forall y x, 0 <= y < shape_h a -> 0 <= x < shape_w a ->
           visible (pixel a y x) = true -> is_Some (uvm !! pixel a y x))
        /\ base.size uvm = length (unique_colors set_to_list a)).
Proof.
  intros Hvis.
  destruct (generate_color_atlas_run set_to_list set_to_list_spec a Hvis)
    as (colors & n & cols & rows & cw & ch & lc & _ & Hnd & Hn & _ & Hsub
        & Hall & _ & _ & _ & _ & _ & _ & _ & Hrun).
  do 2 eexists. split; [exact Hrun|].
  set (uvm := foldl (record cols rows) ∅ (enumerate_from 0 colors)).
  assert (forall c, is_Some (uvm !! c) <-> c ∈ colors) as Hkey.
  { intros c. split.
    - intros Hc. destruct (decide (c ∈ colors)) as [|Hnel]; [done|].
      unfold uvm in Hc. rewrite record_enumerated_None in Hc by done.
      by destruct Hc.
    - intros [j Hj]%list_elem_of_lookup. unfold uvm.
      by rewrite (record_enumerated cols rows colors 0 ∅ j c Hnd Hj). }
  split.
  - intros c Hc%Hkey%Hsub. unfold unique_colors in Hc.
    apply set_to_list_spec, elem_of_visible_colors in Hc
      as (y & x & ? & ? & ? & ?).
    split; [done|]. by exists y, x.
  - intros Hle. rewrite (Hall Hle) in Hkey, Hnd. split.
    + intros y x Hy Hx Hv. apply Hkey. unfold unique_colors.
      apply set_to_list_spec, elem_of_visible_colors. by exists y, x.
    + assert (dom uvm = (list_to_set (unique_colors set_to_list a)
                         : gset color)) as Hdom.
      { apply set_eq. intros c.
        by rewrite elem_of_dom, elem_of_list_to_set. }
      pose proof (size_dom (D:=gset color) uvm) as Hsz.
      rewrite Hdom in Hsz. rewrite <-Hsz. by apply size_list_to_set.
Qed.

(** X13: every packed colour has a cell of at least one texel inside
    the texture, and in the returned texture every texel of that cell
    holds the colour: no later cell overwrites it. *)
Theorem packed_colors_fill_their_cells :
  has_visible_pixel a ->
  exists colors n cols rows cell_w cell_h tex uvm,
    packed_colors set_to_list a = (colors, n)
    /\ atlas_grid n = Ok (cols, rows, cell_w, cell_h)
    /\ generate_color_atlas set_to_list a
       = Ok (tex, uvm, (shape_w a, shape_h a))
    /\ forall (j : nat) c,
         colors !! j = Some c ->
         exists x_start x_end y_start y_end,
           cell_rect cell_w cell_h cols (Z.of_nat j)
           = Ok (x_start, x_end, y_start, y_end)
           /\ 0 <= x_start < x_end /\ x_end <= tex_size
           /\ 0 <= y_start < y_end /\ y_end <= tex_size
           /\ forall x y,
                x_start <= x < x_end -> y_start <= y < y_end ->
                pixel tex y x = c.
Proof.
  intros Hvis.
  destruct (generate_color_atlas_run set_to_list set_to_list_spec a Hvis)
    as (colors & n & cols & rows & cw & ch & lc & Hp & Hnd & Hn & Hrange & _
        & _ & Hgrid & Hcols & Hrows & Hcap & Hcw & Hch & Hlast & Hrun).
  exists colors, n, cols, rows, cw, ch. do 2 eexists.
  split_and!; [done|done|exact Hrun|].
  intros j c Hj.
  pose proof (lookup_lt_Some _ _ _ Hj) as Hlt.
  assert (0 <= Z.of_nat j < cols * rows) as Hi by lia.
  destruct (cell_of_inside cols rows Hcols Hrows _ Hi)
    as (xs & xe & ys & ye & Hcell & ?).
  exists xs, xe, ys, ye.
  rewrite (cell_rect_inside cols rows Hcols Hrows cw ch Hcw Hch) by done.
  split_and!; [by rewrite Hcell|lia..|].
  intros x y Hx Hy.
  rewrite <-(take_drop_middle colors j c Hj) at 1.
  rewrite enumerate_from_app, enumerate_from_cons, <-!app_assoc.
  rewrite <-app_comm_cons, length_take, Nat.min_l by lia.
  rewrite Z.add_0_l.
  apply (paint_in cols rows Hcols Hrows); [done|done|lia| |].
  - intros i c' [(k & -> & Hk%lookup_lt_Some)%elem_of_enumerate_from
                |Hr]%elem_of_app.
    + rewrite length_drop in Hk. lia.
    + apply list_elem_of_fmap in Hr as (i' & [= -> ->] & Hi').
      apply elem_of_py_range in Hi'. lia.
  - rewrite Hcell. done.
Qed.

(** X14: the cells of the grid that no colour was packed into, from
    cell [num_colors] to cell [cols * rows - 1], are filled with the last
    packed colour made opaque. *)
Theorem leftover_cells_hold_last_color :
  has_visible_pixel a ->
  exists colors n cols rows cell_w cell_h last_color tex uvm,
    packed_colors set_to_list a = (colors, n)
    /\ atlas_grid n = Ok (cols, rows, cell_w, cell_h)
    /\ last colors = Some last_color
    /\ generate_color_atlas set_to_list a
       = Ok (tex, uvm, (shape_w a, shape_h a))
    /\ forall i,
         n <= i < cols * rows ->
         exists x_start x_end y_start y_end,
           cell_rect cell_w cell_h cols i
           = Ok (x_start, x_end, y_start, y_end)
           /\ 0 <= x_start < x_end /\ x_end <= tex_size
           /\ 0 <= y_start < y_end /\ y_end <= tex_size
           /\ forall x y,
                x_start <= x < x_end -> y_start <= y < y_end ->
                pixel tex y x = with_alpha last_color 255%N.
Proof.
  intros Hvis.
  destruct (generate_color_atlas_run set_to_list set_to_list_spec a Hvis)
    as (colors & n & cols & rows & cw & ch & lc & Hp & Hnd & Hn & Hrange & _
        & _ & Hgrid & Hcols & Hrows & Hcap & Hcw & Hch & Hlast & Hrun).
  exists colors, n, cols, rows, cw, ch, lc. do 2 eexists.
  split_and!; [done|done|done|exact Hrun|].
  intros i Hi.
  assert (0 <= i < cols * rows) as Hi' by lia.
  destruct (cell_of_inside cols rows Hcols Hrows _ Hi')
    as (xs & xe & ys & ye & Hcell & ?).
  exists xs, xe, ys, ye.
  rewrite (cell_rect_inside cols rows Hcols Hrows cw ch Hcw Hch) by done.
  split_and!; [by rewrite Hcell|lia..|].
  intros x y Hx Hy.
  rewrite (py_range_split n i (cols * rows)) by lia.
  rewrite fmap_app, fmap_cons, app_assoc.
  apply (paint_in cols rows Hcols Hrows); [done|done|lia| |].
  - intros k c' (k' & [= -> ->] & Hk)%list_elem_of_fmap.
    apply elem_of_py_range in Hk. lia.
  - rewrite Hcell. done.
Qed.


(** X16: the UV entry of a colour points into the cell of the colour:
    the texel under [(u, v)], column [int(tex_size * u)] and row
    [int(tex_size * v)] of the returned texture, holds the colour. *)
Theorem uv_entry_points_at_its_color :
  has_visible_pixel a ->
  exists tex uvm,
    generate_color_atlas set_to_list a = Ok (tex, uvm, (shape_w a, shape_h a))
    /\ forall c u v,
         uvm !! c = Some (u, v) ->
         exists x y,
           py_int (int_mul_float tex_size u) = Ok x
           /\ py_int (int_mul_float tex_size v) = Ok y
           /\ 0 <= x < tex_size /\ 0 <= y < tex_size
           /\ pixel tex y x = c.
Proof.
  intros Hvis.
  destruct (generate_color_atlas_spec set_to_list set_to_list_spec a Hvis)
    as (colors & n & cols & rows & cw & ch & tex & uvm & _ & _ & Hnd & Hn
        & Hrange & _ & Hcols & Hrows & Hcap & _ & _ & Hrun & Hin & Hout & _
        & _ & Htex).
  exists tex, uvm. split; [done|].
  intros c u v Hc.
  destruct (decide (c ∈ colors)) as [[j Hj]%list_elem_of_lookup|Hnel];
    [|by rewrite (Hout c Hnel) in Hc].
  pose proof (lookup_lt_Some _ _ _ Hj) as Hlt.
  rewrite (Hin j c Hj) in Hc. injection Hc as <- <-.
  assert (0 <= Z.of_nat j < cols * rows) as Hi by lia.
  destruct (cell_index cols rows Hcols Hrows _ Hi) as [Hkx Hky].
  destruct (texel_of_center cols _ Hcols Hkx) as (x & Hx & ?).
  destruct (texel_of_center rows _ Hrows Hky) as (y & Hy & ?).
  destruct (cell_of_inside cols rows Hcols Hrows _ Hi)
    as (xs & xe & ys & ye & Hcell & ?).
  unfold cell_of in Hcell. injection Hcell as <- <- <- <-.
  exists x, y. split_and!; [done|done|lia..|].
  apply (Htex j c); [done|]. unfold cell_of, in_rect. lia.
Qed.
End atlas_extras.

(** X17: the grid is as square as the colour count allows: [cols] is
    the least integer with [cols * cols >= num_colors], [rows] the least
    with [cols * rows >= num_colors], and [rows] is [cols] or
    [cols - 1]. *)
Theorem grid_is_nearly_square (num_colors : Z) :
  1 <= num_colors <= tex_size * tex_size ->
  exists cols rows cell_w cell_h,
    atlas_grid num_colors = Ok (cols, rows, cell_w, cell_h)
    /\ (cols - 1) * (cols - 1) < num_colors <= cols * cols
    /\ cols * (rows - 1) < num_colors <= cols * rows
    /\ cols - 1 <= rows <= cols
    /\ 1 <= rows /\ cols <= tex_size.
Proof.
  intros Hn.
  destruct (atlas_grid_spec num_colors Hn)
    as (cols & rows & s & q & cw & ch & _ & _ & _ & _ & _ & _ & Hgrid
        & Hcols & Hrows & Hcap & Hexc & Hexr).
  exists cols, rows, cw, ch. split; [done|]. nia.
Qed.

Lemma grid_is_nearly_square_witness :
  1 <= 5 <= tex_size * tex_size
  /\ exists cols rows cell_w cell_h,
       atlas_grid 5 = Ok (cols, rows, cell_w, cell_h)
       /\ (cols - 1) * (cols - 1) < 5 <= cols * cols
       /\ cols * (rows - 1) < 5 <= cols * rows
       /\ cols - 1 <= rows <= cols
       /\ 1 <= rows /\ cols <= tex_size.
Proof.
  assert (1 <= 5 <= tex_size * tex_size) as H by (unfold tex_size; lia).
  split; [exact H|]. exact (grid_is_nearly_square 5 H).
Defined.

Lemma atlas_returns_iff_visible_witness :
  enumerates remove_dups
  /\ (has_visible_pixel sample_image ->
      exists tex uvm,
        generate_color_atlas remove_dups sample_image
        = Ok (tex, uvm, (shape_w sample_image, shape_h sample_image))
        /\ shape_h tex = tex_size /\ shape_w tex = tex_size)
  /\ (~ has_visible_pixel sample_image ->
      generate_color_atlas remove_dups sample_image = Raise ZeroDivisionError).
Proof.
  split; [exact remove_dups_enumerates|].
  exact (atlas_returns_iff_visible remove_dups remove_dups_enumerates
           sample_image).
Defined.

Lemma sample_image_few_colors :
  Z.of_nat (length (unique_colors remove_dups sample_image))
  <= tex_size * tex_size.
Proof. vm_compute. discriminate. Qed.

Lemma uv_map_keys_are_visible_colors_witness :
  enumerates remove_dups /\ has_visible_pixel sample_image
  /\ exists tex uvm,
       generate_color_atlas remove_dups sample_image
       = Ok (tex, uvm, (shape_w sample_image, shape_h sample_image))
       /\ (forall c, is_Some (uvm !! c) ->
             visible c = true
             /\ exists y x, 0 <= y < shape_h sample_image
                            /\ 0 <= x < shape_w sample_image
                            /\ pixel sample_image y x = c)
       /\ (Z.of_nat (length (unique_colors remove_dups sample_image))
           <= tex_size * tex_size ->
           (forall y x, 0 <= y < shape_h sample_image ->
              0 <= x < shape_w sample_image ->
              visible (pixel sample_image y x) = true ->
              is_Some (uvm !! pixel sample_image y x))
           /\ base.size uvm
              = length (unique_colors remove_dups sample_image)).
Proof.
  split; [exact remove_dups_enumerates|].
  split; [exact sample_image_visible|].
  exact (uv_map_keys_are_visible_colors remove_dups remove_dups_enumerates
           sample_image sample_image_visible).
Defined.

Lemma packed_colors_fill_their_cells_witness :
  enumerates remove_dups /\ has_visible_pixel sample_image
  /\ exists colors n cols rows cell_w cell_h tex uvm,
       packed_colors remove_dups sample_image = (colors, n)
       /\ atlas_grid n = Ok (cols, rows, cell_w, cell_h)
       /\ generate_color_atlas remove_dups sample_image
          = Ok (tex, uvm, (shape_w sample_image, shape_h sample_image))
       /\ forall (j : nat) c,
            colors !! j = Some c ->
            exists x_start x_end y_start y_end,
              cell_rect cell_w cell_h cols (Z.of_nat j)
              = Ok (x_start, x_end, y_start, y_end)
              /\ 0 <= x_start < x_end /\ x_end <= tex_size
              /\ 0 <= y_start < y_end /\ y_end <= tex_size
              /\ forall x y,
                   x_start <= x < x_end -> y_start <= y < y_end ->
                   pixel tex y x = c.
Proof.
  split; [exact remove_dups_enumerates|].
  split; [exact sample_image_visible|].
  exact (packed_colors_fill_their_cells remove_dups remove_dups_enumerates
           sample_image sample_image_visible).
Defined.

Lemma leftover_cells_hold_last_color_witness :
  enumerates remove_dups /\ has_visible_pixel sample_image
  /\ exists colors n cols rows cell_w cell_h last_color tex uvm,
       packed_colors remove_dups sample_image = (colors, n)
       /\ atlas_grid n = Ok (cols, rows, cell_w, cell_h)
       /\ last colors = Some last_color
       /\ generate_color_atlas remove_dups sample_image
          = Ok (tex, uvm, (shape_w sample_image, shape_h sample_image))
       /\ forall i,
            n <= i < cols * rows ->
            exists x_start x_end y_start y_end,
              cell_rect cell_w cell_h cols i
              = Ok (x_start, x_end, y_start, y_end)
              /\ 0 <= x_start < x_end /\ x_end <= tex_size
              /\ 0 <= y_start < y_end /\ y_end <= tex_size
              /\ forall x y,
                   x_start <= x < x_end -> y_start <= y < y_end ->
                   pixel tex y x = with_alpha last_color 255%N.
Proof.
  split; [exact remove_dups_enumerates|].
  split; [exact sample_image_visible|].
  exact (leftover_cells_hold_last_color remove_dups remove_dups_enumerates
           sample_image sample_image_visible).
Defined.


Lemma uv_entry_points_at_its_color_witness :
  enumerates remove_dups /\ has_visible_pixel sample_image
  /\ exists tex uvm,
       generate_color_atlas remove_dups sample_image
       = Ok (tex, uvm, (shape_w sample_image, shape_h sample_image))
       /\ forall c u v,
            uvm !! c = Some (u, v) ->
            exists x y,
              py_int (int_mul_float tex_size u) = Ok x
              /\ py_int (int_mul_float tex_size v) = Ok y
              /\ 0 <= x < tex_size /\ 0 <= y < tex_size
              /\ pixel tex y x = c.
Proof.
  split; [exact remove_dups_enumerates|].
  split; [exact sample_image_visible|].
  exact (uv_entry_points_at_its_color remove_dups remove_dups_enumerates
           sample_image sample_image_visible).
Defined.

(** ** The UV coordinates as the mesh files hold them *)

Lemma flips_checked : all_range 11 0 flip_check = true.
Proof. vm_cast_no_check (eq_refl true). Qed.

Lemma center_sum (c k : Z) :
  1 <= c <= tex_size -> 0 <= k < c ->
  1 <= grid_line c k + grid_line c (k + 1) < 2048
  /\ center c k = center63 (Uint63.of_Z (grid_line c k + grid_line c (k + 1))).
Proof.
  intros Hc Hk.
  destruct (grid_line_spec c k) as (_ & _ & _ & _ & ? & ?); [done..|].
  unfold tex_size in *. split; [lia|].
  unfold center. by rewrite int_truediv_center by lia.
Qed.

Lemma flipped_center63 (s : Z) :
  0 <= s < 2048 ->
  PrimFloat.sub 1 (center63 (Uint63.of_Z s))
  = center63 (Uint63.of_Z (2048 - s)).
Proof.
  intros Hs.
  pose proof (all_range_sound 11 flip_check 0 (Uint63.of_Z s)
                ltac:(lia) ltac:(done) flips_checked) as Hchk.
  rewrite to_of_Z in Hchk by lia.
  specialize (Hchk ltac:(rewrite Uint63.to_Z_0;
                          change (2 ^ Z.of_nat 11) with 2048; lia)).
  apply FloatAxioms.Leibniz.eqb_spec in Hchk. rewrite Hchk. f_equal.
  apply Uint63.to_Z_inj. rewrite Uint63.sub_spec, !to_of_Z, wB_eq by lia.
  change (Uint63.to_Z 2048) with 2048. rewrite Z.mod_small; lia.
Qed.

(** The coordinate [1 - v] written for the cells of a grid of [c] cells
    per side. *)
Lemma flipped_center_spec (c k : Z) :
  1 <= c <= tex_size -> 0 <= k < c ->
  in_unit (PrimFloat.sub 1 (center c k))
  /\ forall k', 0 <= k' < c -> k <> k' ->
       PrimFloat.eqb (PrimFloat.sub 1 (center c k))
         (PrimFloat.sub 1 (center c k')) = false.
Proof.
  intros Hc Hk.
  assert (forall s, 0 <= s < 2048 -> center_check (Uint63.of_Z s) = true)
    as Hchk.
  { intros s Hs.
    apply (all_range_sound 11 center_check 0);
      [lia|done|exact centers_checked|].
    rewrite to_of_Z by lia. rewrite Uint63.to_Z_0.
    change (2 ^ Z.of_nat 11) with 2048. lia. }
  destruct (center_sum c k Hc Hk) as [Hs ->].
  rewrite flipped_center63 by lia.
  set (s := grid_line c k + grid_line c (k + 1)) in *.
  pose proof (Hchk (2048 - s) ltac:(lia)) as Hc1. unfold center_check in Hc1.
  apply andb_true_iff in Hc1 as [[H0 H1]%andb_true_iff Hall].
  split; [done|].
  intros k' Hk' Hne. destruct (center_sum c k' Hc Hk') as [Hs' ->].
  rewrite flipped_center63 by lia.
  set (s' := grid_line c k' + grid_line c (k' + 1)) in *.
  pose proof (all_range_sound 11 _ 0 (Uint63.of_Z (2048 - s'))
                ltac:(lia) ltac:(done) Hall) as Hp.
  rewrite to_of_Z in Hp by lia.
  specialize (Hp ltac:(rewrite Uint63.to_Z_0;
                        change (2 ^ Z.of_nat 11) with 2048; lia)).
  apply orb_true_iff in Hp as [Heq|Hp]; [|by apply negb_true_iff].
  apply Uint63.eqb_spec in Heq.
  apply (f_equal Uint63.to_Z) in Heq. rewrite !to_of_Z in Heq by lia.
  subst s s'.
  assert (k < k' \/ k' < k) as [?|?] by lia.
  - assert (grid_line c k < grid_line c k') by (apply grid_line_mono; lia).
    assert (grid_line c (k + 1) < grid_line c (k' + 1))
      by (apply grid_line_mono; lia). lia.
  - assert (grid_line c k' < grid_line c k) by (apply grid_line_mono; lia).
    assert (grid_line c (k' + 1) < grid_line c (k + 1))
      by (apply grid_line_mono; lia). lia.
Qed.

Section atlas_uv_lines.
Context (set_to_list : list color -> list color).
Hypothesis set_to_list_spec : enumerates set_to_list.
Context (a : ndarray).

(** X18: what the tiler writes for a colour of the atlas, [u] and
    [1 - v], are again coordinates in [[0, 1)], and the pairs written for
    two different colour keys differ: flipping [v] merges no two
    colours. *)
Theorem written_uv_in_unit_and_distinct :
  has_visible_pixel a ->
  exists tex uvm,
    generate_color_atlas set_to_list a = Ok (tex, uvm, (shape_w a, shape_h a))
    /\ (forall c u v,
          uvm !! c = Some (u, v) ->
          one_minus (PyFloat v) = PyFloat (PrimFloat.sub 1 v)
          /\ in_unit u /\ in_unit (PrimFloat.sub 1 v))
    /\ (forall c1 c2 u1 v1 u2 v2,
          c1 <> c2 -> uvm !! c1 = Some (u1, v1) -> uvm !! c2 = Some (u2, v2) ->
          uv_differ (u1, PrimFloat.sub 1 v1) (u2, PrimFloat.sub 1 v2)).
Proof.
  intros Hvis.
  destruct (generate_color_atlas_spec set_to_list set_to_list_spec a Hvis)
    as (colors & n & cols & rows & cw & ch & tex & uvm & _ & _ & Hnd & Hn
        & Hrange & _ & Hcols & Hrows & Hcap & _ & _ & Hrun & Hin & Hout & _).
  assert (forall c u v, uvm !! c = Some (u, v) ->
            exists j : nat, colors !! j = Some c
                            /\ 0 <= Z.of_nat j < cols * rows
                            /\ u = center cols (Z.of_nat j mod cols)
                            /\ v = center rows (Z.of_nat j / cols)) as Hkey.
  { intros c u v Hc. destruct (decide (c ∈ colors)) as [Hel|Hnel].
    - apply list_elem_of_lookup in Hel as [j Hj].
      pose proof (lookup_lt_Some _ _ _ Hj).
      rewrite (Hin j c Hj) in Hc. unfold uv_of in Hc.
      injection Hc as <- <-. exists j. split_and!; [done|lia|lia|done|done].
    - rewrite (Hout c Hnel) in Hc. done. }
  exists tex, uvm. split_and!; [done| |].
  - intros c u v (j & _ & Hj & -> & ->)%Hkey.
    destruct (cell_index cols rows Hcols Hrows _ Hj) as [Hkx Hky].
    destruct (center_spec cols _ Hcols Hkx) as (_ & ? & _).
    destruct (flipped_center_spec rows _ Hrows Hky) as (? & _).
    done.
  - intros c1 c2 u1 v1 u2 v2 Hne (j1 & Hj1 & Hi1 & -> & ->)%Hkey
      (j2 & Hj2 & Hi2 & -> & ->)%Hkey.
    unfold uv_differ. cbn [fst snd].
    destruct (cell_index cols rows Hcols Hrows _ Hi1) as [Hx1 Hy1].
    destruct (cell_index cols rows Hcols Hrows _ Hi2) as [Hx2 Hy2].
    pose proof (Z.div_mod (Z.of_nat j1) cols ltac:(lia)).
    pose proof (Z.div_mod (Z.of_nat j2) cols ltac:(lia)).
    assert (j1 <> j2) as Hjne by congruence.
    destruct (Z.eq_dec (Z.of_nat j1 mod cols) (Z.of_nat j2 mod cols))
      as [Heq|Hc].
    + right.
      destruct (flipped_center_spec rows _ Hrows Hy1) as (_ & Hd).
      apply Hd; [done|]. intros Hr. rewrite Heq, Hr in *. lia.
    + left. destruct (center_spec cols _ Hcols Hx1) as (_ & _ & Hd).
      by apply Hd.
Qed.
End atlas_uv_lines.

Lemma written_uv_in_unit_and_distinct_witness :
  enumerates remove_dups /\ has_visible_pixel sample_image
  /\ exists tex uvm,
       generate_color_atlas remove_dups sample_image
       = Ok (tex, uvm, (shape_w sample_image, shape_h sample_image))
       /\ (forall c u v,
             uvm !! c = Some (u, v) ->
             one_minus (PyFloat v) = PyFloat (PrimFloat.sub 1 v)
             /\ in_unit u /\ in_unit (PrimFloat.sub 1 v))
       /\ (forall c1 c2 u1 v1 u2 v2,
             c1 <> c2 ->
             uvm !! c1 = Some (u1, v1) -> uvm !! c2 = Some (u2, v2) ->
             uv_differ (u1, PrimFloat.sub 1 v1) (u2, PrimFloat.sub 1 v2)).
Proof.
  split; [exact remove_dups_enumerates|].
  split; [exact sample_image_visible|].
  exact (written_uv_in_unit_and_distinct remove_dups remove_dups_enumerates
           sample_image sample_image_visible).
Defined.

(** ** The script as a whole *)

Section script.
Context (set_to_list : list color -> list color).
Hypothesis set_to_list_spec : enumerates set_to_list.
Context (a : ndarray).
Hypothesis width_range : 1 <= shape_w a < 2 ^ 51.
Hypothesis height_range : 1 <= shape_h a < 2 ^ 51.

(** X19: the script returns exactly for the images that have a pixel
    with alpha above 0; its result is the tiler's, run with the UV map
    of the atlas builder and the default budget of 10000 triangles, and
    it lists at least one mesh file.  On every other image it raises
    [ZeroDivisionError] before the tiler starts. *)
Theorem main_returns_iff_visible :
  (has_visible_pixel a ->
   exists tex uvm paths files,
     generate_color_atlas set_to_list a = Ok (tex, uvm, (shape_w a, shape_h a))
     /\ create_tiled_meshes a uvm (shape_w a, shape_h a) 10000
        = Ok (paths, files)
     /\ main set_to_list a = Ok (paths, files)
     /\ paths <> [])
  /\ (~ has_visible_pixel a -> main set_to_list a = Raise ZeroDivisionError).
Proof.
  split.
  - intros Hvis.
    destruct (generate_color_atlas_spec set_to_list set_to_list_spec a Hvis)
      as (colors & n & cols & rows & cw & ch & tex & uvm & _ & _ & _ & _ & _
          & _ & _ & _ & _ & _ & _ & Hatlas & _).
    destruct (create_tiled_meshes_inside a uvm 10000
                width_range height_range ltac:(lia))
      as (cpm & rpm & nx & ny & paths & files & Htil & Hrun & _ & _ & Hyes & _).
    destruct (tiling_spec _ _ _ width_range height_range
                (ltac:(lia) : 2 <= 10000))
      as (cpm' & rpm' & nx' & ny' & Htil' & _ & _ & Hc & Hr & _ & Hnx & Hny).
    rewrite Htil in Htil'. injection Htil' as <- <- <- <-.
    exists tex, uvm, paths, files. split_and!; [done|done| |].
    + unfold main. rewrite Hatlas. exact Hrun.
    + destruct Hvis as (y & x & Hy & Hx & Hv).
      assert ((y, x) ∈ tile_pixels 0 (shape_w a) 0 (shape_h a)) as Hpx
        by (apply elem_of_tile_pixels; lia).
      rewrite <-(tiles_cover _ _ cpm rpm nx ny Hc Hr Hnx Hny) in Hpx.
      apply list_elem_of_bind in Hpx as ([ty tx] & Hpx & Ht).
      cbn [fst snd] in Hpx.
      destruct (Hyes tx ty Ht) as [Hin _].
      { apply (written_tile_true a cpm rpm nx ny); [done..|].
        exists x, y. split; [|done].
        destruct (tile_bounds (shape_w a) (shape_h a) cpm rpm tx ty)
          as [[[xs xe] ys] ye].
        apply elem_of_tile_pixels in Hpx. done. }
      intros Hnil. rewrite Hnil in Hin. by apply elem_of_nil in Hin.
  - intros Hn.
    apply (transparent_image_raises set_to_list a set_to_list_spec).
    intros y x Hy Hx.
    destruct (N.eq_dec (alpha (pixel a y x)) 0%N) as [|Hne]; [done|].
    destruct Hn. exists y, x. split; [done|]. split; [done|].
    unfold visible. apply N.ltb_lt. lia.
Qed.

(** X20: in a run of the script the tiler's lookup
    [color_to_uv.get(color, (0, 0))] falls back to the default for every
    pixel with alpha 0, and, when the image has at most
    [tex_size * tex_size] visible colours, for no other pixel: a pixel
    with alpha above 0 gets the UV entry of its colour, with
    [0 <= u, v < 1]. *)
Theorem fallback_uv_only_for_transparent_pixels :
  has_visible_pixel a ->
  exists tex uvm paths files,
    generate_color_atlas set_to_list a = Ok (tex, uvm, (shape_w a, shape_h a))
    /\ create_tiled_meshes a uvm (shape_w a, shape_h a) 10000
       = Ok (paths, files)
    /\ main set_to_list a = Ok (paths, files)
    /\ (forall y x,
          0 <= y < shape_h a -> 0 <= x < shape_w a ->
          alpha (pixel a y x) = 0%N ->
          uv_get uvm (pixel a y x) = (PyInt 0, PyInt 0))
    /\ (Z.of_nat (length (unique_colors set_to_list a))
        <= tex_size * tex_size ->
        forall y x,
          0 <= y < shape_h a -> 0 <= x < shape_w a ->
          (0 < alpha (pixel a y x))%N ->
          exists u v,
            uvm !! pixel a y x = Some (u, v)
            /\ uv_get uvm (pixel a y x) = (PyFloat u, PyFloat v)
            /\ in_unit u /\ in_unit v).
Proof.
  intros Hvis.
  destruct (generate_color_atlas_run set_to_list set_to_list_spec a Hvis)
    as (colors & n & cols & rows & cw & ch & lc & _ & Hnd & Hn & _ & Hsub
        & Hall & _ & Hcols & Hrows & Hcap & _ & _ & _ & Hatlas).
  set (uvm := foldl (record cols rows) ∅ (enumerate_from 0 colors)) in *.
  destruct (create_tiled_meshes_inside a uvm 10000
              width_range height_range ltac:(lia))
    as (cpm & rpm & nx & ny & paths & files & _ & Hrun & _).
  do 2 eexists. exists paths, files.
  split_and!; [exact Hatlas|exact Hrun| | |].
  - unfold main. rewrite Hatlas. exact Hrun.
  - intros y x Hy Hx Hz. unfold uv_get.
    assert (pixel a y x ∉ colors) as Hnel.
    { intros Hc%Hsub. unfold unique_colors in Hc.
      apply set_to_list_spec, elem_of_visible_colors in Hc
        as (y' & x' & _ & _ & _ & Hv).
      unfold visible in Hv. rewrite Hz in Hv. done. }
    fold uvm. unfold uvm at 1.
    by rewrite (record_enumerated_None cols rows colors 0 _ Hnel).
  - intros Hle y x Hy Hx Hv.
    assert (pixel a y x ∈ colors) as [j Hj]%list_elem_of_lookup.
    { rewrite (Hall Hle). unfold unique_colors.
      apply set_to_list_spec, elem_of_visible_colors. exists y, x.
      split_and!; try done; try lia. unfold visible. by apply N.ltb_lt. }
    pose proof (lookup_lt_Some _ _ _ Hj) as Hlt.
    assert (0 <= Z.of_nat j < cols * rows) as Hi by lia.
    pose proof (record_enumerated cols rows colors 0 ∅ j _ Hnd Hj) as Hlook.
    rewrite Z.add_0_l in Hlook. fold uvm in Hlook.
    destruct (uv_of_in_unit cols rows Hcols Hrows _ Hi) as [Hu Hv'].
    destruct (uv_of cols rows (Z.of_nat j)) as [u v] eqn:Huv.
    exists u, v. unfold uv_get. rewrite Hlook. done.
Qed.
End script.

Lemma sample_image_extent :
  1 <= shape_w sample_image < 2 ^ 51 /\ 1 <= shape_h sample_image < 2 ^ 51.
Proof. simpl. lia. Qed.

Lemma main_returns_iff_visible_witness :
  enumerates remove_dups
  /\ 1 <= shape_w sample_image < 2 ^ 51 /\ 1 <= shape_h sample_image < 2 ^ 51
  /\ (has_visible_pixel sample_image ->
      exists tex uvm paths files,
        generate_color_atlas remove_dups sample_image
        = Ok (tex, uvm, (shape_w sample_image, shape_h sample_image))
        /\ create_tiled_meshes sample_image uvm
             (shape_w sample_image, shape_h sample_image) 10000
           = Ok (paths, files)
        /\ main remove_dups sample_image = Ok (paths, files)
        /\ paths <> [])
  /\ (~ has_visible_pixel sample_image ->
      main remove_dups sample_image = Raise ZeroDivisionError).
Proof.
  split; [exact remove_dups_enumerates|].
  split; [exact (proj1 sample_image_extent)|].
  split; [exact (proj2 sample_image_extent)|].
  exact (main_returns_iff_visible remove_dups remove_dups_enumerates
           sample_image (proj1 sample_image_extent)
           (proj2 sample_image_extent)).
Defined.

Lemma fallback_uv_only_for_transparent_pixels_witness :
  enumerates remove_dups
  /\ 1 <= shape_w sample_image < 2 ^ 51 /\ 1 <= shape_h sample_image < 2 ^ 51
  /\ has_visible_pixel sample_image
  /\ exists tex uvm paths files,
       generate_color_atlas remove_dups sample_image
       = Ok (tex, uvm, (shape_w sample_image, shape_h sample_image))
       /\ create_tiled_meshes sample_image uvm
            (shape_w sample_image, shape_h sample_image) 10000
          = Ok (paths, files)
       /\ main remove_dups sample_image = Ok (paths, files)
       /\ (forall y x,
             0 <= y < shape_h sample_image -> 0 <= x < shape_w sample_image ->
             alpha (pixel sample_image y x) = 0%N ->
             uv_get uvm (pixel sample_image y x) = (PyInt 0, PyInt 0))
       /\ (Z.of_nat (length (unique_colors remove_dups sample_image))
           <= tex_size * tex_size ->
           forall y x,
             0 <= y < shape_h sample_image -> 0 <= x < shape_w sample_image ->
             (0 < alpha (pixel sample_image y x))%N ->
             exists u v,
               uvm !! pixel sample_image y x = Some (u, v)
               /\ uv_get uvm (pixel sample_image y x) = (PyFloat u, PyFloat v)
               /\ in_unit u /\ in_unit v).
Proof.
  split; [exact remove_dups_enumerates|].
  split; [exact (proj1 sample_image_extent)|].
  split; [exact (proj2 sample_image_extent)|].
  split; [exact sample_image_visible|].
  exact (fallback_uv_only_for_transparent_pixels remove_dups
           remove_dups_enumerates sample_image (proj1 sample_image_extent)
           (proj2 sample_image_extent) sample_image_visible).
Defined.
